(** * voyager-stats: date-range normalisation and cache control

    A shallow embedding of [lib/handler.js] and [lib/stats-fetchers.js].

    Conventions of the model.
    - A JavaScript string is represented by the bytes of its UTF-8
      encoding (a Rocq [string]).  The two regular expressions of the
      handler only accept ASCII text, and the form-urlencoded serializer
      works on the UTF-8 bytes, so nothing the handler does depends on a
      finer view.
    - A value that is [string | null] is an [option string]; [!v] is
      [falsy v].
    - The wall clock is a time value: milliseconds since the epoch, in [Z].
    - An [async] function is a computation in the monad [M]: it threads the
      world (clock, response under construction, log of the queries issued)
      and either returns or throws. *)

From Stdlib Require Import ZArith QArith Lia Ascii String.
From stdpp Require Import base option list strings pretty gmap.

Local Open Scope string_scope.
Local Open Scope Z_scope.

(** ** Characters and strings *)

Definition code (c : ascii) : Z := Z.of_N (N_of_ascii c).

Definition is_digit (c : ascii) : bool := (48 <=? code c) && (code c <=? 57).

(** The decimal digit [0..9] as a character; anything else is reduced first,
    the callers only pass digits. *)
Definition digit_char (d : Z) : ascii := ascii_of_N (Z.to_N (48 + d mod 10)).

(** [padStart(n, '0')] of the decimal form of a number below [10^n]. *)
Fixpoint pad_digits (n : nat) (v : Z) : string :=
  match n with
  | O => ""
  | S k => pad_digits k (v / 10) +:+ String (digit_char v) ""
  end.

(** [s.split(sep)] for a one-character separator: never empty. *)
Fixpoint split (sep : ascii) (s : string) : list string :=
  match s with
  | EmptyString => [EmptyString]
  | String c r =>
      if Ascii.eqb c sep then EmptyString :: split sep r
      else match split sep r with
           | [] => [String c EmptyString]
           | h :: t => String c h :: t
           end
  end.

(** [a < b] on strings: the first differing code unit decides, a proper
    prefix is smaller. *)
Fixpoint string_lt (a b : string) : bool :=
  match a, b with
  | _, EmptyString => false
  | EmptyString, String _ _ => true
  | String x a', String y b' =>
      if code x <? code y then true
      else if code y <? code x then false
      else string_lt a' b'
  end.

(** [a >= b] on strings is [!(a < b)]. *)
Definition string_ge (a b : string) : bool := negb (string_lt a b).

(** ** Dates: [Date.prototype.toISOString]

    The time value is split into a day number and the time within the day;
    the day number is turned into a proleptic Gregorian date. *)

Definition msPerDay : Z := 86400000.

Definition Day (t : Z) : Z := t / msPerDay.
Definition TimeWithinDay (t : Z) : Z := t mod msPerDay.

Record CivilDate := { cd_year : Z; cd_month : Z; cd_day : Z }.

(** Day number (days since 1970-01-01) to year, month [1..12], day [1..31].
    Eras of 400 years start on 1 March of year 0. *)
Definition civil_from_days (days : Z) : CivilDate :=
  let z := days + 719468 in
  let era := z / 146097 in
  let doe := z - era * 146097 in
  let yoe := (doe - doe / 1460 + doe / 36524 - doe / 146096) / 365 in
  let y := yoe + era * 400 in
  let doy := doe - (365 * yoe + yoe / 4 - yoe / 100) in
  let mp := (5 * doy + 2) / 153 in
  let d := doy - (153 * mp + 2) / 5 + 1 in
  let m := if mp <? 10 then mp + 3 else mp - 9 in
  {| cd_year := if m <=? 2 then y + 1 else y; cd_month := m; cd_day := d |}.

Definition YearFromTime (t : Z) : Z := cd_year (civil_from_days (Day t)).
(** Month as printed, [1..12] (the ECMAScript MonthFromTime plus one). *)
Definition MonthFromTime1 (t : Z) : Z := cd_month (civil_from_days (Day t)).
Definition DateFromTime (t : Z) : Z := cd_day (civil_from_days (Day t)).

(** Years [0..9999] print with four digits, the others with a sign and six. *)
Definition iso_year (y : Z) : string :=
  if (0 <=? y) && (y <=? 9999) then pad_digits 4 y
  else (if y <? 0 then "-" else "+") +:+ pad_digits 6 (Z.abs y).

(** [new Date(t).toISOString()]: [YYYY-MM-DDTHH:mm:ss.sssZ] in UTC. *)
Definition toISOString (t : Z) : string :=
  let w := TimeWithinDay t in
  iso_year (YearFromTime t) +:+ "-" +:+ pad_digits 2 (MonthFromTime1 t) +:+ "-"
    +:+ pad_digits 2 (DateFromTime t) +:+ "T"
    +:+ pad_digits 2 (w / 3600000) +:+ ":"
    +:+ pad_digits 2 (w / 60000 mod 60) +:+ ":"
    +:+ pad_digits 2 (w / 1000 mod 60) +:+ "."
    +:+ pad_digits 3 (w mod 1000) +:+ "Z".

(** [const getDayAsISOString = (d) => d.toISOString().split('T')[0]] *)
Definition getDayAsISOString (d : Z) : string :=
  match split "T" (toISOString d) with
  | h :: _ => h
  | [] => ""
  end.

(** ** [URLSearchParams]

    A list of name-value pairs.  [get] returns the first value of a name, or
    [null]. *)

Definition URLSearchParams : Type := list (string * string).

Fixpoint get (sp : URLSearchParams) (name : string) : option string :=
  match sp with
  | [] => None
  | (k, v) :: rest => if String.eqb k name then Some v else get rest name
  end.

(** [new URLSearchParams({ from, to })]: the own properties of the object
    literal, in insertion order. *)
Definition URLSearchParams_of_filter (from to : string) : URLSearchParams :=
  [("from", from); ("to", to)].

(** Bytes the form-urlencoded serializer leaves as they are: ASCII letters
    and digits, and [*], [-], [.], [_]. *)
Definition urlencoded_safe (c : ascii) : bool :=
  let n := code c in
  ((48 <=? n) && (n <=? 57)) || ((65 <=? n) && (n <=? 90))
  || ((97 <=? n) && (n <=? 122))
  || (n =? 42) || (n =? 45) || (n =? 46) || (n =? 95).

Definition hex_upper (n : Z) : ascii :=
  ascii_of_N (Z.to_N (if n <? 10 then 48 + n else 55 + n)).

(** One byte of the serializer: a space becomes [+], a safe byte is kept,
    every other byte becomes [%XX] with upper-case hex digits. *)
Definition urlencode_byte (c : ascii) : string :=
  if code c =? 32 then "+"
  else if urlencoded_safe c then String c ""
  else String "%" (String (hex_upper (code c / 16))
                     (String (hex_upper (code c mod 16)) "")).

Fixpoint urlencode (s : string) : string :=
  match s with
  | EmptyString => ""
  | String c r => urlencode_byte c +:+ urlencode r
  end.

Fixpoint join (sep : string) (l : list string) : string :=
  match l with
  | [] => ""
  | [x] => x
  | x :: r => x +:+ sep +:+ join sep r
  end.

(** [sp.toString()] *)
Definition URLSearchParams_toString (sp : URLSearchParams) : string :=
  join "&" (map (fun kv => urlencode (fst kv) +:+ "=" +:+ urlencode (snd kv)) sp).

(** The form-urlencoded parser, which the URL of a request goes through
    before [searchParams] is read. *)

Definition hex_value (c : ascii) : option Z :=
  let n := code c in
  if (48 <=? n) && (n <=? 57) then Some (n - 48)
  else if (65 <=? n) && (n <=? 70) then Some (n - 55)
  else if (97 <=? n) && (n <=? 102) then Some (n - 87)
  else None.

Fixpoint percent_decode (s : string) : string :=
  match s with
  | EmptyString => ""
  | String c r =>
      if Ascii.eqb c "%" then
        match r with
        | String h (String l r') =>
            match hex_value h, hex_value l with
            | Some a, Some b =>
                String (ascii_of_N (Z.to_N (16 * a + b))) (percent_decode r')
            | _, _ => String c (percent_decode r)
            end
        | _ => String c (percent_decode r)
        end
      else String c (percent_decode r)
  end.

Fixpoint plus_to_space (s : string) : string :=
  match s with
  | EmptyString => ""
  | String c r => String (if Ascii.eqb c "+" then " "%char else c) (plus_to_space r)
  end.

(** Name and value of one [name=value] sequence: cut at the first [=]. *)
Fixpoint cut_at (sep : ascii) (s : string) : string * string :=
  match s with
  | EmptyString => ("", "")
  | String c r =>
      if Ascii.eqb c sep then ("", r)
      else let '(a, b) := cut_at sep r in (String c a, b)
  end.

Definition urlencoded_parse (input : string) : URLSearchParams :=
  flat_map (fun piece =>
    match piece with
    | EmptyString => []
    | _ => let '(n, v) := cut_at "=" piece in
           [(percent_decode (plus_to_space n), percent_decode (plus_to_space v))]
    end) (split "&" input).

(** ** The regular expression of the handler

    [/^(\d{4}-\d{2}-\d{2})(T\d{2}:\d{2}:\d{2}\.\d{3}Z)?$/]: a sequence of
    atoms, each a digit class or a literal character, then an optional second
    sequence, anchored at both ends. *)

Inductive Atom := Digit | Lit (c : ascii).

(** Match a sequence of atoms at the start of [s]: the text matched and the
    rest, or [None]. *)
Fixpoint match_atoms (p : list Atom) (s : string) : option (string * string) :=
  match p with
  | [] => Some ("", s)
  | a :: p' =>
      match s with
      | EmptyString => None
      | String c r =>
          if match a with Digit => is_digit c | Lit l => Ascii.eqb c l end then
            match match_atoms p' r with
            | Some (m, rest) => Some (String c m, rest)
            | None => None
            end
          else None
      end
  end.

Definition date_atoms : list Atom :=
  [Digit; Digit; Digit; Digit; Lit "-"; Digit; Digit; Lit "-"; Digit; Digit].

Definition time_atoms : list Atom :=
  [Lit "T"; Digit; Digit; Lit ":"; Digit; Digit; Lit ":"; Digit; Digit;
   Lit "."; Digit; Digit; Digit; Lit "Z"].

(** The result of [s.match(re)]: capture group 1, and capture group 2 when it
    took part in the match ([undefined] otherwise); [null] is [None]. *)
Definition match_date_re (s : string) : option (string * option string) :=
  match match_atoms date_atoms s with
  | None => None
  | Some (g1, rest) =>
      match match_atoms time_atoms rest with
      | Some (g2, EmptyString) => Some (g1, Some g2)
      | _ => match rest with
             | EmptyString => Some (g1, None)
             | String _ _ => None
             end
      end
  end.

(** ** Values, errors and the world *)

(** [import('./typings').Filter] *)
Record Filter := { from : string; to : string }.

(** [!v] for a value that is a string or [null]: [null] and the empty string
    are falsy. *)
Definition falsy (v : option string) : bool :=
  match v with
  | None => true
  | Some EmptyString => true
  | Some (String _ _) => false
  end.

(** The string held by a value known not to be [null]. *)
Definition the (v : option string) : string := default "" v.

(** What can be thrown: a [SyntaxError], an error made by [http-assert]
    (it carries [statusCode] and [message]), or any other error, which has no
    [statusCode]. *)
Inductive JsError :=
  | SyntaxError
  | HttpError (statusCode : Z) (message : string)
  | OtherError (message : string).

Inductive Outcome (A : Type) :=
  | Return (a : A)
  | Throw (e : JsError).
Arguments Return {A} a.
Arguments Throw {A} e.

(** What [res.end] was given. *)
Inductive Body (J : Type) :=
  | NoBody
  | Text (s : string)
  | Json (stats : J).
Arguments NoBody {J}.
Arguments Text {J} s.
Arguments Json {J} stats.

(** [http.ServerResponse]: the status code, the headers set so far, and the
    body once the response has been ended. *)
Record ServerResponse (J : Type) := {
  statusCode : Z;
  headers : gmap string string;
  ended : option (Body J)
}.
Arguments statusCode {J} _.
Arguments headers {J} _.
Arguments ended {J} _.

(** The world of one request: the clock, the response, the filters the
    statistics query was called with (oldest first), and the errors handed to
    the error tracker. *)
Record World (J : Type) := {
  now : Z;
  res : ServerResponse J;
  queries : list Filter;
  captured : list JsError
}.
Arguments now {J} _.
Arguments res {J} _.
Arguments queries {J} _.
Arguments captured {J} _.

(** A response nothing was written to: status 200, no header. *)
Definition fresh_response {J} : ServerResponse J :=
  {| statusCode := 200; headers := ∅; ended := None |}.

Definition initial_world {J} (clock : Z) : World J :=
  {| now := clock; res := fresh_response; queries := []; captured := [] |}.

(** The monad of request handling. *)
Definition M (J A : Type) : Type := World J → Outcome A * World J.

Global Instance M_ret {J} : MRet (M J) := λ A a w, (Return a, w).
Global Instance M_bind {J} : MBind (M J) := λ A B f m w,
  match m w with
  | (Return a, w') => f a w'
  | (Throw e, w') => (Throw e, w')
  end.

Definition throw {J A} (e : JsError) : M J A := λ w, (Throw e, w).

Definition update_res {J} (f : ServerResponse J → ServerResponse J) : M J unit :=
  λ w, (Return tt, {| now := now w; res := f (res w);
                      queries := queries w; captured := captured w |}).

(** [res.setHeader(name, value)] *)
Definition setHeader {J} (name value : string) : M J unit :=
  update_res (λ r, {| statusCode := statusCode r;
                      headers := <[name := value]> (headers r);
                      ended := ended r |}).

(** [res.statusCode = status] and [res.writeHead(status)]; the source calls
    [writeHead] with 301 and 302 only, which Node accepts. *)
Definition writeHead {J} (status : Z) : M J unit :=
  update_res (λ r, {| statusCode := status; headers := headers r; ended := ended r |}).

(** The status codes that Node sends: [writeHead] refuses any other with a
    [RangeError] (ERR_HTTP_INVALID_STATUS_CODE). *)
Definition valid_status (status : Z) : bool :=
  (100 <=? status) && (status <=? 999).

(** [res.end(body)].  The head is written here at the latest, with the status
    code the response holds; for a status code that Node refuses, [res.end]
    throws and nothing is sent. *)
Definition end_ {J} (b : Body J) : M J unit :=
  λ w, if valid_status (statusCode (res w)) then
         update_res (λ r, {| statusCode := statusCode r; headers := headers r;
                             ended := Some b |}) w
       else
         throw (OtherError ("Invalid status code: " +:+ pretty (statusCode (res w)))) w.

(** [json(res, stats)] of http-responders: ends the response with the JSON
    text of [stats].  The content type it announces is left out. *)
Definition json {J} (stats : J) : M J unit := end_ (Json stats).

(** [Date.now()] and [new Date()] read the clock. *)
Definition Date_now {J} : M J Z := λ w, (Return (now w), w).

(** [export const today = () => getDayAsISOString(new Date())] *)
Definition today {J} : M J string :=
  d ← Date_now; mret (getDayAsISOString d).

(** [assert(value, status, message)] of http-assert, for a value that is a
    match result or [null]: hands the match over, or throws. *)
Definition assert {J A} (value : option A) (status : Z) (message : string) : M J A :=
  match value with
  | Some a => mret a
  | None => throw (HttpError status message)
  end.

(** [await fetchStatsFn(pgPool, filter)]: the call is recorded, its outcome
    is the one of the function. *)
Definition await_fetch {J P} (fetchStatsFn : P → Filter → Outcome J)
    (pgPool : P) (filter : Filter) : M J J :=
  λ w, (fetchStatsFn pgPool filter,
        {| now := now w; res := res w;
           queries := queries w ++ [filter]; captured := captured w |}).

Definition dquote : string := String (ascii_of_N 34) "".

Definition from_format_message : string :=
  dquote +:+ "from" +:+ dquote +:+ " must have format YYYY-MM-DD or YYYY-MM-DDThh:mm:ss.sssZ".
Definition to_format_message : string :=
  dquote +:+ "to" +:+ dquote +:+ " must have format YYYY-MM-DD or YYYY-MM-DDThh:mm:ss.sssZ".

(** ** [lib/handler.js] *)

Definition setCacheControlForStatsResponse {J} (filter : Filter) : M J unit :=
  (* We cannot simply compare filter.to vs today(): up to one hour is allowed
     for the finalization of the previous day. *)
  t ← Date_now;
  let boundary := getDayAsISOString (t - 3600000) in
  if string_ge (to filter) boundary then
    (* response includes partial data for today, cache it for 10 minutes only *)
    setHeader "cache-control" "public, max-age=600"
  else
    (* historical data should never change, cache it for one year *)
    setHeader "cache-control"
      ("public, max-age=" +:+ pretty (365 * 24 * 3600) +:+ ", immutable").

(** The mutable locals [from], [to] and [shouldRedirect] are threaded through
    the three blocks of the function.  The result is the [{ from, to }] of a
    redirect, or [undefined] ([None]) once the statistics were sent. *)
Definition getStatsWithFilterAndCaching {J P} (pathname : string)
    (searchParams : URLSearchParams) (pgPool : P)
    (fetchStatsFn : P → Filter → Outcome J) : M J (option Filter) :=
  let from0 := get searchParams "from" in
  let to0 := get searchParams "to" in
  let shouldRedirect := false in
  (* Provide default values for "from" and "to" when not specified *)
  '(to1, shouldRedirect) ←
    (if falsy to0 then t ← today; mret (t, true)
     else mret (the to0, shouldRedirect));
  let '(from1, shouldRedirect) :=
    if falsy from0 then (to1, true) else (the from0, shouldRedirect) in
  if shouldRedirect then
    setHeader "cache-control" ("public, max-age=" +:+ pretty 600);;
    setHeader "location"
      (pathname +:+ "?" +:+
       URLSearchParams_toString (URLSearchParams_of_filter from1 to1));;
    writeHead 302;;
    end_ NoBody;;
    mret (Some {| from := from1; to := to1 |})
  else
    (* Trim time from date-time values that are typically provided by Grafana *)
    matchFrom ← assert (match_date_re from1) 400 from_format_message;
    let '(from2, shouldRedirect) :=
      if falsy (snd matchFrom) then (from1, shouldRedirect)
      else (fst matchFrom, true) in
    matchTo ← assert (match_date_re to1) 400 to_format_message;
    let '(to2, shouldRedirect) :=
      if falsy (snd matchTo) then (to1, shouldRedirect)
      else (fst matchTo, true) in
    if shouldRedirect then
      setHeader "cache-control" ("public, max-age=" +:+ pretty (24 * 3600));;
      setHeader "location"
        (pathname +:+ "?" +:+
         URLSearchParams_toString (URLSearchParams_of_filter from2 to2));;
      writeHead 301;;
      end_ NoBody;;
      mret (Some {| from := from2; to := to2 |})
    else
      (* We have well-formed from & to dates now, let's fetch the requested
         stats from the DB *)
      let filter := {| from := from2; to := to2 |} in
      stats ← await_fetch fetchStatsFn pgPool filter;
      setCacheControlForStatsResponse filter;;
      json stats;;
      mret None.

(** [Sentry.captureException(err)] *)
Definition captureException {J} (err : JsError) : M J unit :=
  λ w, (Return tt, {| now := now w; res := res w; queries := queries w;
                      captured := captured w ++ [err] |}).

(** [errorHandler(res, err, logger)]; the line written to the logger is left
    out.  [err.statusCode] is any number: when it is not zero and Node
    refuses it as a status code, [res.end] throws, so [errorHandler] throws
    before the error tracker is reached. *)
Definition errorHandler {J} (err : JsError) : M J unit :=
  match err with
  | SyntaxError => writeHead 400;; end_ (Text "Invalid JSON Body")
  | HttpError status message =>
      if status =? 0 then writeHead 500;; end_ (Text "Internal Server Error")
      else writeHead status;; end_ (Text message)
  | OtherError _ => writeHead 500;; end_ (Text "Internal Server Error")
  end;;
  status ← (λ w, (Return (statusCode (res w)), w));
  if 500 <=? status then captureException err else mret tt.

(** [route.catch(err => errorHandler(res, err, logger))] as [createHandler]
    wraps every route; what [errorHandler] throws is the outcome, a rejection
    that nothing handles. *)
Definition catch {J A} (route : M J A) : M J unit :=
  λ w, match route w with
       | (Return _, w') => (Return tt, w')
       | (Throw e, w') => errorHandler e w'
       end.

(** One request to a statistics route, from a fresh response to the response
    sent. *)
Definition serve {J P} (clock : Z) (pathname : string)
    (searchParams : URLSearchParams) (pgPool : P)
    (fetchStatsFn : P → Filter → Outcome J) : World J :=
  snd (catch (getStatsWithFilterAndCaching pathname searchParams pgPool fetchStatsFn)
         (initial_world clock)).

(** ** The two accepted wire forms, position by position

    These follow the wording of the formats, [YYYY-MM-DD] and
    [YYYY-MM-DDThh:mm:ss.sssZ], and are independent of the matcher above: a
    letter of the format stands for one decimal digit, every other character
    for itself. *)

Definition digit_at (s : string) (i : nat) : bool :=
  match String.get i s with
  | Some c => is_digit c
  | None => false
  end.

Definition char_at (s : string) (i : nat) (c : ascii) : bool :=
  match String.get i s with
  | Some x => Ascii.eqb x c
  | None => false
  end.

(** [YYYY-MM-DD] *)
Definition is_date (s : string) : bool :=
  forallb (digit_at s) [0; 1; 2; 3]%nat && char_at s 4 "-"
  && forallb (digit_at s) [5; 6]%nat && char_at s 7 "-"
  && forallb (digit_at s) [8; 9]%nat
  && Nat.eqb (String.length s) 10.

(** [YYYY-MM-DDThh:mm:ss.sssZ] *)
Definition is_timestamp (s : string) : bool :=
  forallb (digit_at s) [0; 1; 2; 3]%nat && char_at s 4 "-"
  && forallb (digit_at s) [5; 6]%nat && char_at s 7 "-"
  && forallb (digit_at s) [8; 9]%nat && char_at s 10 "T"
  && forallb (digit_at s) [11; 12]%nat && char_at s 13 ":"
  && forallb (digit_at s) [14; 15]%nat && char_at s 16 ":"
  && forallb (digit_at s) [17; 18]%nat && char_at s 19 "."
  && forallb (digit_at s) [20; 21; 22]%nat && char_at s 23 "Z"
  && Nat.eqb (String.length s) 24.

(** A timestamp cut down to its date part. *)
Definition date_part (s : string) : string := String.substring 0 10 s.

(** What the regular expression computes, in terms of the two forms. *)
Definition match_date_spec (s : string) : option (string * option string) :=
  if is_date s then Some (s, None)
  else if is_timestamp s then Some (date_part s, Some (String.substring 10 14 s))
  else None.

(** ** [lib/stats-fetchers.js]

    The pool gives access to the table [retrieval_stats].  A [DATE] is a day
    number (days since 1970-01-01); a [DATE] parameter arrives as text and is
    read by the database, which rejects text that is no date.  The model of
    that reading covers the ISO form [YYYY-MM-DD], the only form the handler
    lets through; [day::text] prints the same form. *)

Record RetrievalStat := {
  day : Z;
  miner_id : string;
  total : Z;
  successful : Z
}.

Record PgPool := { retrieval_stats : list RetrievalStat }.

(** Year, month and day to the day number: the inverse of [civil_from_days]
    on the dates that exist. *)
Definition days_from_civil (y m d : Z) : Z :=
  let y' := if m <=? 2 then y - 1 else y in
  let era := y' / 400 in
  let yoe := y' - era * 400 in
  let doy := (153 * (if 2 <? m then m - 3 else m + 9) + 2) / 5 + d - 1 in
  let doe := yoe * 365 + yoe / 4 - yoe / 100 + doy in
  era * 146097 + doe - 719468.

(** The number written by a string of decimal digits. *)
Definition Z_of_digits (s : string) : Z :=
  fold_left (λ acc c, 10 * acc + (code c - 48)) (list_ascii_of_string s) 0.

(** The three numbers of a string in the form [YYYY-MM-DD]. *)
Definition date_fields (s : string) : Z * Z * Z :=
  (Z_of_digits (String.substring 0 4 s),
   Z_of_digits (String.substring 5 2 s),
   Z_of_digits (String.substring 8 2 s)).

(** [$n::DATE]: the day number of an existing date of the years 1 to 9999,
    [None] when the database rejects the text. *)
Definition pg_date_in (s : string) : option Z :=
  if is_date s then
    let '(y, m, d) := date_fields s in
    let n := days_from_civil y m d in
    let c := civil_from_days n in
    if (1 <=? y) && (cd_year c =? y) && (cd_month c =? m) && (cd_day c =? d)
    then Some n else None
  else None.

(** [day::text] *)
Definition pg_date_out (n : Z) : string :=
  let c := civil_from_days n in
  pad_digits 4 (cd_year c) +:+ "-" +:+ pad_digits 2 (cd_month c) +:+ "-"
    +:+ pad_digits 2 (cd_day c).

(** [WHERE day >= $1 AND day <= $2] *)
Definition in_range (lo hi : Z) (r : RetrievalStat) : bool :=
  (lo <=? day r) && (day r <=? hi).

(** [SELECT key, SUM(total), SUM(successful) ... GROUP BY key]: one entry per
    key that occurs, holding the two sums over the rows of that key.  The
    order of the groups is left to the database; here it is the order of the
    map. *)
Definition add_to_group `{Countable K} (key : RetrievalStat → K)
    (r : RetrievalStat) (groups : gmap K (Z * Z)) : gmap K (Z * Z) :=
  match groups !! key r with
  | Some (t, s) => <[key r := (t + total r, s + successful r)]> groups
  | None => <[key r := (total r, successful r)]> groups
  end.

Definition group_sums `{Countable K} (key : RetrievalStat → K)
    (rows : list RetrievalStat) : gmap K (Z * Z) :=
  foldr (add_to_group key) ∅ rows.

(** [FROM retrieval_stats WHERE day >= $1 AND day <= $2 GROUP BY key] with
    the two sums, or the error of the database when a parameter is no
    date. *)
Definition query_grouped `{Countable K} (pgPool : PgPool)
    (key : RetrievalStat → K) (params : string * string)
    : Outcome (list (K * (Z * Z))) :=
  match pg_date_in params.1, pg_date_in params.2 with
  | Some lo, Some hi =>
      Return (map_to_list
                (group_sums key (List.filter (in_range lo hi) (retrieval_stats pgPool))))
  | _, _ => Throw (OtherError "invalid input syntax for type date")
  end.

Global Instance Outcome_ret : MRet Outcome := λ A a, Return a.
Global Instance Outcome_bind : MBind Outcome := λ A B f o,
  match o with
  | Return a => f a
  | Throw e => Throw e
  end.
Global Instance Outcome_fmap : FMap Outcome := λ A B f o,
  match o with
  | Return a => Return (f a)
  | Throw e => Throw e
  end.

(** The rows of the two statements, as the driver hands them over. *)
Module DailyRow.
Record t := { day : string; total : Z; successful : Z }.
End DailyRow.

Module MinerRow.
Record t := { miner_id : string; total : Z; successful : Z }.
End MinerRow.

(** [SELECT day::text, SUM(total) as total, SUM(successful) as successful
     FROM retrieval_stats WHERE day >= $1 AND day <= $2 GROUP BY day] *)
Definition query_by_day (pgPool : PgPool) (params : string * string)
    : Outcome (list DailyRow.t) :=
  map (λ g, {| DailyRow.day := pg_date_out g.1;
               DailyRow.total := g.2.1;
               DailyRow.successful := g.2.2 |})
    <$> query_grouped pgPool day params.

(** [SELECT miner_id, SUM(total) as total, SUM(successful) as successful
     FROM retrieval_stats WHERE day >= $1 AND day <= $2 GROUP BY miner_id] *)
Definition query_by_miner (pgPool : PgPool) (params : string * string)
    : Outcome (list MinerRow.t) :=
  map (λ g, {| MinerRow.miner_id := g.1;
               MinerRow.total := g.2.1;
               MinerRow.successful := g.2.2 |})
    <$> query_grouped pgPool miner_id params.

(** A JavaScript number with the rounding to a double left out: a rational,
    or one of the three other values a division can produce. *)
Inductive JsNumber :=
  | Num (q : Q)
  | NaN
  | PosInfinity
  | NegInfinity.

(** [a / b] on two integers.  The driver hands the sums over as decimal
    text; [>] and [/] read them as numbers. *)
Definition js_div (a b : Z) : JsNumber :=
  if b =? 0 then
    if a =? 0 then NaN else if 0 <? a then PosInfinity else NegInfinity
  else Num (inject_Z a / inject_Z b)%Q.

(** The objects of the two results; [null] is [None]. *)
Module DailyStat.
Record t := { day : string; success_rate : option JsNumber }.
End DailyStat.

Module MinerStat.
Record t := { miner_id : string; success_rate : option JsNumber }.
End MinerStat.

Definition fetchRetrievalSuccessRate (pgPool : PgPool) (filter : Filter)
    : Outcome (list DailyStat.t) :=
  (* Fetch the "day" (DATE) as a string (TEXT) *)
  rows ← query_by_day pgPool (from filter, to filter);
  let stats := map (λ r,
    {| DailyStat.day := DailyRow.day r;
       DailyStat.success_rate :=
         if 0 <? DailyRow.total r
         then Some (js_div (DailyRow.successful r) (DailyRow.total r))
         else None |}) rows in
  mret stats.

Definition fetchMinersRSRSummary (pgPool : PgPool) (filter : Filter)
    : Outcome (list MinerStat.t) :=
  rows ← query_by_miner pgPool (from filter, to filter);
  let stats := map (λ r,
    {| MinerStat.miner_id := MinerRow.miner_id r;
       MinerStat.success_rate :=
         if 0 <? MinerRow.total r
         then Some (js_div (MinerRow.successful r) (MinerRow.total r))
         else None |}) rows in
  mret stats.

(** ** Vocabulary of the statements *)

(** The world with another response. *)
Definition with_res {J} (w : World J) (r : ServerResponse J) : World J :=
  {| now := now w; res := r; queries := queries w; captured := captured w |}.

(** The world after one more call of the statistics query. *)
Definition with_query {J} (w : World J) (filter : Filter) : World J :=
  {| now := now w; res := res w; queries := queries w ++ [filter];
     captured := captured w |}.

(** A response turned into an ended redirect. *)
Definition redirect_response {J} (r : ServerResponse J) (status : Z)
    (cache location : string) : ServerResponse J :=
  {| statusCode := status;
     headers := <["location" := location]> (<["cache-control" := cache]> (headers r));
     ended := Some NoBody |}.

(** [requestPath?from=<from>&to=<to>], values percent-encoded. *)
Definition redirect_location (pathname from to : string) : string :=
  pathname +:+ "?from=" +:+ urlencode from +:+ "&to=" +:+ urlencode to.

(** The cache directive of a served range, by [to] and the clock. *)
Definition stats_cache_control (clock : Z) (to : string) : string :=
  if string_ge to (getDayAsISOString (clock - 3600000))
  then "public, max-age=600"
  else "public, max-age=31536000, immutable".

(** A response that carries statistics. *)
Definition stats_response {J} (r : ServerResponse J) (cache : string) (stats : J)
    : ServerResponse J :=
  {| statusCode := statusCode r;
     headers := <["cache-control" := cache]> (headers r);
     ended := Some (Json stats) |}.

(** The value of a parameter after the defaulting block. *)
Definition defaulted_to (clock : Z) (to0 : option string) : string :=
  if falsy to0 then getDayAsISOString clock else the to0.
Definition defaulted_from (clock : Z) (from0 to0 : option string) : string :=
  if falsy from0 then defaulted_to clock to0 else the from0.

(** A value in one of the two forms, cut down to its date. *)
Definition trimmed (s : string) : string :=
  if is_timestamp s then date_part s else s.

Definition well_formed (s : string) : bool := is_date s || is_timestamp s.

Definition digits (l : list ascii) : Prop := Forall (λ c, is_digit c = true) l.

(** Whether a character occurs in a string. *)
Fixpoint has_char (c : ascii) (s : string) : bool :=
  match s with
  | EmptyString => false
  | String x r => Ascii.eqb x c || has_char c r
  end.

(** One call of [getStatsWithFilterAndCaching] on a fresh response: what it
    returns or throws, and the world it leaves. *)
Definition handle {J P} (clock : Z) (pathname : string)
    (searchParams : URLSearchParams) (pgPool : P)
    (fetchStatsFn : P → Filter → Outcome J) : Outcome (option Filter) * World J :=
  getStatsWithFilterAndCaching pathname searchParams pgPool fetchStatsFn
    (initial_world clock).

(** The header of a response, [None] when it was not set. *)
Definition header {J} (w : World J) (name : string) : option string :=
  headers (res w) !! name.

(** A statistics query that returns nothing, for the examples. *)
Definition no_stats : unit → Filter → Outcome unit := λ _ _, Return tt.

(** The outcome of a redirect: the function returned [{ from, to }]. *)
Definition redirected {A} (o : Outcome (option A)) : bool :=
  match o with
  | Return (Some _) => true
  | _ => false
  end.

(** The outcome is an error of status 400. *)
Definition bad_request {A} (o : Outcome A) : bool :=
  match o with
  | Throw (HttpError status _) => status =? 400
  | _ => false
  end.

(** Both parameters are given, not empty, and bare dates. *)
Definition canonical (searchParams : URLSearchParams) : bool :=
  negb (falsy (get searchParams "from")) && negb (falsy (get searchParams "to"))
  && is_date (the (get searchParams "from")) && is_date (the (get searchParams "to")).

(** A parameter as the handler sees it: an empty value counts as none. *)
Definition given (v : option string) : option string :=
  if falsy v then None else v.

(** The order of calendar dates: by year, then month, then day. *)
Definition civil_leb (a b : Z * Z * Z) : bool :=
  let '(y1, m1, d1) := a in
  let '(y2, m2, d2) := b in
  (y1 <? y2) || ((y1 =? y2) && ((m1 <? m2) || ((m1 =? m2) && (d1 <=? d2)))).

(** The UTC calendar date of a time value. *)
Definition civil_of_time (t : Z) : Z * Z * Z :=
  (YearFromTime t, MonthFromTime1 t, DateFromTime t).

(** The time values whose year is written with four digits: from
    0000-01-01T00:00:00.000Z up to 9999-12-31T23:59:59.999Z. *)
Definition four_digit_year (t : Z) : Prop :=
  -62167219200000 ≤ t < 253402300800000.

(** The sum of a column over rows. *)
Definition sum_of (column : RetrievalStat → Z) (rows : list RetrievalStat) : Z :=
  foldr (λ r acc, column r + acc) 0 rows.

(** The rows of a group. *)
Definition rows_of_key `{EqDecision K} (key : RetrievalStat → K) (k : K)
    (rows : list RetrievalStat) : list RetrievalStat :=
  List.filter (λ r, bool_decide (key r = k)) rows.

(** A success rate that is a number is a rational: no [NaN], no infinity. *)
Definition rate_is_sound (rate : option JsNumber) : Prop :=
  match rate with
  | None => True
  | Some (Num _) => True
  | Some _ => False
  end.

(** The table of the scenario with two miners over two days, and a third
    day without any retrieval. *)
Definition seeded : PgPool := {| retrieval_stats := [
  {| day := 19732; miner_id := "f1one"; total := 10; successful := 1 |};
  {| day := 19732; miner_id := "f1two"; total := 100; successful := 50 |};
  {| day := 19733; miner_id := "f1one"; total := 20; successful := 1 |};
  {| day := 19733; miner_id := "f1two"; total := 200; successful := 60 |};
  {| day := 19734; miner_id := "f1three"; total := 0; successful := 0 |} ] |}.

(** The day number of 1 January of a year, as ECMAScript defines it. *)
Definition DayFromYear (y : Z) : Z :=
  365 * (y - 1970) + (y - 1969) / 4 - (y - 1901) / 100 + (y - 1601) / 400.

(** * The rest of the two files *)

(** ** [lib/stats-fetchers.js]: participants

    The table [daily_participants] has one row per day and participant. *)

Record Participation := { on_day : Z; participant_id : Z }.

(** The pool with both tables. *)
Record Pool := {
  stats_pool : PgPool;
  daily_participants : list Participation
}.

(** [COUNT(DISTINCT participant_id) ... GROUP BY key]: per key that occurs,
    the set of the participants of its rows. *)
Definition add_participant `{Countable K} (key : Participation → K)
    (r : Participation) (groups : gmap K (gset Z)) : gmap K (gset Z) :=
  <[key r := {[participant_id r]} ∪ default ∅ (groups !! key r)]> groups.

Definition group_participants `{Countable K} (key : Participation → K)
    (rows : list Participation) : gmap K (gset Z) :=
  foldr (add_participant key) ∅ rows.

(** [date_trunc('month', d)]: the first day of the month of [d]. *)
Definition month_start (d : Z) : Z :=
  let c := civil_from_days d in
  days_from_civil (cd_year c) (cd_month c) 1.

(** [date_trunc('month', d) + INTERVAL '1 month']: the first day of the
    month after. *)
Definition next_month_start (d : Z) : Z :=
  let c := civil_from_days d in
  if cd_month c =? 12 then days_from_civil (cd_year c + 1) 1 1
  else days_from_civil (cd_year c) (cd_month c + 1) 1.

Module ParticipantsRow.
Record t := { day : string; participants : Z }.
End ParticipantsRow.

Module MonthRow.
Record t := { month : string; participants : Z }.
End MonthRow.

(** [SELECT day::TEXT, COUNT(DISTINCT participant_id)::INT as participants
     FROM daily_participants WHERE day >= $1 AND day <= $2 GROUP BY day] *)
Definition fetchDailyParticipants (pgPool : Pool) (filter : Filter)
    : Outcome (list ParticipantsRow.t) :=
  match pg_date_in (from filter), pg_date_in (to filter) with
  | Some lo, Some hi =>
      let rows := List.filter (λ r, (lo <=? on_day r) && (on_day r <=? hi))
                    (daily_participants pgPool) in
      Return (map (λ g, {| ParticipantsRow.day := pg_date_out g.1;
                           ParticipantsRow.participants := Z.of_nat (size g.2) |})
                (map_to_list (group_participants on_day rows)))
  | _, _ => Throw (OtherError "invalid input syntax for type date")
  end.

(** [SELECT date_trunc('month', day)::DATE::TEXT as month,
            COUNT(DISTINCT participant_id)::INT as participants
     FROM daily_participants
     WHERE day >= date_trunc('month', $1::DATE)
       AND day < date_trunc('month', $2::DATE) + INTERVAL '1 month'
     GROUP BY month] *)
Definition fetchMonthlyParticipants (pgPool : Pool) (filter : Filter)
    : Outcome (list MonthRow.t) :=
  match pg_date_in (from filter), pg_date_in (to filter) with
  | Some lo, Some hi =>
      let rows := List.filter (λ r, (month_start lo <=? on_day r)
                                    && (on_day r <? next_month_start hi))
                    (daily_participants pgPool) in
      Return (map (λ g, {| MonthRow.month := pg_date_out g.1;
                           MonthRow.participants := Z.of_nat (size g.2) |})
                (map_to_list (group_participants (λ r, month_start (on_day r)) rows)))
  | _, _ => Throw (OtherError "invalid input syntax for type date")
  end.

(** ** [lib/handler.js]: the router

    What the routes send as JSON. *)
Inductive Stats :=
  | RetrievalSuccessRate (rows : list DailyStat.t)
  | DailyParticipants (rows : list ParticipantsRow.t)
  | MonthlyParticipants (rows : list MonthRow.t).

(** [req.method], and the two parts that [new URL] makes of [req.url]. *)
Record IncomingMessage := {
  method : string;
  url_pathname : string;
  url_searchParams : URLSearchParams
}.

Definition notFound : M Stats unit :=
  writeHead 404;; end_ (Text "Not Found").

(** [pathname.split('/').filter(Boolean)] *)
Definition segments (pathname : string) : list string :=
  List.filter (λ s, negb (String.eqb s "")) (split "/" pathname).

(** [segs[i] === name]: false beyond the end of the array. *)
Definition seg_is (segs : list string) (i : nat) (name : string) : bool :=
  bool_decide (segs !! i = Some name).

Definition handler (req : IncomingMessage) (pgPool : Pool) : M Stats unit :=
  let pathname := url_pathname req in
  let searchParams := url_searchParams req in
  let segs := segments pathname in
  if String.eqb (method req) "GET" && seg_is segs 0 "retrieval-success-rate"
     && Nat.eqb (length segs) 1 then
    getStatsWithFilterAndCaching pathname searchParams pgPool
      (λ p f, RetrievalSuccessRate <$> fetchRetrievalSuccessRate (stats_pool p) f);;
    mret tt
  else if String.eqb (method req) "GET" && seg_is segs 0 "participants"
          && seg_is segs 1 "daily" && Nat.eqb (length segs) 2 then
    getStatsWithFilterAndCaching pathname searchParams pgPool
      (λ p f, DailyParticipants <$> fetchDailyParticipants p f);;
    mret tt
  else if String.eqb (method req) "GET" && seg_is segs 0 "participants"
          && seg_is segs 1 "monthly" && Nat.eqb (length segs) 2 then
    getStatsWithFilterAndCaching pathname searchParams pgPool
      (λ p f, MonthlyParticipants <$> fetchMonthlyParticipants p f);;
    mret tt
  else if String.eqb (method req) "GET" && Nat.eqb (length segs) 0 then
    (* health check - required by Grafana datasources *)
    end_ (Text "OK")
  else
    notFound.

(** [createHandler({ pgPool, logger })(req, res)] on a fresh response, up to
    the response sent; the lines written to the logger are left out. *)
Definition createHandler (pgPool : Pool) (clock : Z) (req : IncomingMessage)
    : World Stats :=
  (catch (handler req pgPool) (initial_world clock)).2.

(** ** More vocabulary *)

(** The order of calendar dates. *)
Definition civil_le (a b : CivilDate) : Prop :=
  cd_year a < cd_year b
  ∨ (cd_year a = cd_year b
     ∧ (cd_month a < cd_month b ∨ (cd_month a = cd_month b ∧ cd_day a ≤ cd_day b))).

(** The tables of the test suite for the participants. *)
Definition participants_pool : Pool := {|
  stats_pool := seeded;
  daily_participants :=
    map (λ p, {| on_day := p.1; participant_id := p.2 |})
      [ (19722, 1); (19722, 2);
        (19732, 10); (19732, 20);
        (19733, 10); (19733, 20); (19733, 30);
        (19734, 10); (19734, 20); (19734, 40); (19734, 50);
        (19766, 10); (19766, 60);
        (19783, 99) ]
|}.

(** The status and the text that [errorHandler] sends for an error. *)
Definition error_status (err : JsError) : Z :=
  match err with
  | SyntaxError => 400
  | HttpError status _ => if status =? 0 then 500 else status
  | OtherError _ => 500
  end.

Definition error_text (err : JsError) : string :=
  match err with
  | SyntaxError => "Invalid JSON Body"
  | HttpError status message =>
      if status =? 0 then "Internal Server Error" else message
  | OtherError _ => "Internal Server Error"
  end.

(** The world after [errorHandler]: the error answered and, from 500 on,
    reported; or, for a status code that Node refuses, the status set on the
    response and nothing sent or reported, as [res.end] throws. *)
Definition error_world {J} (err : JsError) (w : World J) : World J :=
  if valid_status (error_status err) then
    {| now := now w;
       res := {| statusCode := error_status err; headers := headers (res w);
                 ended := Some (Text (error_text err)) |};
       queries := queries w;
       captured := if 500 <=? error_status err then (captured w ++ [err])%list
                   else captured w |}
  else
    {| now := now w;
       res := {| statusCode := error_status err; headers := headers (res w);
                 ended := ended (res w) |};
       queries := queries w;
       captured := captured w |}.

(** What [errorHandler] returns or throws. *)
Definition error_outcome (err : JsError) : Outcome unit :=
  if valid_status (error_status err) then Return tt
  else Throw (OtherError ("Invalid status code: " +:+ pretty (error_status err))).

(** A query function whose errors carry no status, as the errors of the
    database do. *)
Definition throws_plain_errors {J P} (fetchStatsFn : P → Filter → Outcome J) : Prop :=
  ∀ pgPool filter err,
    fetchStatsFn pgPool filter = Throw err → ∃ message, err = OtherError message.

(** The segments of the paths that are routed; the empty one is the health
    check. *)
Definition routes : list (list string) :=
  [ []; ["retrieval-success-rate"]; ["participants"; "daily"];
    ["participants"; "monthly"] ].

Definition routed (req : IncomingMessage) : Prop :=
  method req = "GET" ∧ segments (url_pathname req) ∈ routes.

(** The query functions of the three statistics routes, as the router hands
    them over. *)
Definition route_fetcher (segs : list string) : option (Pool → Filter → Outcome Stats) :=
  if decide (segs = ["retrieval-success-rate"]) then
    Some (λ p f, RetrievalSuccessRate <$> fetchRetrievalSuccessRate (stats_pool p) f)
  else if decide (segs = ["participants"; "daily"]) then
    Some (λ p f, DailyParticipants <$> fetchDailyParticipants p f)
  else if decide (segs = ["participants"; "monthly"]) then
    Some (λ p f, MonthlyParticipants <$> fetchMonthlyParticipants p f)
  else None.

(** A string of slashes, or the empty string. *)
Fixpoint only_slashes (s : string) : bool :=
  match s with
  | EmptyString => true
  | String c r => Ascii.eqb c "/" && only_slashes r
  end.

(** The months counted from the year 0: the month of a day. *)
Definition month_index (d : Z) : Z :=
  let c := civil_from_days d in 12 * cd_year c + cd_month c.

(** The participants seen on the rows of a key. *)
Definition participants_of `{EqDecision K} (key : Participation → K) (k : K)
    (rows : list Participation) : gset Z :=
  list_to_set (participant_id <$> List.filter (λ r, bool_decide (key r = k)) rows).

(** A success rate that is a number lies between 0 and 1. *)
Definition rate_is_fraction (rate : option JsNumber) : Prop :=
  match rate with
  | None => True
  | Some (Num q) => (0 <= q <= 1)%Q
  | Some _ => False
  end.

(** No row of the table counts more successful retrievals than retrievals. *)
Definition consistent (pgPool : PgPool) : Prop :=
  ∀ r, r ∈ retrieval_stats pgPool → 0 ≤ successful r ≤ total r.

(** The Gregorian calendar: leap years and the lengths of the months. *)
Definition is_leap (y : Z) : bool :=
  (y mod 4 =? 0) && (negb (y mod 100 =? 0) || (y mod 400 =? 0)).

Definition days_in_month (y m : Z) : Z :=
  if m =? 2 then (if is_leap y then 29 else 28)
  else if (m =? 4) || (m =? 6) || (m =? 9) || (m =? 11) then 30
  else 31.

(** A string in the form [YYYY-MM-DD] that names a date of the calendar, in
    the years that the database knows in this form. *)
Definition existing_date (s : string) : bool :=
  let '(y, m, d) := date_fields s in
  (1 <=? y) && (1 <=? m) && (m <=? 12) && (1 <=? d) && (d <=? days_in_month y m).

(** The time values before 10000-01-01T00:00:00.000Z. *)
Definition before_year_10000 (t : Z) : Prop := t < 253402300800000.
(** * Examples of the model *)

Example iso_grafana : toISOString 1704894284289 = "2024-01-10T13:44:44.289Z".
Proof. vm_compute. reflexivity. Qed.
Example iso_epoch : toISOString 0 = "1970-01-01T00:00:00.000Z".
Proof. vm_compute. reflexivity. Qed.
Example iso_leap : toISOString 1709251199999 = "2024-02-29T23:59:59.999Z".
Proof. vm_compute. reflexivity. Qed.
Example iso_before_epoch : toISOString (-1) = "1969-12-31T23:59:59.999Z".
Proof. vm_compute. reflexivity. Qed.
Example iso_max_4digit : toISOString 253402300799999 = "9999-12-31T23:59:59.999Z".
Proof. vm_compute. reflexivity. Qed.
Example iso_expanded : toISOString 253402300800000 = "+010000-01-01T00:00:00.000Z".
Proof. vm_compute. reflexivity. Qed.
Example day_grafana : getDayAsISOString 1704894284289 = "2024-01-10".
Proof. vm_compute. reflexivity. Qed.
Example serialize_grafana :
  URLSearchParams_toString (URLSearchParams_of_filter "2024-01-10T13:44:44.289Z" "a b&c=d")
  = "from=2024-01-10T13%3A44%3A44.289Z&to=a+b%26c%3Dd".
Proof. vm_compute. reflexivity. Qed.
Example parse_grafana :
  urlencoded_parse "from=2024-01-10T13%3A44%3A44.289Z&&to=a+b%26c%3Dd&x"
  = [("from", "2024-01-10T13:44:44.289Z"); ("to", "a b&c=d"); ("x", "")].
Proof. vm_compute. reflexivity. Qed.
Example re_date : match_date_re "2024-01-10" = Some ("2024-01-10", None).
Proof. reflexivity. Qed.
Example re_datetime :
  match_date_re "2024-01-10T13:44:44.289Z" = Some ("2024-01-10", Some "T13:44:44.289Z").
Proof. reflexivity. Qed.
Example re_slashes : match_date_re "2024/01/01" = None.
Proof. reflexivity. Qed.
Example re_words : match_date_re "Jan 1 2024" = None.
Proof. reflexivity. Qed.
Example re_trailing_newline : match_date_re (String.append "2024-01-10" (String "010" "")) = None.
Proof. reflexivity. Qed.
Example re_no_millis : match_date_re "2024-01-10T13:44:44Z" = None.
Proof. reflexivity. Qed.
Example re_any_digits : match_date_re "2024-99-99" = Some ("2024-99-99", None).
Proof. reflexivity. Qed.

(** * Properties *)

(** ** Strings *)

Lemma append_cons x (a b : string) : String x a +:+ b = String x (a +:+ b).
Proof. reflexivity. Qed.

Lemma append_assoc (a b c : string) : (a +:+ b) +:+ c = a +:+ (b +:+ c).
Proof.
  induction a as [|x a IH]; [reflexivity|].
  change (String x ((a +:+ b) +:+ c) = String x (a +:+ (b +:+ c))). by rewrite IH.
Qed.

Lemma append_nil_r (a : string) : a +:+ "" = a.
Proof.
  induction a as [|x a IH]; [reflexivity|].
  change (String x (a +:+ "") = String x a). by rewrite IH.
Qed.

(** ** The regular expression and the two forms *)

Ltac re_step s :=
  let c := fresh "c" in
  destruct s as [|c s]; [reflexivity|]; cbn;
  first [ destruct (is_digit c) eqn:?; [|reflexivity]
        | match goal with |- context [Ascii.eqb c ?l] =>
            destruct (Ascii.eqb c l) eqn:?; [|reflexivity] end ]; cbn.

Lemma match_date_re_spec s : match_date_re s = match_date_spec s.
Proof.
  unfold match_date_re, match_date_spec, is_date, is_timestamp, date_part,
    digit_at, char_at.
  do 24 (re_step s).
  destruct s; reflexivity.
Qed.

(** Reading a boolean shape test back into the shape of the string. *)
Ltac shape_step s H :=
  let c := fresh "c" in
  destruct s as [|c s]; [discriminate H|]; cbn in H;
  first [ destruct (is_digit c) eqn:?; [|discriminate H]
        | match type of H with context [Ascii.eqb c ?l] =>
            let E := fresh "E" in
            destruct (Ascii.eqb c l) eqn:E; [|discriminate H];
            apply Ascii.eqb_eq in E; subst c end ]; cbn in H.

Lemma is_date_inv s :
  is_date s = true →
  ∃ y1 y2 y3 y4 m1 m2 d1 d2,
    digits [y1; y2; y3; y4; m1; m2; d1; d2] ∧
    s = String y1 (String y2 (String y3 (String y4 (String "-"
          (String m1 (String m2 (String "-" (String d1 (String d2 ""))))))))).
Proof.
  intros H. unfold is_date, digit_at, char_at in H.
  do 10 (shape_step s H).
  destruct s; [|discriminate H].
  do 8 eexists. split; [|reflexivity]. repeat constructor; assumption.
Qed.

Lemma is_date_intro y1 y2 y3 y4 m1 m2 d1 d2 :
  digits [y1; y2; y3; y4; m1; m2; d1; d2] →
  is_date (String y1 (String y2 (String y3 (String y4 (String "-"
          (String m1 (String m2 (String "-" (String d1 (String d2 "")))))))))) = true.
Proof.
  intros H. unfold digits in H. repeat (apply Forall_cons_1 in H as [? H]).
  unfold is_date, digit_at, char_at. cbn.
  repeat match goal with E : is_digit _ = true |- _ => rewrite E; clear E end.
  reflexivity.
Qed.

Lemma is_timestamp_date_part s :
  is_timestamp s = true → is_date (date_part s) = true.
Proof.
  intros H. unfold is_timestamp, digit_at, char_at in H.
  do 24 (shape_step s H).
  destruct s; [|discriminate H].
  apply is_date_intro. repeat constructor; assumption.
Qed.

(** The two forms are disjoint: they differ in length. *)
Lemma date_not_timestamp s : is_date s = true → is_timestamp s = false.
Proof.
  intros H. destruct (is_date_inv s H) as (?&?&?&?&?&?&?&?&_&->).
  unfold is_timestamp. cbn. apply andb_false_r.
Qed.

Lemma match_date_re_date s : is_date s = true → match_date_re s = Some (s, None).
Proof. intros H. rewrite match_date_re_spec. unfold match_date_spec. by rewrite H. Qed.

Lemma match_date_re_timestamp s :
  is_timestamp s = true →
  match_date_re s = Some (date_part s, Some (String.substring 10 14 s)).
Proof.
  intros H. rewrite match_date_re_spec. unfold match_date_spec. rewrite H.
  destruct (is_date s) eqn:E; [|done].
  apply date_not_timestamp in E. congruence.
Qed.

Lemma match_date_re_none s :
  is_date s = false → is_timestamp s = false → match_date_re s = None.
Proof. intros H1 H2. rewrite match_date_re_spec. unfold match_date_spec. by rewrite H1, H2. Qed.

Lemma match_date_re_well_formed s :
  well_formed s = true → ∃ g1 g2, match_date_re s = Some (g1, g2).
Proof.
  intros H. rewrite match_date_re_spec. unfold match_date_spec.
  apply orb_prop in H as [->| ->]; [by eauto|].
  destruct (is_date s); eauto.
Qed.

(** The second capture group is never the empty string. *)
Lemma timestamp_suffix_truthy s :
  is_timestamp s = true → falsy (Some (String.substring 10 14 s)) = false.
Proof.
  intros H. unfold is_timestamp, digit_at, char_at in H.
  do 24 (shape_step s H). reflexivity.
Qed.

(** What the match hands over for a value in one of the forms: the date,
    and a second group that is there for a timestamp only. *)
Lemma match_date_re_trimmed s :
  well_formed s = true →
  ∃ g, match_date_re s = Some (trimmed s, g) ∧ falsy g = negb (is_timestamp s).
Proof.
  intros H. unfold trimmed. destruct (is_timestamp s) eqn:Ets.
  - eexists. split; [by apply match_date_re_timestamp|].
    by apply timestamp_suffix_truthy.
  - unfold well_formed in H. rewrite Ets, orb_false_r in H.
    eexists. split; [by apply match_date_re_date|]. reflexivity.
Qed.

(** ** The serializer and the parser of query strings *)

Ltac each_byte c := destruct c as [[] [] [] [] [] [] [] []].

(** Decoding undoes the encoding of one byte. *)
Lemma decode_urlencode_byte c r :
  percent_decode (plus_to_space (urlencode_byte c +:+ r))
  = String c (percent_decode (plus_to_space r)).
Proof. each_byte c; reflexivity. Qed.

Lemma decode_urlencode s : percent_decode (plus_to_space (urlencode s)) = s.
Proof.
  induction s as [|c s IH]; [reflexivity|].
  cbn [urlencode]. by rewrite decode_urlencode_byte, IH.
Qed.

(** The encoding of a byte holds neither [&] nor [=]. *)
Lemma urlencode_byte_no_amp c r :
  has_char "&" (urlencode_byte c +:+ r) = has_char "&" r.
Proof. each_byte c; reflexivity. Qed.

Lemma urlencode_byte_no_eq c r :
  has_char "=" (urlencode_byte c +:+ r) = has_char "=" r.
Proof. each_byte c; reflexivity. Qed.

Lemma urlencode_no_amp s : has_char "&" (urlencode s) = false.
Proof.
  induction s as [|c s IH]; [reflexivity|].
  cbn [urlencode]. by rewrite urlencode_byte_no_amp.
Qed.

Lemma urlencode_no_eq s : has_char "=" (urlencode s) = false.
Proof.
  induction s as [|c s IH]; [reflexivity|].
  cbn [urlencode]. by rewrite urlencode_byte_no_eq.
Qed.

Lemma split_no_sep sep a : has_char sep a = false → split sep a = [a].
Proof.
  induction a as [|x a IH]; [reflexivity|]. cbn.
  intros [Hx Ha]%orb_false_elim. rewrite Hx, (IH Ha). reflexivity.
Qed.

Lemma split_at_sep sep a b :
  has_char sep a = false → split sep (a +:+ String sep b) = a :: split sep b.
Proof.
  induction a as [|x a IH].
  - intros _. change ("" +:+ String sep b) with (String sep b).
    cbn [split]. by rewrite Ascii.eqb_refl.
  - intros [Hx Ha]%orb_false_elim. rewrite append_cons. cbn [split].
    rewrite Hx, (IH Ha). reflexivity.
Qed.

Lemma has_char_app c a b : has_char c (a +:+ b) = has_char c a || has_char c b.
Proof.
  induction a as [|x a IH]; [reflexivity|].
  rewrite append_cons. cbn. by rewrite IH, orb_assoc.
Qed.

(** Parsing the query string of a redirect gives back the two values. *)
Lemma parse_serialized f t :
  urlencoded_parse ("from=" +:+ urlencode f +:+ "&to=" +:+ urlencode t)
  = [("from", f); ("to", t)].
Proof.
  unfold urlencoded_parse.
  replace ("from=" +:+ urlencode f +:+ "&to=" +:+ urlencode t)
    with (("from=" +:+ urlencode f) +:+ String "&" ("to=" +:+ urlencode t))
    by (by rewrite append_assoc).
  rewrite split_at_sep by (rewrite has_char_app, urlencode_no_amp; reflexivity).
  rewrite split_no_sep by (rewrite has_char_app, urlencode_no_amp; reflexivity).
  change ("from=" +:+ urlencode f) with (String "f" (String "r" (String "o" (String "m" (String "=" (urlencode f)))))).
  change ("to=" +:+ urlencode t) with (String "t" (String "o" (String "=" (urlencode t)))).
  cbn. by rewrite !decode_urlencode.
Qed.

Lemma get_parse_serialized f t :
  let sp := urlencoded_parse ("from=" +:+ urlencode f +:+ "&to=" +:+ urlencode t) in
  get sp "from" = Some f ∧ get sp "to" = Some t.
Proof. cbv zeta. rewrite parse_serialized. split; reflexivity. Qed.

(** A date is left as it is by the serializer. *)
Lemma urlencode_byte_digit c : is_digit c = true → urlencode_byte c = String c "".
Proof. each_byte c; intros H; first [reflexivity | discriminate H]. Qed.

Lemma urlencode_date d : is_date d = true → urlencode d = d.
Proof.
  intros H. destruct (is_date_inv d H) as (y1&y2&y3&y4&m1&m2&d1&d2&Hd&->).
  unfold digits in Hd. repeat (apply Forall_cons_1 in Hd as [? Hd]).
  cbn [urlencode].
  repeat match goal with E : is_digit _ = true |- _ =>
    rewrite (urlencode_byte_digit _ E); clear E end.
  reflexivity.
Qed.

Lemma date_part_date d : is_date d = true → date_part d = d.
Proof.
  intros H. by destruct (is_date_inv d H) as (y1&y2&y3&y4&m1&m2&d1&d2&Hd&->).
Qed.

Lemma trimmed_date_part s : well_formed s = true → trimmed s = date_part s.
Proof.
  intros H. unfold trimmed. destruct (is_timestamp s) eqn:E; [reflexivity|].
  unfold well_formed in H. rewrite E, orb_false_r in H. by rewrite date_part_date.
Qed.

Lemma trimmed_is_date s : well_formed s = true → is_date (trimmed s) = true.
Proof.
  intros H. unfold trimmed. destruct (is_timestamp s) eqn:E.
  - by apply is_timestamp_date_part.
  - unfold well_formed in H. by rewrite E, orb_false_r in H.
Qed.

Lemma well_formed_nonempty s : well_formed s = true → s ≠ "".
Proof. by intros H ->. Qed.

(** ** The calendar *)

(** The steps of [civil_from_days], each named and bounded: the day of the
    era, the year of the era, the day of the year counted from 1 March, and
    the month counted from March. *)
Ltac civil_steps n :=
  set (z := n + 719468);
  set (era := z / 146097);
  set (doe := z - era * 146097);
  assert (Hdoe : 0 ≤ doe < 146097) by (subst doe era; Z.div_mod_to_equations; lia);
  set (yoe := (doe - doe / 1460 + doe / 36524 - doe / 146096) / 365);
  assert (Hyoe : 0 ≤ yoe ≤ 399) by (subst yoe; Z.div_mod_to_equations; lia);
  set (doy := doe - (365 * yoe + yoe / 4 - yoe / 100));
  assert (Hdoy : 0 ≤ doy ≤ 365) by (subst doy yoe; Z.div_mod_to_equations; lia);
  set (mp := (5 * doy + 2) / 153);
  assert (Hmp : 0 ≤ mp ≤ 11) by (subst mp; Z.div_mod_to_equations; lia).

Lemma civil_month_day_range n :
  1 ≤ cd_month (civil_from_days n) ≤ 12 ∧ 1 ≤ cd_day (civil_from_days n) ≤ 31.
Proof.
  unfold civil_from_days. cbn [cd_month cd_day].
  civil_steps n.
  split.
  - destruct (Z.ltb_spec mp 10); lia.
  - subst mp. Z.div_mod_to_equations. lia.
Qed.

Lemma civil_year_range n :
  -719528 ≤ n < 2932897 → 0 ≤ cd_year (civil_from_days n) ≤ 9999.
Proof.
  intros H. unfold civil_from_days. cbn [cd_year].
  civil_steps n.
  assert (Hera : -1 ≤ era ≤ 24) by (subst era z; Z.div_mod_to_equations; lia).
  destruct (Z.ltb_spec mp 10) as [E1|E1].
  - destruct (Z.leb_spec (mp + 3) 2) as [E2|E2]; [lia|].
    subst yoe doy mp doe era z; Z.div_mod_to_equations; lia.
  - destruct (Z.leb_spec (mp - 9) 2) as [E2|E2]; [|lia].
    subst yoe doy mp doe era z; Z.div_mod_to_equations; lia.
Qed.

(** The year is the one of ECMAScript's [YearFromTime]: the day lies between
    1 January of that year and 1 January of the next. *)
Lemma civil_year_spec n :
  let y := cd_year (civil_from_days n) in
  DayFromYear y ≤ n < DayFromYear (y + 1).
Proof.
  unfold civil_from_days, DayFromYear. cbn [cd_year].
  civil_steps n.
  assert (Hn : n = era * 146097 + doe - 719468) by (subst doe z; lia).
  assert (Hdoe' : doe = 365 * yoe + yoe / 4 - yoe / 100 + doy) by (subst doy; lia).
  clearbody era doe. 
  destruct (Z.ltb_spec mp 10) as [E1|E1].
  - destruct (Z.leb_spec (mp + 3) 2) as [E2|E2]; [lia|].
    assert (doy ≤ 305) by (subst mp; Z.div_mod_to_equations; lia).
    clearbody doy yoe. clear Hdoe z.
    cbv zeta; Z.div_mod_to_equations; lia.
  - destruct (Z.leb_spec (mp - 9) 2) as [E2|E2]; [|lia].
    assert (306 ≤ doy) by (subst mp; Z.div_mod_to_equations; lia).
    clearbody doy yoe. clear Hdoe z.
    cbv zeta; Z.div_mod_to_equations; lia.
Qed.

(** The date names the day: counting the days of the date gives the day
    number back. *)
Lemma days_from_civil_from_days n :
  let c := civil_from_days n in
  days_from_civil (cd_year c) (cd_month c) (cd_day c) = n.
Proof.
  unfold civil_from_days, days_from_civil. cbn [cd_year cd_month cd_day].
  civil_steps n.
  assert (Hn : n = era * 146097 + doe - 719468) by (subst doe z; lia).
  assert (Hdoe' : doe = 365 * yoe + yoe / 4 - yoe / 100 + doy) by (subst doy; lia).
  cbv zeta.
  destruct (Z.ltb_spec mp 10) as [E1|E1].
  - destruct (Z.leb_spec (mp + 3) 2) as [E2|E2]; [lia|].
    destruct (Z.ltb_spec 2 (mp + 3)) as [E3|E3]; [|lia].
    replace (mp + 3 - 3) with mp by lia.
    replace ((yoe + era * 400) / 400) with era by (Z.div_mod_to_equations; lia).
    replace (yoe + era * 400 - era * 400) with yoe by lia.
    assert ((153 * mp + 2) / 5 + (doy - (153 * mp + 2) / 5 + 1) - 1 = doy) by lia.
    lia.
  - destruct (Z.leb_spec (mp - 9) 2) as [E2|E2]; [|lia].
    destruct (Z.ltb_spec 2 (mp - 9)) as [E3|E3]; [lia|].
    replace (mp - 9 + 9) with mp by lia.
    replace (yoe + era * 400 + 1 - 1) with (yoe + era * 400) by lia.
    replace ((yoe + era * 400) / 400) with era by (Z.div_mod_to_equations; lia).
    replace (yoe + era * 400 - era * 400) with yoe by lia.
    lia.
Qed.

Lemma four_digit_year_range t : four_digit_year t → 0 ≤ YearFromTime t ≤ 9999.
Proof.
  intros H. unfold YearFromTime. apply civil_year_range.
  unfold four_digit_year in H. unfold Day, msPerDay. Z.div_mod_to_equations. lia.
Qed.

(** ** Digits *)

Lemma code_digit_char d : code (digit_char d) = 48 + d mod 10.
Proof.
  unfold code, digit_char.
  assert (0 ≤ d mod 10 < 10) as H by (apply Z.mod_pos_bound; lia).
  rewrite N_ascii_embedding; [lia|]. lia.
Qed.

Lemma is_digit_digit_char d : is_digit (digit_char d) = true.
Proof.
  unfold is_digit. rewrite code_digit_char.
  assert (0 ≤ d mod 10 < 10) as H by (apply Z.mod_pos_bound; lia).
  apply andb_true_intro. split; [apply Z.leb_le|apply Z.leb_le]; lia.
Qed.

Lemma is_digit_bounds c : is_digit c = true → 48 ≤ code c ≤ 57.
Proof. unfold is_digit. intros [?%Z.leb_le ?%Z.leb_le]%andb_prop. lia. Qed.

Lemma digit_not_T c : is_digit c = true → Ascii.eqb c "T" = false.
Proof.
  intros H%is_digit_bounds. apply Ascii.eqb_neq. intros ->.
  change (code "T") with 84 in H. lia.
Qed.

Lemma split_head_cons_ne sep c r :
  Ascii.eqb c sep = false →
  match split sep (String c r) with h :: _ => h | [] => "" end
  = String c (match split sep r with h :: _ => h | [] => "" end).
Proof. intros H. cbn [split]. rewrite H. by destruct (split sep r). Qed.

Lemma split_head_cons_eq sep r :
  match split sep (String sep r) with h :: _ => h | [] => "" end = "".
Proof. cbn [split]. by rewrite Ascii.eqb_refl. Qed.

(** A digit is the character of its own value. *)
Lemma digit_char_of_digit c v :
  is_digit c = true → v mod 10 = code c - 48 → digit_char v = c.
Proof.
  intros Hc%is_digit_bounds Hv. unfold digit_char. rewrite Hv.
  replace (48 + (code c - 48)) with (code c) by lia.
  unfold code. rewrite N2Z.id. apply ascii_N_embedding.
Qed.

(** The date of a time value of a four-digit year, digit by digit. *)
Lemma getDayAsISOString_digits t :
  four_digit_year t →
  let y := YearFromTime t in
  let m := MonthFromTime1 t in
  let d := DateFromTime t in
  getDayAsISOString t =
    String (digit_char (y / 10 / 10 / 10)) (String (digit_char (y / 10 / 10))
   (String (digit_char (y / 10)) (String (digit_char y) (String "-"
   (String (digit_char (m / 10)) (String (digit_char m) (String "-"
   (String (digit_char (d / 10)) (String (digit_char d) ""))))))))).
Proof.
  intros Ht y m d. pose proof (four_digit_year_range t Ht) as Hy. fold y in Hy.
  unfold getDayAsISOString, toISOString, iso_year. fold y m d.
  replace ((0 <=? y) && (y <=? 9999)) with true
    by (symmetry; apply andb_true_intro; split; apply Z.leb_le; lia).
  cbv [pad_digits String.append].
  repeat (rewrite split_head_cons_ne
            by first [apply digit_not_T, is_digit_digit_char | reflexivity]).
  rewrite split_head_cons_eq. reflexivity.
Qed.

Lemma today_is_date t : four_digit_year t → is_date (getDayAsISOString t) = true.
Proof.
  intros Ht. rewrite (getDayAsISOString_digits t Ht). cbv zeta.
  apply is_date_intro. repeat constructor; apply is_digit_digit_char.
Qed.

Lemma date_fields_today t :
  four_digit_year t → date_fields (getDayAsISOString t) = civil_of_time t.
Proof.
  intros Ht. rewrite (getDayAsISOString_digits t Ht). cbv zeta.
  pose proof (four_digit_year_range t Ht) as Hy.
  destruct (civil_month_day_range (Day t)) as [Hm Hd].
  unfold civil_of_time, MonthFromTime1, DateFromTime in *.
  set (y := YearFromTime t) in *.
  set (m := cd_month (civil_from_days (Day t))) in *.
  set (d := cd_day (civil_from_days (Day t))) in *.
  unfold date_fields. cbn [String.substring]. unfold Z_of_digits.
  cbn [list_ascii_of_string fold_left]. rewrite !code_digit_char.
  f_equal; [f_equal|]; Z.div_mod_to_equations; lia.
Qed.

Ltac cmp_codes :=
  repeat match goal with
  | |- context [code ?a <? code ?b] =>
      destruct (Z.ltb_spec (code a) (code b))
  end.

Lemma string_ge_dates a b :
  is_date a = true → is_date b = true →
  string_ge a b = civil_leb (date_fields b) (date_fields a).
Proof.
  intros Ha Hb.
  destruct (is_date_inv a Ha) as (a1&a2&a3&a4&a5&a6&a7&a8&Hda&->).
  destruct (is_date_inv b Hb) as (b1&b2&b3&b4&b5&b6&b7&b8&Hdb&->).
  unfold digits in Hda, Hdb.
  repeat (apply Forall_cons_1 in Hda as [?%is_digit_bounds Hda]).
  repeat (apply Forall_cons_1 in Hdb as [?%is_digit_bounds Hdb]).
  unfold string_ge, date_fields, civil_leb, Z_of_digits.
  cbn [String.substring list_ascii_of_string fold_left string_lt].
  change (code "-" <? code "-") with false. cbv iota.
  cmp_codes; cbn [negb];
   repeat match goal with
     | |- context [?x <? ?y] => destruct (Z.ltb_spec x y); try lia
     | |- context [?x =? ?y] => destruct (Z.eqb_spec x y); try lia
     | |- context [?x <=? ?y] => destruct (Z.leb_spec x y); try lia
     end; try reflexivity.
Qed.

(** ** The four ways through [getStatsWithFilterAndCaching] *)

Lemma pretty_600 : pretty 600 = "600".
Proof. reflexivity. Qed.
Lemma pretty_one_day : pretty (24 * 3600) = "86400".
Proof. reflexivity. Qed.
Lemma pretty_one_year : pretty (365 * 24 * 3600) = "31536000".
Proof. reflexivity. Qed.

Lemma toString_of_filter pathname f t :
  pathname +:+ "?" +:+ URLSearchParams_toString (URLSearchParams_of_filter f t)
  = redirect_location pathname f t.
Proof.
  unfold redirect_location, URLSearchParams_toString, URLSearchParams_of_filter.
  cbn [map join fst snd].
  change (urlencode "from") with "from". change (urlencode "to") with "to".
  change ("from" +:+ "=" +:+ urlencode f) with ("from=" +:+ urlencode f).
  rewrite !append_assoc. reflexivity.
Qed.

Lemma falsy_false v : falsy v = false → ∃ s, v = Some s ∧ s ≠ "".
Proof. destruct v as [[|c s]|]; try discriminate. intros _. by eexists. Qed.

Lemma falsy_Some s : s ≠ "" → falsy (Some s) = false.
Proof. by destruct s. Qed.

Section Handler.
Context {J P : Type}.
Variable pathname : string.
Variable searchParams : URLSearchParams.
Variable pgPool : P.
Variable fetchStatsFn : P → Filter → Outcome J.

Local Abbreviation run := (getStatsWithFilterAndCaching pathname searchParams pgPool fetchStatsFn).
Local Abbreviation from0 := (get searchParams "from").
Local Abbreviation to0 := (get searchParams "to").

Local Opaque getDayAsISOString pretty urlencode.

(** A parameter is missing or empty: 302 with the defaults. *)
Lemma default_path (w : World J) :
  falsy to0 || falsy from0 = true →
  run w =
    (Return (Some {| from := defaulted_from (now w) from0 to0;
                     to := defaulted_to (now w) to0 |}),
     with_res w (redirect_response (res w) 302 "public, max-age=600"
       (redirect_location pathname (defaulted_from (now w) from0 to0)
                                    (defaulted_to (now w) to0)))).
Proof.
  intros H. unfold getStatsWithFilterAndCaching, defaulted_from, defaulted_to.
  rewrite <- toString_of_filter.
  destruct (falsy to0), (falsy from0); try discriminate H; reflexivity.
Qed.

(** Both parameters given, [from] in neither form: 400 naming [from]. *)
Lemma bad_from_path (w : World J) :
  falsy to0 = false → falsy from0 = false →
  well_formed (the from0) = false →
  run w = (Throw (HttpError 400 from_format_message), w).
Proof.
  intros Ht Hf Hbad. apply orb_false_elim in Hbad as [Hd Hs].
  unfold getStatsWithFilterAndCaching. rewrite Ht, Hf.
  cbn. unfold mbind, M_bind, mret, M_ret. cbn.
  rewrite (match_date_re_none _ Hd Hs). reflexivity.
Qed.

(** Both parameters given, [from] in one of the forms, [to] in neither:
    400 naming [to]. *)
Lemma bad_to_path (w : World J) :
  falsy to0 = false → falsy from0 = false →
  well_formed (the from0) = true → well_formed (the to0) = false →
  run w = (Throw (HttpError 400 to_format_message), w).
Proof.
  intros Ht Hf Hok Hbad. apply orb_false_elim in Hbad as [Hd Hs].
  unfold getStatsWithFilterAndCaching. rewrite Ht, Hf.
  cbn. unfold mbind, M_bind, mret, M_ret. cbn.
  rewrite (match_date_re_none _ Hd Hs).
  destruct (match_date_re_well_formed _ Hok) as (g1 & g2 & ->).
  cbn. destruct (falsy g2); reflexivity.
Qed.

(** Both parameters in one of the forms, at least one a timestamp: 301 to
    the dates. *)
Lemma trim_path (w : World J) :
  falsy to0 = false → falsy from0 = false →
  well_formed (the from0) = true → well_formed (the to0) = true →
  is_timestamp (the from0) || is_timestamp (the to0) = true →
  run w =
    (Return (Some {| from := trimmed (the from0); to := trimmed (the to0) |}),
     with_res w (redirect_response (res w) 301 "public, max-age=86400"
       (redirect_location pathname (trimmed (the from0)) (trimmed (the to0))))).
Proof.
  intros Ht Hf Hokf Hokt Hts.
  destruct (match_date_re_trimmed _ Hokf) as (gf & Emf & Eff).
  destruct (match_date_re_trimmed _ Hokt) as (gt & Emt & Eft).
  unfold getStatsWithFilterAndCaching. rewrite Ht, Hf.
  cbn -[falsy]. unfold mbind, M_bind, mret, M_ret. cbn -[falsy].
  rewrite Emf, Emt. cbn -[falsy]. rewrite Eff, Eft.
  rewrite <- toString_of_filter. rewrite pretty_one_day. unfold trimmed.
  destruct (is_timestamp (the from0)), (is_timestamp (the to0));
    try discriminate Hts; reflexivity.
Qed.

(** Both parameters are dates: the query is called, and its outcome
    decides. *)
Lemma serve_path (w : World J) :
  falsy to0 = false → falsy from0 = false →
  is_date (the from0) = true → is_date (the to0) = true →
  valid_status (statusCode (res w)) = true →
  run w =
    let filter := {| from := the from0; to := the to0 |} in
    match fetchStatsFn pgPool filter with
    | Return stats =>
        (Return None,
         with_res (with_query w filter)
           (stats_response (res w) (stats_cache_control (now w) (the to0)) stats))
    | Throw e => (Throw e, with_query w filter)
    end.
Proof.
  intros Ht Hf Hdf Hdt Hvalid.
  unfold getStatsWithFilterAndCaching. rewrite Ht, Hf.
  cbn. unfold mbind, M_bind, mret, M_ret. cbn.
  rewrite (match_date_re_date _ Hdf), (match_date_re_date _ Hdt). cbn.
  unfold await_fetch. destruct (fetchStatsFn pgPool _); [|reflexivity].
  unfold setCacheControlForStatsResponse, stats_cache_control.
  unfold mbind, M_bind, Date_now. cbn.
  destruct (string_ge _ _); unfold json, end_; cbn; rewrite Hvalid; reflexivity.
Qed.
End Handler.

(** ** Reading a response *)

Section Responses.
Context {J : Type}.
Implicit Types (w : World J) (r : ServerResponse J).

Lemma header_redirect_location w r status cache location :
  header (with_res w (redirect_response r status cache location)) "location"
  = Some location.
Proof. unfold header. cbn. apply lookup_insert_eq. Qed.

Lemma header_redirect_cache w r status cache location :
  header (with_res w (redirect_response r status cache location)) "cache-control"
  = Some cache.
Proof.
  unfold header. cbn. rewrite lookup_insert_ne by done. apply lookup_insert_eq.
Qed.

Lemma header_stats_cache w r cache (stats : J) :
  header (with_res w (stats_response r cache stats)) "cache-control" = Some cache.
Proof. unfold header. cbn. apply lookup_insert_eq. Qed.
End Responses.

Lemma the_Some s : the (Some s) = s.
Proof. reflexivity. Qed.

(** ** The ways through the handler, told apart by the request *)

Section Cases.
Context {J P : Type}.
Variable clock : Z.
Variable pathname : string.
Variable searchParams : URLSearchParams.
Variable pgPool : P.
Variable fetchStatsFn : P → Filter → Outcome J.

Local Abbreviation from0 := (get searchParams "from").
Local Abbreviation to0 := (get searchParams "to").
Local Abbreviation r := (handle clock pathname searchParams pgPool fetchStatsFn).

Lemma well_formed_not_date s :
  well_formed s = true → is_date s = false → is_timestamp s = true.
Proof. unfold well_formed. intros H E. by rewrite E in H. Qed.

Lemma is_date_well_formed s : is_date s = true → well_formed s = true.
Proof. unfold well_formed. by intros ->. Qed.

(** Every request goes one of four ways: a redirect (302 or 301), a 400, or
    the call of the query with the two dates of the request. *)
Lemma handle_cases :
  (∃ range status,
      r.1 = Return (Some range) ∧ (status = 302 ∨ status = 301)
      ∧ r.2 = with_res (initial_world clock)
                (redirect_response fresh_response status
                   (if status =? 302 then "public, max-age=600" else "public, max-age=86400")
                   (redirect_location pathname (from range) (to range)))
      ∧ (status = 301 → is_date (from range) = true ∧ is_date (to range) = true)
      ∧ canonical searchParams = false)
  ∨ (∃ message,
      r = (Throw (HttpError 400 message), initial_world clock)
      ∧ falsy from0 = false ∧ falsy to0 = false
      ∧ (message = from_format_message ∧ well_formed (the from0) = false
         ∨ message = to_format_message ∧ well_formed (the to0) = false)
      ∧ canonical searchParams = false)
  ∨ (canonical searchParams = true
     ∧ r = let filter := {| from := the from0; to := the to0 |} in
           match fetchStatsFn pgPool filter with
           | Return stats =>
               (Return None,
                with_res (with_query (initial_world clock) filter)
                  (stats_response fresh_response
                     (stats_cache_control clock (the to0)) stats))
           | Throw e => (Throw e, with_query (initial_world clock) filter)
           end).
Proof.
  unfold handle, canonical.
  destruct (falsy to0) eqn:Ht; [|destruct (falsy from0) eqn:Hf].
  - left. rewrite default_path by (by rewrite Ht).
    do 2 eexists. split; [reflexivity|]. split; [by left|].
    split; [reflexivity|]. split; [discriminate|]. cbn. by rewrite andb_false_r.
  - left. rewrite default_path by (by rewrite Hf, orb_true_r).
    do 2 eexists. split; [reflexivity|]. split; [by left|].
    split; [reflexivity|]. split; [discriminate|]. reflexivity.
  - cbn [negb andb].
    destruct (well_formed (the from0)) eqn:Hwf.
    2:{ right; left. rewrite bad_from_path by assumption.
        eexists. split; [reflexivity|]. repeat split; auto.
        apply orb_false_elim in Hwf as [-> _]. reflexivity. }
    destruct (well_formed (the to0)) eqn:Hwt.
    2:{ right; left. rewrite bad_to_path by assumption.
        eexists. split; [reflexivity|]. repeat split; auto.
        apply orb_false_elim in Hwt as [-> _]. by rewrite andb_false_r. }
    destruct (is_date (the from0)) eqn:Hdf; [destruct (is_date (the to0)) eqn:Hdt|].
    + right; right. split; [reflexivity|]. by apply serve_path.
    + left. rewrite trim_path; auto.
      2:{ by rewrite (well_formed_not_date _ Hwt Hdt), orb_true_r. }
      do 2 eexists. split; [reflexivity|]. split; [by right|].
      split; [reflexivity|]. split; [|reflexivity].
      intros _. cbn [from to]. by rewrite !trimmed_is_date.
    + left. rewrite trim_path; auto.
      2:{ by rewrite (well_formed_not_date _ Hwf Hdf). }
      do 2 eexists. split; [reflexivity|]. split; [by right|].
      split; [reflexivity|]. split; [|reflexivity].
      intros _. cbn [from to]. by rewrite !trimmed_is_date.
Qed.

(** The query is called exactly on the canonical requests, once, with the
    dates of the request. *)
Lemma handle_queries :
  queries r.2 =
    if canonical searchParams then [{| from := the from0; to := the to0 |}] else [].
Proof.
  destruct handle_cases as [(range & status & _ & _ & -> & _ & ->)
                           |[(message & -> & _ & _ & _ & ->)|(-> & ->)]];
    try reflexivity.
  cbv zeta. destruct (fetchStatsFn pgPool _); reflexivity.
Qed.

Lemma canonical_inv :
  canonical searchParams = true →
  ∃ f t, from0 = Some f ∧ to0 = Some t ∧ is_date f = true ∧ is_date t = true.
Proof.
  unfold canonical. intros H.
  apply andb_prop in H as [H Hdt]. apply andb_prop in H as [H Hdf].
  apply andb_prop in H as [Hf Ht].
  apply negb_true_iff in Hf, Ht.
  destruct (falsy_false _ Hf) as (f & Ef & _).
  destruct (falsy_false _ Ht) as (t & Et & _).
  rewrite Ef, Et in *. by exists f, t.
Qed.
End Cases.

(** ** The redirect of timestamps (C1) *)

(** C1, as the code has it: when both [from] and [to] are given in one of the
    two accepted forms and at least one of them is a timestamp, the handler
    stops with a 301 redirect to the same path with both values cut down to
    their [YYYY-MM-DD] part; the redirect carries
    [cache-control: public, max-age=86400] (one day), and no query is made. *)
Theorem C1_timestamp_redirect {J P} (clock : Z) (pathname : string)
    (searchParams : URLSearchParams) (pgPool : P)
    (fetchStatsFn : P → Filter → Outcome J) (f t : string) :
  get searchParams "from" = Some f → get searchParams "to" = Some t →
  well_formed f = true → well_formed t = true →
  is_timestamp f || is_timestamp t = true →
  let r := handle clock pathname searchParams pgPool fetchStatsFn in
  r.1 = Return (Some {| from := date_part f; to := date_part t |})
  ∧ is_date (date_part f) = true ∧ is_date (date_part t) = true
  ∧ statusCode (res r.2) = 301
  ∧ header r.2 "location"
    = Some (pathname +:+ "?from=" +:+ date_part f +:+ "&to=" +:+ date_part t)
  ∧ header r.2 "cache-control" = Some "public, max-age=86400"
  ∧ ended (res r.2) = Some NoBody
  ∧ queries r.2 = [].
Proof.
  intros Hf Ht Hwf Hwt Hts r. subst r. unfold handle.
  rewrite trim_path; rewrite ?Hf, ?Ht, ?the_Some;
    auto using falsy_Some, well_formed_nonempty.
  rewrite !trimmed_date_part by assumption.
  assert (is_date (date_part f) = true) as Hdf
    by (rewrite <- trimmed_date_part by assumption; by apply trimmed_is_date).
  assert (is_date (date_part t) = true) as Hdt
    by (rewrite <- trimmed_date_part by assumption; by apply trimmed_is_date).
  cbn [fst snd]. rewrite header_redirect_location, header_redirect_cache.
  unfold redirect_location. rewrite !urlencode_date by assumption.
  repeat split; assumption.
Qed.

Lemma C1_timestamp_redirect_witness :
  let r := handle 1704894284289 "/retrieval-success-rate"
             [("from", "2024-01-10T13:44:44.289Z"); ("to", "2024-01-15")] tt no_stats in
  statusCode (res r.2) = 301
  ∧ header r.2 "location" = Some "/retrieval-success-rate?from=2024-01-10&to=2024-01-15"
  ∧ header r.2 "cache-control" = Some "public, max-age=86400".
Proof.
  pose proof (C1_timestamp_redirect 1704894284289 "/retrieval-success-rate"
    [("from", "2024-01-10T13:44:44.289Z"); ("to", "2024-01-15")] tt no_stats
    "2024-01-10T13:44:44.289Z" "2024-01-15"
    eq_refl eq_refl eq_refl eq_refl eq_refl) as H.
  cbv zeta in H. destruct H as (_ & _ & _ & H1 & H2 & H3 & _).
  repeat split; assumption.
Defined.

(** C1 as the specification words it fails twice: the 301 redirect of two
    timestamps does not carry the one-year immutable directive, and a
    timestamp next to a value in neither form is answered with 400, not
    with a redirect. *)
Lemma C1_counterexample :
  let w := serve 1704894284289 "/retrieval-success-rate"
             [("from", "2024-01-10T13:44:44.289Z"); ("to", "2024-01-15T09:44:44.289Z")]
             tt no_stats in
  let w' := serve 1704894284289 "/retrieval-success-rate"
             [("from", "2024-01-10T13:44:44.289Z"); ("to", "2024/01/15")]
             tt no_stats in
  (statusCode (res w) = 301
   ∧ header w "location" = Some "/retrieval-success-rate?from=2024-01-10&to=2024-01-15"
   ∧ header w "cache-control" = Some "public, max-age=86400"
   ∧ header w "cache-control" ≠ Some "public, max-age=31536000, immutable")
  ∧ (is_timestamp "2024-01-10T13:44:44.289Z" = true
     ∧ statusCode (res w') = 400 ∧ header w' "location" = None).
Proof. vm_compute. repeat split; discriminate. Qed.

(** ** The cache directive of a served range (C2) *)

(** C2: when a canonical range is served, the response has status 200 and
    [cache-control] is [public, max-age=600] if [to], compared as a string,
    is at least the ISO date of the time one hour before now, and
    [public, max-age=31536000, immutable] otherwise; the statistics play no
    part in this.  While that time lies in a year written with four digits
    the comparison of the strings is the comparison of the calendar dates. *)
Theorem C2_cache_control_of_served_range {J P} (clock : Z) (pathname : string)
    (searchParams : URLSearchParams) (pgPool : P)
    (fetchStatsFn : P → Filter → Outcome J) (f t : string) (stats : J) :
  get searchParams "from" = Some f → get searchParams "to" = Some t →
  is_date f = true → is_date t = true →
  fetchStatsFn pgPool {| from := f; to := t |} = Return stats →
  let w := serve clock pathname searchParams pgPool fetchStatsFn in
  let boundary := getDayAsISOString (clock - 3600000) in
  statusCode (res w) = 200
  ∧ ended (res w) = Some (Json stats)
  ∧ header w "location" = None
  ∧ header w "cache-control"
    = Some (if string_ge t boundary then "public, max-age=600"
            else "public, max-age=31536000, immutable")
  ∧ (∀ (fetchStatsFn' : P → Filter → Outcome J) (stats' : J),
       fetchStatsFn' pgPool {| from := f; to := t |} = Return stats' →
       header (serve clock pathname searchParams pgPool fetchStatsFn') "cache-control"
       = header w "cache-control")
  ∧ (four_digit_year (clock - 3600000) →
     string_ge t boundary
     = civil_leb (civil_of_time (clock - 3600000)) (date_fields t)).
Proof.
  intros Hf Ht Hdf Hdt Hfetch w boundary.
  assert (∀ (fetch' : P → Filter → Outcome J) (stats' : J),
            fetch' pgPool {| from := f; to := t |} = Return stats' →
            serve clock pathname searchParams pgPool fetch'
            = with_res (with_query (initial_world clock) {| from := f; to := t |})
                (stats_response fresh_response (stats_cache_control clock t) stats'))
    as Hserve.
  { intros fetch' stats' Hfetch'. unfold serve, catch.
    rewrite serve_path; rewrite ?Hf, ?Ht, ?the_Some;
      auto using falsy_Some, well_formed_nonempty, is_date_well_formed.
    cbv zeta. rewrite Hfetch'. reflexivity. }
  subst w. rewrite (Hserve _ _ Hfetch).
  rewrite header_stats_cache.
  split; [reflexivity|]. split; [reflexivity|]. split; [reflexivity|].
  split; [reflexivity|]. split.
  - intros fetch' stats' Hfetch'. rewrite (Hserve _ _ Hfetch').
    by rewrite header_stats_cache.
  - intros Hclock. subst boundary. rewrite string_ge_dates by auto using today_is_date.
    by rewrite date_fields_today.
Qed.

Lemma C2_cache_control_of_served_range_witness :
  let today := serve 1704894284289 "/retrieval-success-rate"
                 [("from", "2024-01-01"); ("to", "2024-01-10")] tt no_stats in
  let last_year := serve 1704894284289 "/retrieval-success-rate"
                     [("from", "2023-01-01"); ("to", "2023-12-31")] tt no_stats in
  header today "cache-control" = Some "public, max-age=600"
  ∧ header last_year "cache-control" = Some "public, max-age=31536000, immutable".
Proof.
  split.
  - apply (C2_cache_control_of_served_range 1704894284289 "/retrieval-success-rate"
             [("from", "2024-01-01"); ("to", "2024-01-10")] tt no_stats
             "2024-01-01" "2024-01-10" tt eq_refl eq_refl eq_refl eq_refl eq_refl).
  - apply (C2_cache_control_of_served_range 1704894284289 "/retrieval-success-rate"
             [("from", "2023-01-01"); ("to", "2023-12-31")] tt no_stats
             "2023-01-01" "2023-12-31" tt eq_refl eq_refl eq_refl eq_refl eq_refl).
Defined.

(** The grace period: half an hour after midnight the day before still counts
    as current, two hours after midnight it is history. *)
Example grace_period :
  let at_0030 := serve 1704933000000 "/retrieval-success-rate"
                   [("from", "2024-01-10"); ("to", "2024-01-10")] tt no_stats in
  let at_0200 := serve 1704938400000 "/retrieval-success-rate"
                   [("from", "2024-01-10"); ("to", "2024-01-10")] tt no_stats in
  toISOString 1704933000000 = "2024-01-11T00:30:00.000Z"
  ∧ header at_0030 "cache-control" = Some "public, max-age=600"
  ∧ toISOString 1704938400000 = "2024-01-11T02:00:00.000Z"
  ∧ header at_0200 "cache-control" = Some "public, max-age=31536000, immutable".
Proof. vm_compute. repeat split. Qed.

(** ** Defaults for missing parameters (C3) *)

Lemma has_char_pad_digits n v : has_char "T" (pad_digits n v) = false.
Proof.
  revert v. induction n as [|n IH]; intros v; [reflexivity|].
  cbn [pad_digits]. rewrite has_char_app, IH. cbn [has_char orb].
  by rewrite (digit_not_T _ (is_digit_digit_char v)).
Qed.

Lemma has_char_iso_year y : has_char "T" (iso_year y) = false.
Proof.
  unfold iso_year. destruct ((0 <=? y) && (y <=? 9999)).
  - apply has_char_pad_digits.
  - rewrite has_char_app, has_char_pad_digits. by destruct (y <? 0).
Qed.

(** The day of a time value, for every year: what [toISOString] writes before
    the [T]. *)
Lemma getDayAsISOString_date t :
  getDayAsISOString t
  = iso_year (YearFromTime t) +:+ "-" +:+ pad_digits 2 (MonthFromTime1 t)
      +:+ "-" +:+ pad_digits 2 (DateFromTime t).
Proof.
  unfold getDayAsISOString, toISOString.
  set (rest := pad_digits 2 (TimeWithinDay t / 3600000) +:+ _).
  set (day := iso_year (YearFromTime t) +:+ "-" +:+ pad_digits 2 (MonthFromTime1 t)
                +:+ "-" +:+ pad_digits 2 (DateFromTime t)).
  assert (iso_year (YearFromTime t) +:+ "-" +:+ pad_digits 2 (MonthFromTime1 t)
            +:+ "-" +:+ pad_digits 2 (DateFromTime t) +:+ "T" +:+ rest
          = day +:+ String "T" rest) as ->
    by (subst day; by rewrite !append_assoc).
  rewrite split_at_sep; [reflexivity|].
  subst day. by rewrite !has_char_app, has_char_iso_year, !has_char_pad_digits.
Qed.

(** C3: when [to] is missing (or empty) it becomes today's UTC date, the
    calendar date of the day number of the clock, written as [toISOString]
    writes it, which is the form [YYYY-MM-DD] while the year has four digits;
    when [from] is missing (or empty) it becomes the value of [to] after
    that; and whenever one of the two defaults was applied the handler stops
    with a 302 redirect to [pathname?from=<from>&to=<to>] that carries
    [cache-control: public, max-age=600]. *)
Theorem C3_defaults_redirect {J P} (clock : Z) (pathname : string)
    (searchParams : URLSearchParams) (pgPool : P)
    (fetchStatsFn : P → Filter → Outcome J) :
  let from0 := get searchParams "from" in
  let to0 := get searchParams "to" in
  falsy to0 = true ∨ falsy from0 = true →
  let r := handle clock pathname searchParams pgPool fetchStatsFn in
  ∃ range,
    r.1 = Return (Some range)
    ∧ (falsy to0 = true → to range = getDayAsISOString clock)
    ∧ (falsy to0 = true →
         let y := YearFromTime clock in
         let m := MonthFromTime1 clock in
         let d := DateFromTime clock in
         to range = iso_year y +:+ "-" +:+ pad_digits 2 m +:+ "-" +:+ pad_digits 2 d
         ∧ days_from_civil y m d = Day clock
         ∧ 1 ≤ m ≤ 12 ∧ 1 ≤ d ≤ 31
         ∧ (four_digit_year clock →
              is_date (to range) = true ∧ date_fields (to range) = (y, m, d)))
    ∧ (falsy to0 = false → to0 = Some (to range))
    ∧ (falsy from0 = true → from range = to range)
    ∧ (falsy from0 = false → from0 = Some (from range))
    ∧ statusCode (res r.2) = 302
    ∧ header r.2 "location"
      = Some (pathname +:+ "?from=" +:+ urlencode (from range)
                +:+ "&to=" +:+ urlencode (to range))
    ∧ header r.2 "cache-control" = Some "public, max-age=600"
    ∧ ended (res r.2) = Some NoBody
    ∧ queries r.2 = [].
Proof.
  intros from0 to0 H r. subst from0 to0 r. unfold handle.
  rewrite default_path by (destruct H as [->| ->]; [reflexivity|apply orb_true_r]).
  eexists. split; [reflexivity|].
  cbn [fst snd from to]. rewrite header_redirect_location, header_redirect_cache.
  unfold defaulted_from, defaulted_to.
  split; [by intros ->|]. split.
  { intros ->. cbv zeta. cbn [now initial_world].
    split; [apply getDayAsISOString_date|].
    split; [apply (days_from_civil_from_days (Day clock))|].
    split; [apply civil_month_day_range|]. split; [apply civil_month_day_range|].
    intros Hclock. split; [by apply today_is_date|by apply date_fields_today]. }
  repeat split; try reflexivity.
  - intros E. rewrite E. by destruct (falsy_false _ E) as (s & -> & _).
  - by intros ->.
  - intros E. rewrite E. by destruct (falsy_false _ E) as (s & -> & _).
Qed.

Lemma C3_defaults_redirect_witness :
  let r := handle 1704894284289 "/participants/daily" [] tt no_stats in
  ∃ range,
    r.1 = Return (Some range)
    ∧ from range = "2024-01-10" ∧ to range = "2024-01-10"
    ∧ date_fields (to range) = (2024, 1, 10)
    ∧ statusCode (res r.2) = 302
    ∧ header r.2 "location" = Some "/participants/daily?from=2024-01-10&to=2024-01-10".
Proof.
  destruct (C3_defaults_redirect 1704894284289 "/participants/daily"
              [] tt no_stats (or_introl eq_refl))
    as (range & H1 & H2 & H3 & _ & H5 & _ & H7 & H8 & _).
  exists range. specialize (H2 eq_refl). specialize (H5 eq_refl).
  destruct (H3 eq_refl) as (_ & _ & _ & _ & H4).
  destruct H4 as [_ H4]; [unfold four_digit_year; lia|].
  assert (getDayAsISOString 1704894284289 = "2024-01-10") as Hday
    by (vm_compute; reflexivity).
  rewrite Hday in H2. rewrite H5, H2 in H8. rewrite H4, H5, H2.
  split; [exact H1|]. split; [reflexivity|]. split; [reflexivity|].
  split; [vm_compute; reflexivity|].
  split; [exact H7|exact H8].
Defined.

(** With no parameter at all, both values are today's date. *)
Example no_query_string :
  let w := serve 1704894284289 "/retrieval-success-rate" [] tt no_stats in
  statusCode (res w) = 302
  ∧ header w "location" = Some "/retrieval-success-rate?from=2024-01-10&to=2024-01-10"
  ∧ header w "cache-control" = Some "public, max-age=600".
Proof. vm_compute. repeat split. Qed.

(** ** Values in neither form (C4) *)

Section ErrorHandler.
Context {J : Type}.

Lemma catch_throw_400 {A} (route : M J A) (w : World J) message :
  route w = (Throw (HttpError 400 message), w) →
  (catch route w).2
  = with_res w {| statusCode := 400; headers := headers (res w);
                  ended := Some (Text message) |}.
Proof. intros H. unfold catch. rewrite H. reflexivity. Qed.
End ErrorHandler.

(** C4, as the code has it: when both parameters are given and not empty,
    and one of them is in neither of the two forms, the handler throws the
    error of status 400 whose message names the first such parameter and the
    two formats; the response has status 400 and that message, no redirect is
    set up and no query is made. *)
Theorem C4_malformed_is_bad_request {J P} (clock : Z) (pathname : string)
    (searchParams : URLSearchParams) (pgPool : P)
    (fetchStatsFn : P → Filter → Outcome J) (f t : string) :
  get searchParams "from" = Some f → get searchParams "to" = Some t →
  f ≠ "" → t ≠ "" →
  well_formed f = false ∨ well_formed t = false →
  let message := if well_formed f then to_format_message else from_format_message in
  let w := serve clock pathname searchParams pgPool fetchStatsFn in
  handle clock pathname searchParams pgPool fetchStatsFn
    = (Throw (HttpError 400 message), initial_world clock)
  ∧ statusCode (res w) = 400
  ∧ ended (res w) = Some (Text message)
  ∧ header w "location" = None
  ∧ queries w = [].
Proof.
  intros Hf Ht Hfne Htne Hbad message w.
  assert (handle clock pathname searchParams pgPool fetchStatsFn
          = (Throw (HttpError 400 message), initial_world clock)) as Hh.
  { unfold handle, message. destruct (well_formed f) eqn:Hwf.
    - destruct Hbad as [Hbad|Hbad]; [discriminate Hbad|].
      apply bad_to_path; rewrite ?Hf, ?Ht, ?the_Some; auto using falsy_Some.
    - apply bad_from_path; rewrite ?Hf, ?Ht, ?the_Some; auto using falsy_Some. }
  split; [exact Hh|].
  subst w. unfold serve. unfold handle in Hh.
  rewrite (catch_throw_400 _ _ _ Hh). repeat split; reflexivity.
Qed.

Lemma C4_malformed_is_bad_request_witness :
  let w := serve 1704894284289 "/retrieval-success-rate"
             [("from", "2024/01/01"); ("to", "2024-01-02")] tt no_stats in
  statusCode (res w) = 400 ∧ ended (res w) = Some (Text from_format_message).
Proof.
  destruct (C4_malformed_is_bad_request 1704894284289 "/retrieval-success-rate"
              [("from", "2024/01/01"); ("to", "2024-01-02")] tt no_stats
              "2024/01/01" "2024-01-02" eq_refl eq_refl
              ltac:(discriminate) ltac:(discriminate) (or_introl eq_refl))
    as (_ & H1 & H2 & _).
  split; assumption.
Defined.

(** C4 as the specification words it fails for a parameter that is given
    with an empty value: the value is in neither form, yet the answer is the
    302 of the defaults, not a 400. *)
Lemma C4_counterexample :
  let searchParams := [("from", ""); ("to", "2024-01-02")] in
  let w := serve 1704894284289 "/retrieval-success-rate" searchParams tt no_stats in
  get searchParams "from" = Some ""
  ∧ get searchParams "to" = Some "2024-01-02"
  ∧ well_formed "" = false
  ∧ statusCode (res w) = 302
  ∧ statusCode (res w) ≠ 400
  ∧ header w "location" = Some "/retrieval-success-rate?from=2024-01-02&to=2024-01-02".
Proof. vm_compute. repeat split; discriminate. Qed.

Example bad_request_names_to :
  let w := serve 1704894284289 "/retrieval-success-rate"
             [("from", "2024-01-01"); ("to", "Jan 1 2024")] tt no_stats in
  statusCode (res w) = 400 ∧ ended (res w) = Some (Text to_format_message).
Proof. vm_compute. repeat split. Qed.

(** ** The range that reaches the query (C5) *)

(** C5: when the handler ends neither in a redirect nor in an error of status
    400, the query was called once, with a range whose [from] and [to] are both
    in the form [YYYY-MM-DD] and are the values of the request. *)
Theorem C5_queried_range_is_canonical {J P} (clock : Z) (pathname : string)
    (searchParams : URLSearchParams) (pgPool : P)
    (fetchStatsFn : P → Filter → Outcome J) :
  let r := handle clock pathname searchParams pgPool fetchStatsFn in
  redirected r.1 = false → bad_request r.1 = false →
  ∃ range,
    queries r.2 = [range]
    ∧ is_date (from range) = true ∧ is_date (to range) = true
    ∧ get searchParams "from" = Some (from range)
    ∧ get searchParams "to" = Some (to range).
Proof.
  intros r Hr Hb. subst r.
  pose proof (handle_queries clock pathname searchParams pgPool fetchStatsFn) as Hq.
  destruct (handle_cases clock pathname searchParams pgPool fetchStatsFn)
    as [(range & status & E & _)|[(message & E & _)|(Hc & _)]].
  - rewrite E in Hr. discriminate Hr.
  - rewrite E in Hb. discriminate Hb.
  - rewrite Hc in Hq. destruct (canonical_inv _ Hc) as (f & t & Ef & Et & Hdf & Hdt).
    rewrite Ef, Et in Hq. eexists. split; [exact Hq|]. by repeat split.
Qed.

Lemma C5_queried_range_is_canonical_witness :
  ∃ range,
    queries (handle 1704894284289 "/retrieval-success-rate"
               [("from", "2024-01-11"); ("to", "2024-01-12")] tt no_stats).2 = [range]
    ∧ is_date (from range) = true ∧ is_date (to range) = true.
Proof.
  destruct (C5_queried_range_is_canonical 1704894284289 "/retrieval-success-rate"
              [("from", "2024-01-11"); ("to", "2024-01-12")] tt no_stats eq_refl eq_refl)
    as (range & H1 & H2 & H3 & _).
  exists range. repeat split; assumption.
Defined.

(** Whatever the request, a range handed to the query is canonical. *)
Lemma queried_ranges_canonical {J P} (clock : Z) (pathname : string)
    (searchParams : URLSearchParams) (pgPool : P)
    (fetchStatsFn : P → Filter → Outcome J) (range : Filter) :
  range ∈ queries (handle clock pathname searchParams pgPool fetchStatsFn).2 →
  is_date (from range) = true ∧ is_date (to range) = true.
Proof.
  rewrite handle_queries. destruct (canonical searchParams) eqn:Hc.
  - destruct (canonical_inv _ Hc) as (f & t & -> & -> & Hdf & Hdt).
    intros ->%list_elem_of_singleton. by split.
  - by intros ?%elem_of_nil.
Qed.

(** The format check looks at digits only: a month 99 reaches the query. *)
Example digits_only :
  queries (handle 1704894284289 "/retrieval-success-rate"
             [("from", "2024-99-99"); ("to", "2024-99-99")] tt no_stats).2
  = [{| from := "2024-99-99"; to := "2024-99-99" |}].
Proof. vm_compute. reflexivity. Qed.

(** ** Requesting the target of a redirect again (C6) *)

Lemma canonical_pair f t :
  is_date f = true → is_date t = true → canonical [("from", f); ("to", t)] = true.
Proof.
  intros Hf Ht. unfold canonical.
  change (get [("from", f); ("to", t)] "from") with (Some f).
  change (get [("from", f); ("to", t)] "to") with (Some t).
  rewrite !the_Some, Hf, Ht.
  rewrite !falsy_Some by (apply well_formed_nonempty; by apply is_date_well_formed).
  reflexivity.
Qed.

(** A request with two dates is served. *)
Lemma dates_are_served {J P} (clock : Z) (pathname : string) (pgPool : P)
    (fetchStatsFn : P → Filter → Outcome J) (range : Filter) :
  is_date (from range) = true → is_date (to range) = true →
  let sp := [("from", from range); ("to", to range)] in
  let r := handle clock pathname sp pgPool fetchStatsFn in
  canonical sp = true
  ∧ queries r.2 = [range]
  ∧ redirected r.1 = false
  ∧ (∀ stats, fetchStatsFn pgPool range = Return stats →
       r.1 = Return None ∧ statusCode (res r.2) = 200
       ∧ ended (res r.2) = Some (Json stats)).
Proof.
  intros Hdf Hdt sp r.
  assert (canonical sp = true) as Hc by (by apply canonical_pair).
  split; [exact Hc|]. subst r.
  destruct (handle_cases clock pathname sp pgPool fetchStatsFn)
    as [(? & ? & _ & _ & _ & _ & Hn)|[(? & _ & _ & _ & _ & Hn)|(_ & E)]];
    try congruence.
  assert ({| from := the (get sp "from"); to := the (get sp "to") |} = range)
    as Hrange by (by destruct range).
  rewrite E. cbv zeta. rewrite Hrange.
  destruct (fetchStatsFn pgPool range) as [stats|e]; cbn.
  - split; [reflexivity|]. split; [reflexivity|].
    intros stats0 [= <-]. repeat split.
  - split; [reflexivity|]. split; [reflexivity|]. discriminate.
Qed.

(** The defaults are dates when the values given are, as long as today's
    year has four digits. *)
Lemma defaults_are_dates (clock : Z) (from0 to0 : option string) :
  four_digit_year clock →
  falsy from0 = true ∨ is_date (the from0) = true →
  falsy to0 = true ∨ is_date (the to0) = true →
  is_date (defaulted_from clock from0 to0) = true
  ∧ is_date (defaulted_to clock to0) = true.
Proof.
  intros Hc Hf Ht. unfold defaulted_from, defaulted_to.
  pose proof (today_is_date clock Hc) as Htoday.
  destruct (falsy to0), (falsy from0), Hf as [Hf|Hf], Ht as [Ht|Ht];
    try discriminate; by split.
Qed.

(** The request without parameters, followed through its redirect: the
    target is served with today's date. *)
Lemma bare_request_target_served {J P} (clock clock' : Z) (pathname : string)
    (pgPool : P) (fetchStatsFn : P → Filter → Outcome J) :
  four_digit_year clock →
  let today := getDayAsISOString clock in
  let r := handle clock pathname [] pgPool fetchStatsFn in
  ∃ query,
    statusCode (res r.2) = 302
    ∧ header r.2 "location" = Some (pathname +:+ "?" +:+ query)
    ∧ queries (handle clock' pathname (urlencoded_parse query) pgPool fetchStatsFn).2
      = [{| from := today; to := today |}].
Proof.
  intros Hc today r.
  assert (r = (Return (Some {| from := today; to := today |}),
               with_res (initial_world clock)
                 (redirect_response fresh_response 302 "public, max-age=600"
                    (redirect_location pathname today today)))) as ->
    by (subst r; unfold handle; by rewrite default_path).
  exists ("from=" +:+ urlencode today +:+ "&to=" +:+ urlencode today).
  cbn [fst snd]. split; [reflexivity|].
  split; [by rewrite header_redirect_location|].
  rewrite parse_serialized.
  apply (dates_are_served clock' pathname pgPool fetchStatsFn
           {| from := today; to := today |}); by apply today_is_date.
Qed.

(** C6, as the code has it: when the target of a redirect is requested as
    it is (same path, the query string of the location), and the two values
    of the redirect are bare dates, which is so for every 301, the handler
    goes on to the query with these two dates: no further redirect, no 400. *)
Theorem C6_redirect_target_is_served {J P} (clock clock' : Z) (pathname : string)
    (searchParams : URLSearchParams) (pgPool : P)
    (fetchStatsFn : P → Filter → Outcome J) (range : Filter) :
  let r := handle clock pathname searchParams pgPool fetchStatsFn in
  r.1 = Return (Some range) →
  statusCode (res r.2) = 301
  ∨ (is_date (from range) = true ∧ is_date (to range) = true) →
  ∃ query,
    header r.2 "location" = Some (pathname +:+ "?" +:+ query)
    ∧ let r' := handle clock' pathname (urlencoded_parse query) pgPool fetchStatsFn in
      canonical (urlencoded_parse query) = true
      ∧ queries r'.2 = [range]
      ∧ redirected r'.1 = false
      ∧ (∀ stats, fetchStatsFn pgPool range = Return stats →
           r'.1 = Return None ∧ statusCode (res r'.2) = 200
           ∧ ended (res r'.2) = Some (Json stats)).
Proof.
  intros r Hr Hd. subst r.
  destruct (handle_cases clock pathname searchParams pgPool fetchStatsFn)
    as [(range' & status & E & Hs & E2 & H301 & _)|[(message & E & _)|(_ & E)]].
  2:{ rewrite E in Hr. discriminate Hr. }
  2:{ rewrite E in Hr. cbv zeta in Hr.
      destruct (fetchStatsFn pgPool _); discriminate Hr. }
  rewrite E in Hr. injection Hr as ->.
  assert (is_date (from range) = true ∧ is_date (to range) = true) as [Hdf Hdt].
  { destruct Hd as [Hd|Hd]; [|exact Hd]. apply H301.
    rewrite E2 in Hd. cbn in Hd. exact Hd. }
  exists ("from=" +:+ urlencode (from range) +:+ "&to=" +:+ urlencode (to range)).
  split; [rewrite E2, header_redirect_location; reflexivity|].
  cbv zeta. rewrite parse_serialized.
  by apply dates_are_served.
Qed.

Lemma C6_redirect_target_is_served_witness :
  let r := handle 1704894284289 "/retrieval-success-rate"
             [("from", "2024-01-10T13:44:44.289Z"); ("to", "2024-01-15T09:44:44.289Z")]
             tt no_stats in
  ∃ query,
    header r.2 "location" = Some ("/retrieval-success-rate" +:+ "?" +:+ query)
    ∧ queries (handle 1800000000000 "/retrieval-success-rate"
                 (urlencoded_parse query) tt no_stats).2
      = [{| from := "2024-01-10"; to := "2024-01-15" |}].
Proof.
  destruct (C6_redirect_target_is_served 1704894284289 1800000000000
              "/retrieval-success-rate"
              [("from", "2024-01-10T13:44:44.289Z"); ("to", "2024-01-15T09:44:44.289Z")]
              tt no_stats {| from := "2024-01-10"; to := "2024-01-15" |}
              eq_refl (or_introl eq_refl))
    as (query & H1 & _ & H2 & _).
  exists query. split; [exact H1|exact H2].
Defined.

(** C6 as the specification words it fails for the 302 redirect, which
    repeats a value that was not looked at: a [from] in neither form leads
    to a 400 when the target is requested, and a timestamp to a second
    redirect, the 301. *)
Lemma C6_counterexample :
  let first := serve 1704894284289 "/retrieval-success-rate"
                 [("from", "2024/01/01")] tt no_stats in
  let again := serve 1704894284289 "/retrieval-success-rate"
                 (urlencoded_parse "from=2024%2F01%2F01&to=2024-01-10") tt no_stats in
  let first' := serve 1704894284289 "/retrieval-success-rate"
                  [("to", "2024-01-05T00:00:00.000Z")] tt no_stats in
  let again' := serve 1704894284289 "/retrieval-success-rate"
                  (urlencoded_parse
                     "from=2024-01-05T00%3A00%3A00.000Z&to=2024-01-05T00%3A00%3A00.000Z")
                  tt no_stats in
  (statusCode (res first) = 302
   ∧ header first "location"
     = Some "/retrieval-success-rate?from=2024%2F01%2F01&to=2024-01-10"
   ∧ statusCode (res again) = 400)
  ∧ (statusCode (res first') = 302
     ∧ header first' "location"
       = Some "/retrieval-success-rate?from=2024-01-05T00%3A00%3A00.000Z&to=2024-01-05T00%3A00%3A00.000Z"
     ∧ statusCode (res again') = 301).
Proof. vm_compute. repeat split. Qed.

(** Beyond the year 9999 today's date is no longer in the form the handler
    accepts: the target of its own redirect is turned down. *)
Example year_10000 :
  let first := serve 253402300800000 "/retrieval-success-rate" [] tt no_stats in
  let again := serve 253402300800000 "/retrieval-success-rate"
                 (urlencoded_parse "from=%2B010000-01-01&to=%2B010000-01-01") tt no_stats in
  header first "location"
  = Some "/retrieval-success-rate?from=%2B010000-01-01&to=%2B010000-01-01"
  ∧ statusCode (res again) = 400.
Proof. vm_compute. repeat split. Qed.

(** ** No query before a redirect or a 400 (C7) *)

(** C7: a request that ends in a redirect leaves the query uncalled, and so
    does one whose [from] or [to] is in neither form; the query is called only
    for a canonical range, and unless the range is canonical the whole
    outcome is the same whatever the query function is.  An error of status
    400 comes with no query made, as long as the query function itself does
    not throw errors that carry a status. *)
Theorem C7_query_only_when_canonical {J P} (clock : Z) (pathname : string)
    (searchParams : URLSearchParams) (pgPool : P)
    (fetchStatsFn : P → Filter → Outcome J) :
  let from0 := get searchParams "from" in
  let to0 := get searchParams "to" in
  let r := handle clock pathname searchParams pgPool fetchStatsFn in
  (redirected r.1 = true →
     queries r.2 = [] ∧ (statusCode (res r.2) = 302 ∨ statusCode (res r.2) = 301))
  ∧ (falsy from0 = false → falsy to0 = false →
     well_formed (the from0) && well_formed (the to0) = false →
     bad_request r.1 = true ∧ queries r.2 = [])
  ∧ ((∀ filter status message,
        fetchStatsFn pgPool filter ≠ Throw (HttpError status message)) →
     bad_request r.1 = true → queries r.2 = [])
  ∧ (queries r.2 ≠ [] →
     canonical searchParams = true
     ∧ queries r.2 = [{| from := the from0; to := the to0 |}])
  ∧ (canonical searchParams = false →
     ∀ fetchStatsFn', handle clock pathname searchParams pgPool fetchStatsFn' = r).
Proof.
  intros from0 to0 r. subst from0 to0 r.
  pose proof (handle_queries clock pathname searchParams pgPool fetchStatsFn) as Hq.
  pose proof (handle_cases clock pathname searchParams pgPool fetchStatsFn) as Hc.
  split; [|split; [|split; [|split]]].
  - intros Hr.
    destruct Hc as [(range & status & E & Hs & E2 & _ & Hn)|[(message & E & _)|(Hcan & E)]].
    + split; [by rewrite Hq, Hn|].
      rewrite E2. cbn. destruct Hs as [->| ->]; auto.
    + rewrite E in Hr. discriminate Hr.
    + rewrite E in Hr. cbv zeta in Hr.
      destruct (fetchStatsFn pgPool _); discriminate Hr.
  - intros Hf Ht Hbad.
    assert (canonical searchParams = false) as Hn.
    { destruct (canonical searchParams) eqn:Hcan; [|reflexivity].
      destruct (canonical_inv _ Hcan) as (f & t & Ef & Et & Hdf & Hdt).
      rewrite Ef, Et in Hbad. cbn in Hbad.
      by rewrite (is_date_well_formed _ Hdf), (is_date_well_formed _ Hdt) in Hbad. }
    split; [|by rewrite Hq, Hn].
    unfold handle. destruct (well_formed (the (get searchParams "from"))) eqn:Hwf.
    + by rewrite bad_to_path.
    + by rewrite bad_from_path.
  - intros Hfetch Hb. destruct (canonical searchParams) eqn:Hcan; [|by rewrite Hq].
    exfalso.
    destruct Hc as [(range & status & E & Hs & E2 & _ & Hn)
                   |[(message & E & _ & _ & _ & Hn)|(_ & E)]]; try congruence.
    rewrite E in Hb. cbv zeta in Hb.
    destruct (fetchStatsFn pgPool _) as [stats|e] eqn:Ef; [discriminate Hb|].
    destruct e; try discriminate Hb. by apply Hfetch in Ef.
  - intros Hne. rewrite Hq in Hne |- *. by destruct (canonical searchParams).
  - intros Hn fetchStatsFn'.
    pose proof (handle_cases clock pathname searchParams pgPool fetchStatsFn') as Hc'.
    destruct Hc as [(range & status & E & Hs & E2 & _)
                   |[(message & E & Hf & Ht & Hm & _)|(Hcan & _)]]; [| |congruence].
    + destruct Hc' as [(range' & status' & E' & Hs' & E2' & _)
                      |[(message' & _ & Hf & Ht & Hm & _)|(Hcan & _)]]; [| |congruence].
      * unfold handle in *.
        destruct (falsy (get searchParams "to")) eqn:Ht;
          [|destruct (falsy (get searchParams "from")) eqn:Hf].
        -- rewrite !default_path by (by rewrite Ht). reflexivity.
        -- rewrite !default_path by (by rewrite Hf, orb_true_r). reflexivity.
        -- unfold canonical in Hn. rewrite Hf, Ht in Hn. cbn [negb andb] in Hn.
           destruct (well_formed (the (get searchParams "from"))) eqn:Hwf.
           2:{ rewrite bad_from_path in E by assumption. discriminate E. }
           destruct (well_formed (the (get searchParams "to"))) eqn:Hwt.
           2:{ rewrite bad_to_path in E by assumption. discriminate E. }
           assert (is_timestamp (the (get searchParams "from"))
                   || is_timestamp (the (get searchParams "to")) = true) as Hts.
           { apply andb_false_iff in Hn as [Hn|Hn].
             - by rewrite (well_formed_not_date _ Hwf Hn).
             - by rewrite (well_formed_not_date _ Hwt Hn), orb_true_r. }
           rewrite !trim_path by assumption. reflexivity.
      * exfalso. unfold handle in *.
        destruct (well_formed (the (get searchParams "from"))) eqn:Hwf.
        -- destruct Hm as [[_ Hm]|[_ Hm]]; [congruence|].
           rewrite bad_to_path in E by assumption. discriminate E.
        -- rewrite bad_from_path in E by assumption. discriminate E.
    + rewrite E. unfold handle.
      destruct (well_formed (the (get searchParams "from"))) eqn:Hwf.
      * destruct Hm as [[_ Hm]|[-> Hm]]; [congruence|]. by apply bad_to_path.
      * unfold handle in E. rewrite bad_from_path in E by assumption.
        rewrite bad_from_path by assumption. exact E.
Qed.

Lemma C7_query_only_when_canonical_witness :
  let r := handle 1704894284289 "/retrieval-success-rate"
             [("from", "2024-01-10T13:44:44.289Z"); ("to", "2024-01-15")] tt no_stats in
  let r' := handle 1704894284289 "/retrieval-success-rate"
              [("from", "yesterday"); ("to", "2024-01-15")] tt no_stats in
  (redirected r.1 = true ∧ queries r.2 = [])
  ∧ (bad_request r'.1 = true ∧ queries r'.2 = []).
Proof.
  destruct (C7_query_only_when_canonical 1704894284289 "/retrieval-success-rate"
              [("from", "2024-01-10T13:44:44.289Z"); ("to", "2024-01-15")] tt no_stats)
    as (H1 & _).
  destruct (C7_query_only_when_canonical 1704894284289 "/retrieval-success-rate"
              [("from", "yesterday"); ("to", "2024-01-15")] tt no_stats)
    as (_ & H2 & _).
  split.
  - split; [reflexivity|]. apply H1. reflexivity.
  - apply H2; reflexivity.
Defined.

(** ** The location of a redirect (C8) *)

(** C8: every redirect of the handler, 302 or 301, has the location
    [pathname?from=<from>&to=<to>], with [from] first and [to] second and
    both values in their form-urlencoded (percent-encoded) spelling; parsing
    that query string gives the two values back. *)
Theorem C8_location_from_then_to {J P} (clock : Z) (pathname : string)
    (searchParams : URLSearchParams) (pgPool : P)
    (fetchStatsFn : P → Filter → Outcome J) :
  let r := handle clock pathname searchParams pgPool fetchStatsFn in
  redirected r.1 = true →
  ∃ range,
    r.1 = Return (Some range)
    ∧ (statusCode (res r.2) = 302 ∨ statusCode (res r.2) = 301)
    ∧ header r.2 "location"
      = Some (pathname +:+ "?" +:+
              "from=" +:+ urlencode (from range) +:+ "&to=" +:+ urlencode (to range))
    ∧ urlencoded_parse ("from=" +:+ urlencode (from range) +:+ "&to=" +:+ urlencode (to range))
      = [("from", from range); ("to", to range)].
Proof.
  intros r Hr. subst r.
  destruct (handle_cases clock pathname searchParams pgPool fetchStatsFn)
    as [(range & status & E & Hs & E2 & _)|[(message & E & _)|(_ & E)]].
  - exists range. split; [exact E|]. rewrite E2.
    rewrite header_redirect_location. cbn [res with_res redirect_response statusCode].
    split; [destruct Hs as [->| ->]; auto|].
    split; [reflexivity|apply parse_serialized].
  - rewrite E in Hr. discriminate Hr.
  - rewrite E in Hr. cbv zeta in Hr.
    destruct (fetchStatsFn pgPool _); discriminate Hr.
Qed.

Lemma C8_location_from_then_to_witness :
  let r := handle 1704894284289 "/retrieval-success-rate"
             [("from", "Grüße = 1 & 2")] tt no_stats in
  header r.2 "location"
  = Some "/retrieval-success-rate?from=Gr%C3%BC%C3%9Fe+%3D+1+%26+2&to=2024-01-10".
Proof.
  destruct (C8_location_from_then_to 1704894284289 "/retrieval-success-rate"
              [("from", "Grüße = 1 & 2")] tt no_stats eq_refl)
    as (range & E & _ & H & _).
  injection E as <-. exact H.
Defined.

(** ** Empty parameters (C9) *)

Section Empty.
Context {J P : Type}.
Variable clock : Z.
Variable pathname : string.
Variable pgPool : P.
Variable fetchStatsFn : P → Filter → Outcome J.

(** The handler reads the parameters through [given] only. *)
Lemma handle_given (sp sp' : URLSearchParams) :
  given (get sp "from") = given (get sp' "from") →
  given (get sp "to") = given (get sp' "to") →
  handle clock pathname sp pgPool fetchStatsFn
  = handle clock pathname sp' pgPool fetchStatsFn.
Proof.
  unfold handle, getStatsWithFilterAndCaching, given.
  destruct (get sp "from") as [[|a f]|], (get sp' "from") as [[|a' f']|];
    cbn [falsy]; intros E; try discriminate E;
  destruct (get sp "to") as [[|b t]|], (get sp' "to") as [[|b' t']|];
    cbn [falsy]; intros E'; try discriminate E';
  try injection E as -> ->; try injection E' as -> ->; reflexivity.
Qed.
End Empty.

(** C9: an empty [from] or [to] is treated exactly like a missing one (the
    handler's outcome only depends on the parameters with empty values taken
    as missing); a request with [from] or [to] missing or empty gets the 302
    redirect and never an error of status 400, so that the handler's own 400
    needs both parameters given and not empty; and a [from] in neither form
    next to a missing [to] gets a 302 whose location repeats that [from]. *)
Theorem C9_empty_is_missing {J P} (clock : Z) (pathname : string) (pgPool : P)
    (fetchStatsFn : P → Filter → Outcome J) :
  (∀ sp sp' : URLSearchParams,
     given (get sp "from") = given (get sp' "from") →
     given (get sp "to") = given (get sp' "to") →
     handle clock pathname sp pgPool fetchStatsFn
     = handle clock pathname sp' pgPool fetchStatsFn)
  ∧ (∀ sp : URLSearchParams,
       let r := handle clock pathname sp pgPool fetchStatsFn in
       falsy (get sp "from") = true ∨ falsy (get sp "to") = true →
       redirected r.1 = true ∧ bad_request r.1 = false
       ∧ statusCode (res r.2) = 302
       ∧ header r.2 "cache-control" = Some "public, max-age=600")
  ∧ (∀ sp : URLSearchParams,
       let r := handle clock pathname sp pgPool fetchStatsFn in
       bad_request r.1 = true → queries r.2 = [] →
       falsy (get sp "from") = false ∧ falsy (get sp "to") = false)
  ∧ (∀ (sp : URLSearchParams) (f : string),
       let r := handle clock pathname sp pgPool fetchStatsFn in
       get sp "from" = Some f → f ≠ "" → falsy (get sp "to") = true →
       r.1 = Return (Some {| from := f; to := getDayAsISOString clock |})
       ∧ statusCode (res r.2) = 302
       ∧ header r.2 "location"
         = Some (pathname +:+ "?from=" +:+ urlencode f
                   +:+ "&to=" +:+ urlencode (getDayAsISOString clock))).
Proof.
  split; [apply handle_given|].
  assert (∀ sp : URLSearchParams,
            falsy (get sp "from") = true ∨ falsy (get sp "to") = true →
            handle clock pathname sp pgPool fetchStatsFn
            = (Return (Some {| from := defaulted_from clock (get sp "from") (get sp "to");
                               to := defaulted_to clock (get sp "to") |}),
               with_res (initial_world clock)
                 (redirect_response fresh_response 302 "public, max-age=600"
                    (redirect_location pathname
                       (defaulted_from clock (get sp "from") (get sp "to"))
                       (defaulted_to clock (get sp "to")))))) as Hdef.
  { intros sp H. unfold handle. apply default_path.
    destruct H as [->| ->]; [apply orb_true_r|reflexivity]. }
  split; [|split].
  - intros sp r H. subst r. rewrite (Hdef sp H).
    cbn [fst snd]. rewrite header_redirect_cache. repeat split; reflexivity.
  - intros sp r Hb. subst r.
    destruct (falsy (get sp "from")) eqn:Hf.
    { rewrite (Hdef sp (or_introl Hf)) in Hb. discriminate Hb. }
    destruct (falsy (get sp "to")) eqn:Ht.
    { rewrite (Hdef sp (or_intror Ht)) in Hb. discriminate Hb. }
    by split.
  - intros sp f r Hf Hne Ht. subst r. rewrite (Hdef sp (or_intror Ht)).
    cbn [fst snd]. rewrite header_redirect_location.
    unfold defaulted_from, defaulted_to. rewrite Ht, Hf, (falsy_Some _ Hne).
    repeat split; reflexivity.
Qed.

Lemma C9_empty_is_missing_witness :
  let r := handle 1704894284289 "/participants/monthly"
             [("from", "last week"); ("to", "")] tt no_stats in
  handle 1704894284289 "/participants/monthly" [("from", "last week")] tt no_stats = r
  ∧ statusCode (res r.2) = 302
  ∧ header r.2 "location"
    = Some "/participants/monthly?from=last+week&to=2024-01-10".
Proof.
  destruct (C9_empty_is_missing 1704894284289 "/participants/monthly" tt no_stats)
    as (H1 & _ & _ & H4).
  split.
  - apply H1; reflexivity.
  - destruct (H4 [("from", "last week"); ("to", "")] "last week" eq_refl
                ltac:(discriminate) eq_refl) as (_ & H5 & H6).
    split; [exact H5|exact H6].
Defined.

(** ** Success rates (C10) *)

(** What the database prints for a date it has read is the text it was
    given. *)
Lemma pg_date_out_in s n : pg_date_in s = Some n → pg_date_out n = s.
Proof.
  unfold pg_date_in. destruct (is_date s) eqn:Hs; [|discriminate].
  destruct (date_fields s) as [[y m] d] eqn:Hfields.
  destruct ((1 <=? y) && _ && _ && _) eqn:Hvalid; [|discriminate].
  intros [= <-].
  apply andb_prop in Hvalid as [Hvalid Hd%Z.eqb_eq].
  apply andb_prop in Hvalid as [Hvalid Hm%Z.eqb_eq].
  apply andb_prop in Hvalid as [_ Hy%Z.eqb_eq].
  unfold pg_date_out. rewrite Hy, Hm, Hd. clear Hy Hm Hd.
  destruct (is_date_inv s Hs) as (a1&a2&a3&a4&a5&a6&a7&a8&Hds&->).
  unfold digits in Hds.
  repeat (apply Forall_cons_1 in Hds as [? Hds]).
  unfold date_fields, Z_of_digits in Hfields.
  cbn [String.substring list_ascii_of_string fold_left] in Hfields.
  injection Hfields as <- <- <-.
  cbv [pad_digits String.append].
  repeat match goal with
    | Hc : is_digit ?c = true |- context [digit_char ?v] =>
        rewrite (digit_char_of_digit c v Hc)
          by (apply is_digit_bounds in Hc;
              repeat match goal with
                | Hx : is_digit _ = true |- _ => apply is_digit_bounds in Hx
                end;
              Z.div_mod_to_equations; lia)
    end.
  reflexivity.
Qed.

Section Groups.
Context `{Countable K}.
Variable key : RetrievalStat → K.

(** A group holds the sums over the rows of its key; a key without rows has
    no group. *)
Lemma group_sums_lookup (rows : list RetrievalStat) (k : K) :
  group_sums key rows !! k =
    match rows_of_key key k rows with
    | [] => None
    | g => Some (sum_of total g, sum_of successful g)
    end.
Proof.
  induction rows as [|r rows IH]; [reflexivity|].
  unfold rows_of_key in *. cbn [group_sums foldr List.filter].
  fold (group_sums key rows). unfold add_to_group.
  destruct (decide (key r = k)) as [->|Hne].
  - rewrite bool_decide_eq_true_2 by reflexivity.
    rewrite IH. destruct (List.filter _ rows) as [|r' g] eqn:Eg.
    + rewrite lookup_insert_eq. cbn [sum_of foldr]. by rewrite !Z.add_0_r.
    + rewrite lookup_insert_eq. cbn [sum_of foldr]. f_equal. f_equal; lia.
  - rewrite bool_decide_eq_false_2 by assumption.
    destruct (group_sums key rows !! key r) as [[t s]|];
      by rewrite lookup_insert_ne.
Qed.
End Groups.

(** The guarded division: the quotient for a positive total, [null]
    otherwise. *)
Lemma guarded_rate t s :
  (if 0 <? t then Some (js_div s t) else None)
  = (if 0 <? t then Some (Num (inject_Z s / inject_Z t)) else None).
Proof.
  unfold js_div. destruct (Z.ltb_spec 0 t) as [Ht|Ht]; [|reflexivity].
  by destruct (Z.eqb_spec t 0) as [->|_]; [lia|].
Qed.

Lemma guarded_rate_sound t s :
  rate_is_sound (if 0 <? t then Some (js_div s t) else None).
Proof. rewrite guarded_rate. by destruct (0 <? t). Qed.

Lemma query_grouped_rows `{Countable K} (pgPool : PgPool) (key : RetrievalStat → K)
    (params : string * string) (rows : list (K * (Z * Z))) :
  query_grouped pgPool key params = Return rows →
  ∃ lo hi,
    pg_date_in params.1 = Some lo ∧ pg_date_in params.2 = Some hi
    ∧ ∀ k t s, (k, (t, s)) ∈ rows →
        let g := rows_of_key key k (List.filter (in_range lo hi) (retrieval_stats pgPool)) in
        g ≠ [] ∧ t = sum_of total g ∧ s = sum_of successful g.
Proof.
  unfold query_grouped.
  destruct (pg_date_in params.1) as [lo|]; [|discriminate].
  destruct (pg_date_in params.2) as [hi|]; [|discriminate].
  intros [= <-]. exists lo, hi. split; [reflexivity|]. split; [reflexivity|].
  intros k t s Hin%elem_of_map_to_list. rewrite group_sums_lookup in Hin.
  cbv zeta. destruct (rows_of_key key k _) as [|r g]; [discriminate Hin|].
  injection Hin as <- <-. by repeat split.
Qed.

(** The two fetchers return whenever both dates exist. *)
Lemma fetchers_return (pgPool : PgPool) (filter : Filter) lo hi :
  pg_date_in (from filter) = Some lo → pg_date_in (to filter) = Some hi →
  (∃ stats, fetchRetrievalSuccessRate pgPool filter = Return stats)
  ∧ (∃ stats, fetchMinersRSRSummary pgPool filter = Return stats).
Proof.
  intros Hlo Hhi.
  unfold fetchRetrievalSuccessRate, fetchMinersRSRSummary, query_by_day,
    query_by_miner, query_grouped.
  cbn [fst snd]. rewrite Hlo, Hhi. split; eexists; reflexivity.
Qed.

(** C10: every row of the success rates by day, and every row of the summary
    by miner, stands for a group of rows of the table that is not empty; with
    [t] the sum of [total] and [s] the sum of [successful] over the group,
    its [success_rate] is the number [s / t] when [t > 0] and [null]
    otherwise, and so never [NaN] nor an infinity. *)
Theorem C10_success_rate_is_guarded (pgPool : PgPool) (filter : Filter) :
  (∀ stats row,
     fetchRetrievalSuccessRate pgPool filter = Return stats → row ∈ stats →
     ∃ lo hi d,
       pg_date_in (from filter) = Some lo ∧ pg_date_in (to filter) = Some hi
       ∧ let g := rows_of_key day d
                    (List.filter (in_range lo hi) (retrieval_stats pgPool)) in
         let t := sum_of total g in
         let s := sum_of successful g in
         g ≠ [] ∧ DailyStat.day row = pg_date_out d
         ∧ DailyStat.success_rate row
           = (if 0 <? t then Some (Num (inject_Z s / inject_Z t)) else None)
         ∧ rate_is_sound (DailyStat.success_rate row))
  ∧ (∀ stats row,
       fetchMinersRSRSummary pgPool filter = Return stats → row ∈ stats →
       ∃ lo hi,
         pg_date_in (from filter) = Some lo ∧ pg_date_in (to filter) = Some hi
         ∧ let g := rows_of_key miner_id (MinerStat.miner_id row)
                      (List.filter (in_range lo hi) (retrieval_stats pgPool)) in
           let t := sum_of total g in
           let s := sum_of successful g in
           g ≠ []
           ∧ MinerStat.success_rate row
             = (if 0 <? t then Some (Num (inject_Z s / inject_Z t)) else None)
           ∧ rate_is_sound (MinerStat.success_rate row)).
Proof.
  split.
  - intros stats row Hfetch Hrow.
    unfold fetchRetrievalSuccessRate, query_by_day in Hfetch.
    destruct (query_grouped pgPool day (from filter, to filter)) as [rows|e] eqn:Hq;
      [|discriminate Hfetch].
    injection Hfetch as <-.
    apply list_elem_of_fmap in Hrow as (r & -> & Hr).
    apply list_elem_of_fmap in Hr as ([d [t s]] & -> & Hin).
    destruct (query_grouped_rows _ _ _ _ Hq) as (lo & hi & Hlo & Hhi & Hrows).
    destruct (Hrows d t s Hin) as (Hg & -> & ->).
    exists lo, hi, d. split; [exact Hlo|]. split; [exact Hhi|].
    cbv zeta. cbn [DailyStat.day DailyStat.success_rate DailyRow.day
                   DailyRow.total DailyRow.successful fst snd].
    split; [exact Hg|]. split; [reflexivity|].
    split; [apply guarded_rate|apply guarded_rate_sound].
  - intros stats row Hfetch Hrow.
    unfold fetchMinersRSRSummary, query_by_miner in Hfetch.
    destruct (query_grouped pgPool miner_id (from filter, to filter)) as [rows|e] eqn:Hq;
      [|discriminate Hfetch].
    injection Hfetch as <-.
    apply list_elem_of_fmap in Hrow as (r & -> & Hr).
    apply list_elem_of_fmap in Hr as ([m [t s]] & -> & Hin).
    destruct (query_grouped_rows _ _ _ _ Hq) as (lo & hi & Hlo & Hhi & Hrows).
    destruct (Hrows m t s Hin) as (Hg & -> & ->).
    exists lo, hi. split; [exact Hlo|]. split; [exact Hhi|].
    cbv zeta. cbn [MinerStat.miner_id MinerStat.success_rate MinerRow.miner_id
                   MinerRow.total MinerRow.successful fst snd].
    split; [exact Hg|].
    split; [apply guarded_rate|apply guarded_rate_sound].
Qed.

Lemma C10_success_rate_is_guarded_witness :
  let filter := {| from := "2024-01-10"; to := "2024-01-12" |} in
  let row := {| DailyStat.day := "2024-01-12"; DailyStat.success_rate := None |} in
  ∃ stats,
    fetchRetrievalSuccessRate seeded filter = Return stats ∧ row ∈ stats
    ∧ rate_is_sound (DailyStat.success_rate row).
Proof.
  cbv zeta.
  set (stats := [ {| DailyStat.day := "2024-01-11"; DailyStat.success_rate := Some (Num (61 # 220)) |};
                  {| DailyStat.day := "2024-01-12"; DailyStat.success_rate := None |};
                  {| DailyStat.day := "2024-01-10"; DailyStat.success_rate := Some (Num (51 # 110)) |} ]).
  assert (fetchRetrievalSuccessRate seeded {| from := "2024-01-10"; to := "2024-01-12" |}
          = Return stats) as Hfetch by (vm_compute; reflexivity).
  assert ({| DailyStat.day := "2024-01-12"; DailyStat.success_rate := None |} ∈ stats) as Hrow
    by (apply list_elem_of_further, list_elem_of_here).
  exists stats. split; [exact Hfetch|]. split; [exact Hrow|].
  destruct (C10_success_rate_is_guarded seeded {| from := "2024-01-10"; to := "2024-01-12" |})
    as [Hday _].
  destruct (Hday stats _ Hfetch Hrow) as (lo & hi & d & _ & _ & _ & _ & _ & Hsound).
  exact Hsound.
Defined.

(** The scenario of the test suite: the sums run over both miners. *)
Example sums_daily_retrievals_from_all_miners :
  fetchRetrievalSuccessRate seeded {| from := "2024-01-10"; to := "2024-01-11" |}
  = Return [ {| DailyStat.day := "2024-01-11"; DailyStat.success_rate := Some (Num (61 # 220)) |};
             {| DailyStat.day := "2024-01-10"; DailyStat.success_rate := Some (Num (51 # 110)) |} ].
Proof. vm_compute. reflexivity. Qed.

Example miners_summary :
  fetchMinersRSRSummary seeded {| from := "2024-01-11"; to := "2024-01-12" |}
  = Return [ {| MinerStat.miner_id := "f1one"; MinerStat.success_rate := Some (Num (1 # 20)) |};
             {| MinerStat.miner_id := "f1two"; MinerStat.success_rate := Some (Num (60 # 200)) |};
             {| MinerStat.miner_id := "f1three"; MinerStat.success_rate := None |} ].
Proof. vm_compute. reflexivity. Qed.

(** A date that does not exist is turned down by the database. *)
Example no_such_date :
  fetchRetrievalSuccessRate seeded {| from := "2024-02-30"; to := "2024-03-01" |}
  = Throw (OtherError "invalid input syntax for type date").
Proof. vm_compute. reflexivity. Qed.
(** * More properties *)

(** ** The calendar runs forward *)

Lemma DayFromYear_mono a b : a ≤ b → DayFromYear a ≤ DayFromYear b.
Proof. unfold DayFromYear. intros H. Z.div_mod_to_equations. lia. Qed.

Lemma civil_year_mono n n' :
  n ≤ n' → cd_year (civil_from_days n) ≤ cd_year (civil_from_days n').
Proof.
  intros H.
  pose proof (civil_year_spec n) as Hn. pose proof (civil_year_spec n') as Hn'.
  cbv zeta in *.
  destruct (Z.le_gt_cases (cd_year (civil_from_days n)) (cd_year (civil_from_days n')))
    as [|Hlt]; [assumption|].
  pose proof (DayFromYear_mono (cd_year (civil_from_days n') + 1)
                (cd_year (civil_from_days n))).
  lia.
Qed.

(** The steps of [civil_from_days] for a second day. *)
Ltac civil_steps' n :=
  set (z' := n + 719468);
  set (era' := z' / 146097);
  set (doe' := z' - era' * 146097);
  assert (Hdoe' : 0 ≤ doe' < 146097) by (subst doe' era'; Z.div_mod_to_equations; lia);
  set (yoe' := (doe' - doe' / 1460 + doe' / 36524 - doe' / 146096) / 365);
  assert (Hyoe' : 0 ≤ yoe' ≤ 399) by (subst yoe'; Z.div_mod_to_equations; lia);
  set (doy' := doe' - (365 * yoe' + yoe' / 4 - yoe' / 100));
  assert (Hdoy' : 0 ≤ doy' ≤ 365) by (subst doy' yoe'; Z.div_mod_to_equations; lia);
  set (mp' := (5 * doy' + 2) / 153);
  assert (Hmp' : 0 ≤ mp' ≤ 11) by (subst mp'; Z.div_mod_to_equations; lia).

(** A later day has a later date. *)
Lemma civil_from_days_mono n n' :
  n ≤ n' → civil_le (civil_from_days n) (civil_from_days n').
Proof.
  intros H. unfold civil_le, civil_from_days. cbn [cd_year cd_month cd_day].
  civil_steps n. civil_steps' n'.
  assert (Hz : z ≤ z') by (subst z z'; lia).
  assert (Hn : z = era * 146097 + doe) by (subst doe; lia).
  assert (Hn' : z' = era' * 146097 + doe') by (subst doe'; lia).
  assert (Hd : doe = 365 * yoe + yoe / 4 - yoe / 100 + doy) by (subst doy; lia).
  assert (Hd' : doe' = 365 * yoe' + yoe' / 4 - yoe' / 100 + doy') by (subst doy'; lia).
  assert (Hera : era ≤ era') by (subst era era'; Z.div_mod_to_equations; lia).
  assert (Hyo : doe ≤ doe' → yoe ≤ yoe')
    by (intros; subst yoe yoe'; Z.div_mod_to_equations; lia).
  assert (Hmpo : doy ≤ doy' → mp ≤ mp')
    by (intros; subst mp mp'; Z.div_mod_to_equations; lia).
  assert (Hmd : doy < (153 * (mp + 1) + 2) / 5 ∧ (153 * mp + 2) / 5 ≤ doy)
    by (subst mp; Z.div_mod_to_equations; lia).
  assert (Hmd' : doy' < (153 * (mp' + 1) + 2) / 5 ∧ (153 * mp' + 2) / 5 ≤ doy')
    by (subst mp'; Z.div_mod_to_equations; lia).
  clearbody mp mp' doy doy' yoe yoe' doe doe' era era' z z'.
  assert (Horder : yoe + era * 400 < yoe' + era' * 400
                   ∨ (yoe + era * 400 = yoe' + era' * 400 ∧ doy ≤ doy')).
  { destruct (Z.eq_dec era era') as [->|]; [|lia].
    assert (doe ≤ doe') by lia. specialize (Hyo ltac:(assumption)).
    destruct (Z.eq_dec yoe yoe') as [->|]; [|lia].
    right. split; [reflexivity|]. lia. }
  clear Hn Hn' Hd Hd' Hz H Hdoe Hdoe' Hyo Hera.
  destruct (Z.ltb_spec mp 10), (Z.ltb_spec mp' 10);
    repeat match goal with
      | |- context [?a <=? ?b] => destruct (Z.leb_spec a b); try lia
      end;
    Z.div_mod_to_equations; lia.
Qed.

Lemma Day_mono t t' : t ≤ t' → Day t ≤ Day t'.
Proof. unfold Day, msPerDay. intros H. Z.div_mod_to_equations. lia. Qed.

Lemma civil_of_time_mono t t' :
  t ≤ t' → civil_leb (civil_of_time t) (civil_of_time t') = true.
Proof.
  intros H%Day_mono%civil_from_days_mono.
  unfold civil_of_time, YearFromTime, MonthFromTime1, DateFromTime, civil_leb.
  unfold civil_le in H.
  repeat match goal with
    | |- context [?a <? ?b] => destruct (Z.ltb_spec a b); try lia
    | |- context [?a =? ?b] => destruct (Z.eqb_spec a b); try lia
    | |- context [?a <=? ?b] => destruct (Z.leb_spec a b); try lia
    end; reflexivity.
Qed.

Lemma civil_leb_trans a b c :
  civil_leb a b = true → civil_leb b c = true → civil_leb a c = true.
Proof.
  destruct a as [[y1 m1] d1], b as [[y2 m2] d2], c as [[y3 m3] d3].
  unfold civil_leb. intros H1 H2.
  repeat match goal with
    | H : context [?a <? ?b] |- _ => destruct (Z.ltb_spec a b); cbn in H
    | H : context [?a =? ?b] |- _ => destruct (Z.eqb_spec a b); cbn in H
    | H : context [?a <=? ?b] |- _ => destruct (Z.leb_spec a b); cbn in H
    end; try discriminate;
  repeat match goal with
    | |- context [?a <? ?b] => destruct (Z.ltb_spec a b); try lia
    | |- context [?a =? ?b] => destruct (Z.eqb_spec a b); try lia
    | |- context [?a <=? ?b] => destruct (Z.leb_spec a b); try lia
    end; reflexivity.
Qed.

(** The years outside 0000 to 9999. *)
Lemma year_beyond_four_digits t :
  (t < -62167219200000 → YearFromTime t < 0)
  ∧ (253402300800000 ≤ t → 9999 < YearFromTime t).
Proof.
  unfold YearFromTime. split; intros H.
  - assert (Day t ≤ -719529) as Hd
      by (unfold Day, msPerDay; Z.div_mod_to_equations; lia).
    apply civil_year_mono in Hd.
    change (cd_year (civil_from_days (-719529))) with (-1) in Hd. lia.
  - assert (2932897 ≤ Day t) as Hd
      by (unfold Day, msPerDay; Z.div_mod_to_equations; lia).
    apply civil_year_mono in Hd.
    change (cd_year (civil_from_days 2932897)) with 10000 in Hd. lia.
Qed.

(** ** [getDayAsISOString] and [today] *)

(** Outside the years 0000 to 9999 the date starts with a sign. *)
Lemma today_signed t :
  ¬ four_digit_year t → is_date (getDayAsISOString t) = false.
Proof.
  intros Hout. destruct (year_beyond_four_digits t) as [Hlo Hhi].
  unfold getDayAsISOString, toISOString, iso_year.
  assert (YearFromTime t < 0 ∨ 9999 < YearFromTime t) as Hy
    by (unfold four_digit_year in Hout; lia).
  replace ((0 <=? YearFromTime t) && (YearFromTime t <=? 9999)) with false
    by (symmetry; apply andb_false_iff;
        destruct Hy; [left; apply Z.leb_gt|right; apply Z.leb_gt]; lia).
  destruct (YearFromTime t <? 0).
  - change ("-" +:+ pad_digits 6 (Z.abs (YearFromTime t)))
      with (String "-" (pad_digits 6 (Z.abs (YearFromTime t)))).
    rewrite !append_cons, split_head_cons_ne by reflexivity. reflexivity.
  - change ("+" +:+ pad_digits 6 (Z.abs (YearFromTime t)))
      with (String "+" (pad_digits 6 (Z.abs (YearFromTime t)))).
    rewrite !append_cons, split_head_cons_ne by reflexivity. reflexivity.
Qed.

(** X1: [today()] is in the form [YYYY-MM-DD] exactly while the year of the
    clock has four digits, and then its three numbers are the year, the month
    (1 to 12) and the day (1 to 31) of the UTC date of the clock. *)
Theorem today_canonical_iff_four_digit_year (clock : Z) :
  (is_date (getDayAsISOString clock) = true ↔ four_digit_year clock)
  ∧ (four_digit_year clock →
     date_fields (getDayAsISOString clock) = civil_of_time clock
     ∧ 0 ≤ YearFromTime clock ≤ 9999
     ∧ 1 ≤ MonthFromTime1 clock ≤ 12
     ∧ 1 ≤ DateFromTime clock ≤ 31).
Proof.
  split.
  - split.
    + intros Hd. destruct (decide (four_digit_year clock)) as [|Hout]; [assumption|].
      rewrite (today_signed clock Hout) in Hd. discriminate Hd.
    + apply today_is_date.
  - intros Hc. split; [by apply date_fields_today|].
    split; [by apply four_digit_year_range|].
    apply civil_month_day_range.
Qed.

(** The date of the clock never goes back (within the years 0000 to
    9999). *)
Lemma day_string_mono (t t' : Z) :
  four_digit_year t → four_digit_year t' → t ≤ t' →
  string_ge (getDayAsISOString t') (getDayAsISOString t) = true.
Proof.
  intros Ht Ht' Hle.
  rewrite string_ge_dates by auto using today_is_date.
  rewrite !date_fields_today by assumption.
  by apply civil_of_time_mono.
Qed.

(** ** The cache directive over time *)

Lemma string_ge_dates_trans a b c :
  is_date a = true → is_date b = true → is_date c = true →
  string_ge a b = true → string_ge b c = true → string_ge a c = true.
Proof.
  intros Ha Hb Hc. rewrite !string_ge_dates by assumption.
  intros H1 H2. by apply (civil_leb_trans _ (date_fields b)).
Qed.

(** Before the year 0 the day is written with a sign, and every date in the
    form [YYYY-MM-DD] is greater, as a string. *)
Lemma day_before_year_0 (t0 : Z) (t : string) :
  t0 < -62167219200000 → is_date t = true →
  string_ge t (getDayAsISOString t0) = true.
Proof.
  intros Ht0 (a1&a2&a3&a4&a5&a6&a7&a8&Hds&->)%is_date_inv.
  destruct (year_beyond_four_digits t0) as [Hy _]. specialize (Hy Ht0).
  rewrite getDayAsISOString_date. unfold iso_year.
  replace ((0 <=? YearFromTime t0) && (YearFromTime t0 <=? 9999)) with false
    by (symmetry; apply andb_false_iff; left; apply Z.leb_gt; lia).
  replace (YearFromTime t0 <? 0) with true by (symmetry; apply Z.ltb_lt; lia).
  change ("-" +:+ pad_digits 6 (Z.abs (YearFromTime t0)))
    with (String "-" (pad_digits 6 (Z.abs (YearFromTime t0)))).
  rewrite append_cons. unfold string_ge. cbn [string_lt].
  unfold digits in Hds. apply Forall_cons_1 in Hds as [Ha1%is_digit_bounds _].
  change (code "-") with 45.
  destruct (Z.ltb_spec (code a1) 45); [lia|].
  destruct (Z.ltb_spec 45 (code a1)); [reflexivity|lia].
Qed.

(** A date that is not before the day of a time is not before the day of an
    earlier time, up to the year 9999. *)
Lemma boundary_mono (t0 t1 : Z) (t : string) :
  t0 ≤ t1 → before_year_10000 t1 → is_date t = true →
  string_ge t (getDayAsISOString t1) = true →
  string_ge t (getDayAsISOString t0) = true.
Proof.
  unfold before_year_10000. intros Hle Ht1 Hdt Hge.
  destruct (Z.lt_ge_cases t0 (-62167219200000)) as [Hsigned|Hfour];
    [by apply day_before_year_0|].
  assert (four_digit_year t0) by (unfold four_digit_year; lia).
  assert (four_digit_year t1) by (unfold four_digit_year; lia).
  apply (string_ge_dates_trans _ (getDayAsISOString t1)); auto using today_is_date.
  by apply day_string_mono.
Qed.

Section Served.
Context {J P : Type}.
Variable pathname : string.
Variable searchParams : URLSearchParams.
Variable pgPool : P.
Variable fetchStatsFn : P → Filter → Outcome J.

(** The response to a canonical request whose query returns. *)
Lemma serve_canonical (clock : Z) (f t : string) (stats : J) :
  get searchParams "from" = Some f → get searchParams "to" = Some t →
  is_date f = true → is_date t = true →
  fetchStatsFn pgPool {| from := f; to := t |} = Return stats →
  serve clock pathname searchParams pgPool fetchStatsFn
  = with_res (with_query (initial_world clock) {| from := f; to := t |})
      (stats_response fresh_response (stats_cache_control clock t) stats).
Proof.
  intros Hf Ht Hdf Hdt Hfetch. unfold serve, catch.
  rewrite serve_path; rewrite ?Hf, ?Ht, ?the_Some;
    auto using falsy_Some, well_formed_nonempty, is_date_well_formed.
  cbv zeta. rewrite Hfetch. reflexivity.
Qed.
End Served.

(** X2: Before the year 10000, a range that ends today or later is served
    with the short directive, never as immutable. *)
Theorem range_up_to_today_is_short_lived {J P} (clock : Z) (pathname : string)
    (searchParams : URLSearchParams) (pgPool : P)
    (fetchStatsFn : P → Filter → Outcome J) (f t : string) (stats : J) :
  before_year_10000 clock →
  get searchParams "from" = Some f → get searchParams "to" = Some t →
  is_date f = true → is_date t = true →
  fetchStatsFn pgPool {| from := f; to := t |} = Return stats →
  string_ge t (getDayAsISOString clock) = true →
  header (serve clock pathname searchParams pgPool fetchStatsFn) "cache-control"
  = Some "public, max-age=600".
Proof.
  intros Hc Hf Ht Hdf Hdt Hfetch Hge.
  rewrite (serve_canonical _ _ _ _ clock f t stats) by assumption.
  rewrite header_stats_cache. unfold stats_cache_control.
  assert (string_ge t (getDayAsISOString (clock - 3600000)) = true) as ->; [|reflexivity].
  apply (boundary_mono _ clock); [lia|assumption..].
Qed.

Lemma range_up_to_today_is_short_lived_witness :
  header (serve 1704894284289 "/retrieval-success-rate"
            [("from", "2024-01-01"); ("to", "2024-01-10")] tt no_stats) "cache-control"
  = Some "public, max-age=600".
Proof.
  apply (range_up_to_today_is_short_lived 1704894284289 "/retrieval-success-rate"
           [("from", "2024-01-01"); ("to", "2024-01-10")] tt no_stats
           "2024-01-01" "2024-01-10" tt);
    first [reflexivity | unfold before_year_10000; lia].
Defined.

(** X3: Up to the year 9999, a range that has been served as immutable is
    served as immutable at any later time, and a range that is short-lived
    now was short-lived before: for two times of which the later is before
    the year 10000. *)
Theorem immutable_stays_immutable {J P} (clock clock' : Z) (pathname : string)
    (searchParams : URLSearchParams) (pgPool : P)
    (fetchStatsFn : P → Filter → Outcome J) (f t : string) (stats : J) :
  clock ≤ clock' → before_year_10000 clock' →
  get searchParams "from" = Some f → get searchParams "to" = Some t →
  is_date f = true → is_date t = true →
  fetchStatsFn pgPool {| from := f; to := t |} = Return stats →
  let w := serve clock pathname searchParams pgPool fetchStatsFn in
  let w' := serve clock' pathname searchParams pgPool fetchStatsFn in
  (header w "cache-control" = Some "public, max-age=31536000, immutable" →
   header w' "cache-control" = Some "public, max-age=31536000, immutable")
  ∧ (header w' "cache-control" = Some "public, max-age=600" →
     header w "cache-control" = Some "public, max-age=600").
Proof.
  intros Hle Hb' Hf Ht Hdf Hdt Hfetch w w'. subst w w'.
  rewrite !(serve_canonical _ _ _ _ _ f t stats) by assumption.
  rewrite !header_stats_cache. unfold stats_cache_control.
  assert (string_ge t (getDayAsISOString (clock' - 3600000)) = true →
          string_ge t (getDayAsISOString (clock - 3600000)) = true) as Hback.
  { apply boundary_mono; [lia| |assumption].
    unfold before_year_10000 in *. lia. }
  destruct (string_ge t (getDayAsISOString (clock' - 3600000))) eqn:E',
           (string_ge t (getDayAsISOString (clock - 3600000))) eqn:E;
    split; intros H; try reflexivity; try discriminate H;
    specialize (Hback eq_refl); congruence.
Qed.

Lemma immutable_stays_immutable_witness :
  header (serve 1800000000000 "/retrieval-success-rate"
            [("from", "2023-01-01"); ("to", "2023-12-31")] tt no_stats) "cache-control"
  = Some "public, max-age=31536000, immutable".
Proof.
  apply (immutable_stays_immutable 1704894284289 1800000000000 "/retrieval-success-rate"
           [("from", "2023-01-01"); ("to", "2023-12-31")] tt no_stats
           "2023-01-01" "2023-12-31" tt);
    first [reflexivity | unfold before_year_10000; lia].
Defined.

(** ** Errors *)

Lemma errorHandler_spec {J} (err : JsError) (w : World J) :
  errorHandler err w = (error_outcome err, error_world err w).
Proof.
  unfold errorHandler, error_outcome, error_world, error_status, error_text.
  destruct err as [|status message|message].
  - reflexivity.
  - destruct (Z.eqb_spec status 0) as [->|Hne]; [reflexivity|].
    unfold mbind, M_bind, mret, M_ret, writeHead, end_, update_res,
      captureException, throw. cbn [fst snd res statusCode].
    destruct (valid_status status); [|reflexivity].
    cbn [fst snd res statusCode]. by destruct (500 <=? status).
  - reflexivity.
Qed.

Lemma header_error_world {J} (err : JsError) (w : World J) name :
  header (error_world err w) name = header w name.
Proof. unfold header, error_world. by destruct (valid_status _). Qed.

Lemma valid_status_spec status : valid_status status = true ↔ 100 ≤ status ≤ 999.
Proof. unfold valid_status. rewrite andb_true_iff, !Z.leb_le. done. Qed.

(** X4: [errorHandler] leaves the headers and the query log alone.  For a
    [SyntaxError] it ends the response with 400; for an error with a status
    code from 100 to 999, with that status, [res.end] being given the message
    of the error; for an error without status code, with 500 and the fixed
    text, its own message is not sent; the error goes to the error tracker
    exactly when the status is 500 or more.  For an error whose status code
    is not zero and outside 100 to 999, [res.end] throws: [errorHandler]
    throws an error without status, the response is not ended and nothing is
    reported. *)
Theorem errorHandler_answers_or_throws {J} (err : JsError) (w : World J) :
  let r := errorHandler err w in
  headers (res r.2) = headers (res w)
  ∧ queries r.2 = queries w
  ∧ (err = SyntaxError →
       r.1 = Return tt ∧ statusCode (res r.2) = 400
       ∧ ended (res r.2) = Some (Text "Invalid JSON Body")
       ∧ captured r.2 = captured w)
  ∧ (∀ status message, err = HttpError status message → 100 ≤ status ≤ 999 →
       r.1 = Return tt ∧ statusCode (res r.2) = status
       ∧ ended (res r.2) = Some (Text message)
       ∧ captured r.2 = (if 500 <=? status then captured w ++ [err] else captured w)%list)
  ∧ (∀ status message, err = HttpError status message →
       status ≠ 0 → ¬ 100 ≤ status ≤ 999 →
       (∃ text, r.1 = Throw (OtherError text))
       ∧ ended (res r.2) = ended (res w)
       ∧ captured r.2 = captured w)
  ∧ ((∃ message, err = OtherError message ∨ err = HttpError 0 message) →
       r.1 = Return tt ∧ statusCode (res r.2) = 500
       ∧ ended (res r.2) = Some (Text "Internal Server Error")
       ∧ captured r.2 = (captured w ++ [err])%list).
Proof.
  cbv zeta. rewrite errorHandler_spec. cbn [fst snd].
  split; [unfold error_world; by destruct (valid_status _)|].
  split; [unfold error_world; by destruct (valid_status _)|].
  split; [by intros ->|]. split; [|split].
  - intros status message -> Hvalid.
    assert (status ≠ 0) as Hne%Z.eqb_neq by lia.
    apply valid_status_spec in Hvalid.
    unfold error_outcome, error_world, error_status, error_text.
    rewrite Hne, Hvalid. by repeat split.
  - intros status message -> Hne%Z.eqb_neq Hinvalid.
    rewrite <- valid_status_spec in Hinvalid. apply not_true_is_false in Hinvalid.
    unfold error_outcome, error_world, error_status.
    rewrite Hne, Hinvalid. split; [by eexists|]. by split.
  - intros (message & [->| ->]); by repeat split.
Qed.

Lemma errorHandler_answers_or_throws_witness :
  let r := errorHandler (HttpError 42 "no such status") (initial_world (J := unit) 0) in
  (∃ text, r.1 = Throw (OtherError text))
  ∧ ended (res r.2) = None ∧ captured r.2 = [].
Proof.
  destruct (errorHandler_answers_or_throws (HttpError 42 "no such status")
              (initial_world (J := unit) 0)) as (_ & _ & _ & _ & H & _).
  apply (H 42 "no such status" eq_refl); lia.
Defined.

Section Pipeline.
Context {J P : Type}.
Variable clock : Z.
Variable pathname : string.
Variable searchParams : URLSearchParams.
Variable pgPool : P.
Variable fetchStatsFn : P → Filter → Outcome J.

Local Abbreviation from0 := (get searchParams "from").
Local Abbreviation to0 := (get searchParams "to").

(** The response sent, by the way the request goes. *)
Lemma serve_cases :
  let w := serve clock pathname searchParams pgPool fetchStatsFn in
  let range := {| from := the from0; to := the to0 |} in
  (∃ redirect status,
      (status = 302 ∨ status = 301)
      ∧ w = with_res (initial_world clock)
              (redirect_response fresh_response status
                 (if status =? 302 then "public, max-age=600" else "public, max-age=86400")
                 (redirect_location pathname (from redirect) (to redirect))))
  ∨ (∃ message,
      (message = from_format_message ∨ message = to_format_message)
      ∧ w = error_world (HttpError 400 message) (initial_world clock))
  ∨ (∃ stats,
      canonical searchParams = true
      ∧ fetchStatsFn pgPool range = Return stats
      ∧ w = with_res (with_query (initial_world clock) range)
              (stats_response fresh_response (stats_cache_control clock (the to0)) stats))
  ∨ (∃ err,
      canonical searchParams = true
      ∧ fetchStatsFn pgPool range = Throw err
      ∧ w = error_world err (with_query (initial_world clock) range)).
Proof.
  cbv zeta. unfold serve, catch. fold (handle clock pathname searchParams pgPool fetchStatsFn).
  destruct (handle_cases clock pathname searchParams pgPool fetchStatsFn)
    as [(redirect & status & E1 & Hs & E2 & _)
       |[(message & E & _ & _ & Hm & _)|(Hc & E)]].
  - left. exists redirect, status. split; [exact Hs|].
    destruct (handle _ _ _ _ _) as [o w]. cbn [fst snd] in *. by subst.
  - right; left. exists message. split; [destruct Hm as [[-> _]|[-> _]]; auto|].
    rewrite E, errorHandler_spec. reflexivity.
  - right; right. rewrite E. cbv zeta.
    destruct (fetchStatsFn pgPool _) as [stats|err] eqn:Ef.
    + left. exists stats. by repeat split.
    + right. exists err. rewrite errorHandler_spec. by repeat split.
Qed.
End Pipeline.

(** X5: A request that is not served sends no header: whenever
    [getStatsWithFilterAndCaching] throws, it has written nothing to the
    response, so whatever the error handler does carries neither
    [cache-control] nor [location].  For an error whose status (500 when it
    has none) lies from 100 to 999 the answer has that status and the text of
    the error; for any other status nothing is sent. *)
Theorem thrown_request_sends_no_header {J P} (clock : Z) (pathname : string)
    (searchParams : URLSearchParams) (pgPool : P)
    (fetchStatsFn : P → Filter → Outcome J) (err : JsError) :
  let r := handle clock pathname searchParams pgPool fetchStatsFn in
  let w := serve clock pathname searchParams pgPool fetchStatsFn in
  r.1 = Throw err →
  res r.2 = fresh_response
  ∧ headers (res w) = ∅
  ∧ (100 ≤ error_status err ≤ 999 →
       statusCode (res w) = error_status err
       ∧ ended (res w) = Some (Text (error_text err)))
  ∧ (¬ 100 ≤ error_status err ≤ 999 → ended (res w) = None).
Proof.
  intros r w Hthrow. subst r w. unfold serve, catch.
  fold (handle clock pathname searchParams pgPool fetchStatsFn).
  assert (∀ w0 : World J, res w0 = fresh_response →
            headers (res (error_world err w0)) = ∅
            ∧ (100 ≤ error_status err ≤ 999 →
                 statusCode (res (error_world err w0)) = error_status err
                 ∧ ended (res (error_world err w0)) = Some (Text (error_text err)))
            ∧ (¬ 100 ≤ error_status err ≤ 999 →
                 ended (res (error_world err w0)) = None)) as Hsent.
  { intros w0 Hfresh. rewrite <- valid_status_spec. unfold error_world.
    destruct (valid_status (error_status err)); cbn; rewrite Hfresh;
      split_and!; try done; by intros []. }
  destruct (handle_cases clock pathname searchParams pgPool fetchStatsFn)
    as [(redirect & status & E1 & _)|[(message & E & _)|(Hc & E)]].
  - rewrite E1 in Hthrow. discriminate Hthrow.
  - rewrite E in Hthrow |- *. injection Hthrow as <-.
    rewrite errorHandler_spec. cbn [fst snd]. split; [reflexivity|].
    by apply Hsent.
  - rewrite E in Hthrow |- *. cbv zeta in *.
    destruct (fetchStatsFn pgPool _) as [stats|e]; [discriminate Hthrow|].
    injection Hthrow as ->. rewrite errorHandler_spec. cbn [fst snd].
    split; [reflexivity|]. by apply Hsent.
Qed.

Lemma thrown_request_sends_no_header_witness :
  let w := serve 1704894284289 "/retrieval-success-rate"
             [("from", "2024-01-10T13:44:44.289Z"); ("to", "soon")] tt no_stats in
  headers (res w) = ∅ ∧ statusCode (res w) = 400.
Proof.
  destruct (thrown_request_sends_no_header 1704894284289 "/retrieval-success-rate"
              [("from", "2024-01-10T13:44:44.289Z"); ("to", "soon")] tt no_stats
              (HttpError 400 to_format_message) eq_refl) as (_ & H1 & H2 & _).
  split; [assumption|]. apply H2. cbn. lia.
Defined.

(** X6: A query that fails with an error without status, as the database's
    errors are: the request was canonical, the answer is 500 with the fixed
    text and without [cache-control], and the error is handed to the error
    tracker once. *)
Theorem failed_query_is_internal_error {J P} (clock : Z) (pathname : string)
    (searchParams : URLSearchParams) (pgPool : P)
    (fetchStatsFn : P → Filter → Outcome J) (f t message : string) :
  get searchParams "from" = Some f → get searchParams "to" = Some t →
  is_date f = true → is_date t = true →
  fetchStatsFn pgPool {| from := f; to := t |} = Throw (OtherError message) →
  let w := serve clock pathname searchParams pgPool fetchStatsFn in
  statusCode (res w) = 500
  ∧ ended (res w) = Some (Text "Internal Server Error")
  ∧ header w "cache-control" = None
  ∧ queries w = [{| from := f; to := t |}]
  ∧ captured w = [OtherError message].
Proof.
  intros Hf Ht Hdf Hdt Hfetch w. subst w. unfold serve, catch.
  rewrite serve_path; rewrite ?Hf, ?Ht, ?the_Some;
    auto using falsy_Some, well_formed_nonempty, is_date_well_formed.
  cbv zeta. rewrite Hfetch, errorHandler_spec. by repeat split.
Qed.

Lemma failed_query_is_internal_error_witness :
  let w := serve 1704894284289 "/retrieval-success-rate"
             [("from", "2024-02-30"); ("to", "2024-03-01")] seeded
             fetchRetrievalSuccessRate in
  statusCode (res w) = 500 ∧ header w "cache-control" = None.
Proof.
  destruct (failed_query_is_internal_error 1704894284289 "/retrieval-success-rate"
              [("from", "2024-02-30"); ("to", "2024-03-01")] seeded
              fetchRetrievalSuccessRate "2024-02-30" "2024-03-01"
              "invalid input syntax for type date"
              eq_refl eq_refl eq_refl eq_refl eq_refl) as (H1 & _ & H2 & _).
  split; assumption.
Defined.

(** Closes the entries of a table of statuses. *)
Ltac table :=
  rewrite ?elem_of_cons, ?elem_of_nil;
  first [ lia | done
        | split; (let H := fresh in
                  intros H;
                  first [ lia | done | by eexists | by destruct H as [? [=]]
                        | by destruct H ]) ].

(** X7: The answers of a statistics route, when the query function throws plain
    errors only: the status is 200, 301, 302, 400 or 500 and the response
    is ended; [cache-control] is there exactly for 200, 301 and 302,
    [location] exactly for 301 and 302, and the query was called exactly
    for 200 and 500. *)
Theorem statistics_route_answers {J P} (clock : Z) (pathname : string)
    (searchParams : URLSearchParams) (pgPool : P)
    (fetchStatsFn : P → Filter → Outcome J) :
  throws_plain_errors fetchStatsFn →
  let w := serve clock pathname searchParams pgPool fetchStatsFn in
  let status := statusCode (res w) in
  status ∈ [200; 301; 302; 400; 500]
  ∧ ended (res w) ≠ None
  ∧ (is_Some (header w "cache-control") ↔ status ∈ [200; 301; 302])
  ∧ (is_Some (header w "location") ↔ status ∈ [301; 302])
  ∧ (queries w ≠ [] ↔ status ∈ [200; 500])
  ∧ (captured w ≠ [] ↔ status = 500).
Proof.
  intros Hplain w status. subst status w.
  destruct (serve_cases clock pathname searchParams pgPool fetchStatsFn)
    as [(redirect & status & Hs & ->)
       |[(message & _ & ->)|[(stats & _ & _ & ->)|(err & _ & Hthrow & ->)]]].
  - unfold header. cbn.
    rewrite lookup_insert_eq, lookup_insert_ne, lookup_insert_eq by done.
    destruct Hs as [->| ->]; split_and!; table.
  - unfold header. cbn. rewrite !lookup_empty. split_and!; table.
  - unfold header. cbn. rewrite lookup_insert_eq, lookup_insert_ne, lookup_empty by done.
    split_and!; table.
  - destruct (Hplain _ _ _ Hthrow) as (message & ->).
    unfold header. cbn. rewrite !lookup_empty. split_and!; table.
Qed.

Lemma statistics_route_answers_witness :
  statusCode (res (serve 1704894284289 "/retrieval-success-rate" [] tt no_stats))
  ∈ [200; 301; 302; 400; 500].
Proof.
  apply (statistics_route_answers 1704894284289 "/retrieval-success-rate" [] tt no_stats).
  intros ??? [=].
Defined.

(** ** The router *)

Lemma split_nonempty sep s : split sep s ≠ [].
Proof.
  induction s as [|c s IH]; cbn; [discriminate|].
  destruct (Ascii.eqb c sep); [discriminate|]. by destruct (split sep s).
Qed.

Lemma segments_cons c r :
  segments (String c r)
  = if Ascii.eqb c "/" then segments r
    else match split "/" r with
         | h :: t => String c h :: List.filter (λ s, negb (String.eqb s "")) t
         | [] => [String c ""]
         end.
Proof.
  unfold segments. cbn [split]. destruct (Ascii.eqb c "/"); [reflexivity|].
  by destruct (split "/" r).
Qed.

(** No segment at all: the path is made of slashes. *)
Lemma segments_nil_iff p : segments p = [] ↔ only_slashes p = true.
Proof.
  induction p as [|c r IH]; [done|].
  rewrite segments_cons. cbn [only_slashes].
  destruct (Ascii.eqb c "/"); [exact IH|].
  by destruct (split "/" r).
Qed.

Lemma catch_then_unit {J A} (route : M J A) (w : World J) :
  (catch (route;; mret tt) w).2 = (catch route w).2.
Proof.
  unfold catch, mbind, M_bind, mret, M_ret. by destruct (route w) as [[a|e] w'].
Qed.

Section Router.
Variable pgPool : Pool.
Variable clock : Z.
Variable req : IncomingMessage.

Local Abbreviation segs := (segments (url_pathname req)).

(** Every method but GET is answered 404. *)
Lemma handler_other_method :
  method req ≠ "GET" → handler req pgPool = notFound.
Proof.
  intros H%String.eqb_neq. unfold handler. by rewrite H.
Qed.

(** The three statistics routes go through
    [getStatsWithFilterAndCaching] with their own query function. *)
Lemma createHandler_statistics fetchStatsFn :
  method req = "GET" → route_fetcher segs = Some fetchStatsFn →
  createHandler pgPool clock req
  = serve clock (url_pathname req) (url_searchParams req) pgPool fetchStatsFn.
Proof.
  intros Hm Hr. unfold route_fetcher in Hr.
  unfold createHandler, serve.
  assert (handler req pgPool
          = (getStatsWithFilterAndCaching (url_pathname req) (url_searchParams req)
               pgPool fetchStatsFn;; mret tt)) as ->; [|apply catch_then_unit].
  unfold handler. rewrite Hm.
  repeat case_decide; simplify_eq;
    match goal with E : segs = _ |- _ => rewrite E end; reflexivity.
Qed.

Lemma createHandler_health :
  method req = "GET" → segs = [] →
  createHandler pgPool clock req
  = with_res (initial_world clock)
      {| statusCode := 200; headers := ∅; ended := Some (Text "OK") |}.
Proof.
  intros Hm Hs. unfold createHandler, handler. rewrite Hm, Hs. reflexivity.
Qed.

Lemma createHandler_notFound :
  ¬ routed req →
  createHandler pgPool clock req
  = with_res (initial_world clock)
      {| statusCode := 404; headers := ∅; ended := Some (Text "Not Found") |}.
Proof.
  intros Hn. unfold createHandler.
  destruct (decide (method req = "GET")) as [Hm|Hm];
    [|by rewrite handler_other_method].
  assert (segs ∉ routes) as Hs by (intros ?; by apply Hn).
  unfold routes in Hs. rewrite !not_elem_of_cons in Hs.
  destruct Hs as (H0 & H1 & H2 & H3 & _).
  unfold handler. rewrite Hm. cbn [String.eqb Ascii.eqb Bool.eqb andb].
  destruct segs as [|s0 [|s1 [|s2 rest]]]; try done; unfold seg_is;
    repeat case_bool_decide; simplify_eq/=; try done; try reflexivity.
Qed.

Lemma routed_cases :
  routed req →
  segs = [] ∨ ∃ fetchStatsFn, route_fetcher segs = Some fetchStatsFn.
Proof.
  intros [_ Hs]. unfold routes in Hs. rewrite !elem_of_cons, elem_of_nil in Hs.
  destruct Hs as [->|[->|[->|[->|[]]]]]; [by left|right..]; by eexists.
Qed.
End Router.

Lemma route_fetcher_plain segs fetchStatsFn :
  route_fetcher segs = Some fetchStatsFn → throws_plain_errors fetchStatsFn.
Proof.
  unfold route_fetcher. intros Hr pgPool filter err.
  repeat case_decide; simplify_eq; cbn;
    unfold fetchRetrievalSuccessRate, query_by_day, query_grouped,
      fetchDailyParticipants, fetchMonthlyParticipants; cbn;
    destruct (pg_date_in (from filter)), (pg_date_in (to filter));
    cbn; intros [= <-]; by eexists.
Qed.

Lemma serve_status {J P} (clock : Z) (pathname : string)
    (searchParams : URLSearchParams) (pgPool : P)
    (fetchStatsFn : P → Filter → Outcome J) :
  throws_plain_errors fetchStatsFn →
  statusCode (res (serve clock pathname searchParams pgPool fetchStatsFn))
  ∈ [200; 301; 302; 400; 500].
Proof.
  intros Hplain.
  destruct (serve_cases clock pathname searchParams pgPool fetchStatsFn)
    as [(redirect & status & Hs & ->)
       |[(message & _ & ->)|[(stats & _ & _ & ->)|(err & _ & Hthrow & ->)]]]; cbn.
  - destruct Hs as [->| ->]; table.
  - table.
  - table.
  - destruct (Hplain _ _ _ Hthrow) as (message & ->). cbn. table.
Qed.

(** X8: The answer is 404 exactly when the request is not routed: when the
    method is not GET, or the segments of the path (empty ones dropped) are
    none of the four routes.  It then is the text [Not Found], without
    headers, and nothing is queried or reported. *)
Theorem not_found_iff_not_routed (pgPool : Pool) (clock : Z) (req : IncomingMessage) :
  let w := createHandler pgPool clock req in
  (statusCode (res w) = 404 ↔ ¬ routed req)
  ∧ (method req ≠ "GET" → ¬ routed req)
  ∧ (¬ routed req →
     ended (res w) = Some (Text "Not Found") ∧ headers (res w) = ∅
     ∧ queries w = [] ∧ captured w = []).
Proof.
  cbv zeta. split; [split|split].
  - intros H404 Hr. pose proof Hr as [Hm _].
    destruct (routed_cases req Hr) as [Hs|(fetchStatsFn & Hf)].
    + rewrite (createHandler_health _ _ _ Hm Hs) in H404. discriminate H404.
    + rewrite (createHandler_statistics _ _ _ _ Hm Hf) in H404.
      pose proof (serve_status clock (url_pathname req) (url_searchParams req)
                    pgPool fetchStatsFn (route_fetcher_plain _ _ Hf)) as Hst.
      rewrite H404 in Hst. revert Hst. table.
  - intros Hn. by rewrite createHandler_notFound.
  - intros Hm [Hm' _]. contradiction.
  - intros Hn. by rewrite createHandler_notFound.
Qed.

Lemma not_found_iff_not_routed_witness :
  let summary := {| method := "GET";
                    url_pathname := "/miners/retrieval-success-rate/summary";
                    url_searchParams := [("from", "2024-01-11"); ("to", "2024-01-11")] |} in
  statusCode (res (createHandler participants_pool 1704894284289 summary)) = 404.
Proof.
  cbv zeta.
  apply (not_found_iff_not_routed participants_pool 1704894284289).
  intros [_ Hs]. vm_compute in Hs.
  repeat (apply elem_of_cons in Hs as [Hs|Hs]; [discriminate Hs|]).
  by apply elem_of_nil in Hs.
Defined.

(** X9: The health check: GET on a path of slashes only is answered 200 with the
    text [OK], whatever the query string; no header is set and nothing is
    queried. *)
Theorem health_check (pgPool : Pool) (clock : Z) (req : IncomingMessage) :
  method req = "GET" → only_slashes (url_pathname req) = true →
  let w := createHandler pgPool clock req in
  statusCode (res w) = 200 ∧ ended (res w) = Some (Text "OK")
  ∧ headers (res w) = ∅ ∧ queries w = [] ∧ captured w = [].
Proof.
  intros Hm Hs%segments_nil_iff. cbv zeta.
  by rewrite (createHandler_health _ _ _ Hm Hs).
Qed.

Lemma health_check_witness :
  let w := createHandler participants_pool 1704894284289
             {| method := "GET"; url_pathname := "/";
                url_searchParams := [("from", "whenever")] |} in
  statusCode (res w) = 200 ∧ ended (res w) = Some (Text "OK").
Proof.
  destruct (health_check participants_pool 1704894284289
              {| method := "GET"; url_pathname := "/";
                 url_searchParams := [("from", "whenever")] |} eq_refl eq_refl)
    as (H1 & H2 & _).
  split; assumption.
Defined.

Section Relocated.
Context {J P : Type}.
Variable clock : Z.
Variable searchParams : URLSearchParams.
Variable pgPool : P.
Variable fetchStatsFn : P → Filter → Outcome J.

(** The path takes part in the location of a redirect and in nothing
    else. *)
Lemma serve_relocated (p p' : string) :
  let w := serve clock p searchParams pgPool fetchStatsFn in
  let w' := serve clock p' searchParams pgPool fetchStatsFn in
  statusCode (res w) = statusCode (res w')
  ∧ ended (res w) = ended (res w')
  ∧ header w "cache-control" = header w' "cache-control"
  ∧ queries w = queries w' ∧ captured w = captured w'
  ∧ ∃ tail : option string,
      header w "location" = String.append p <$> tail
      ∧ header w' "location" = String.append p' <$> tail.
Proof.
  cbv zeta. unfold serve, catch.
  destruct (falsy (get searchParams "to")) eqn:Ht;
    [|destruct (falsy (get searchParams "from")) eqn:Hf].
  - rewrite !default_path by (by rewrite Ht).
    cbn [fst snd]. rewrite !header_redirect_location, !header_redirect_cache.
    split_and!; try reflexivity. by eexists (Some _).
  - rewrite !default_path by (by rewrite Hf, orb_true_r).
    cbn [fst snd]. rewrite !header_redirect_location, !header_redirect_cache.
    split_and!; try reflexivity. by eexists (Some _).
  - destruct (well_formed (the (get searchParams "from"))) eqn:Hwf.
    2:{ rewrite !bad_from_path by assumption. rewrite !errorHandler_spec.
        split_and!; try reflexivity. by exists None. }
    destruct (well_formed (the (get searchParams "to"))) eqn:Hwt.
    2:{ rewrite !bad_to_path by assumption. rewrite !errorHandler_spec.
        split_and!; try reflexivity. by exists None. }
    destruct (is_date (the (get searchParams "from"))) eqn:Hdf;
      [destruct (is_date (the (get searchParams "to"))) eqn:Hdt|].
    + rewrite !serve_path by first [assumption|reflexivity]. cbv zeta.
      destruct (fetchStatsFn pgPool _); rewrite ?errorHandler_spec;
        cbn [snd]; rewrite ?header_error_world;
        (split_and!; try reflexivity; by exists None).
    + rewrite !trim_path; auto;
        try (by rewrite (well_formed_not_date _ Hwt Hdt), orb_true_r).
      cbn [fst snd]. rewrite !header_redirect_location, !header_redirect_cache.
      split_and!; try reflexivity. by eexists (Some _).
    + rewrite !trim_path; auto;
        try (by rewrite (well_formed_not_date _ Hwf Hdf)).
      cbn [fst snd]. rewrite !header_redirect_location, !header_redirect_cache.
      split_and!; try reflexivity. by eexists (Some _).
Qed.
End Relocated.

(** X10: Routing looks at the segments of the path only: two requests that differ
    in the spelling of the path alone (doubled or trailing slashes) get the
    same status, body and [cache-control], and make the same query; only the
    location of a redirect repeats the path as it was spelled. *)
Theorem same_segments_same_answer (pgPool : Pool) (clock : Z)
    (req req' : IncomingMessage) :
  method req = method req' →
  url_searchParams req = url_searchParams req' →
  segments (url_pathname req) = segments (url_pathname req') →
  let w := createHandler pgPool clock req in
  let w' := createHandler pgPool clock req' in
  statusCode (res w) = statusCode (res w')
  ∧ ended (res w) = ended (res w')
  ∧ header w "cache-control" = header w' "cache-control"
  ∧ queries w = queries w' ∧ captured w = captured w'
  ∧ ∃ tail : option string,
      header w "location" = String.append (url_pathname req) <$> tail
      ∧ header w' "location" = String.append (url_pathname req') <$> tail.
Proof.
  intros Hm Hsp Hsegs. cbv zeta.
  destruct (decide (routed req)) as [Hr|Hn].
  - assert (routed req') as Hr' by (destruct Hr; split; congruence).
    pose proof Hr as [HG _]. pose proof Hr' as [HG' _].
    destruct (routed_cases req Hr) as [Hs|(fetchStatsFn & Hf)].
    + rewrite (createHandler_health _ _ _ HG Hs).
      rewrite (createHandler_health _ _ _ HG') by congruence.
      split_and!; try reflexivity. by exists None.
    + rewrite (createHandler_statistics _ _ _ _ HG Hf).
      rewrite (createHandler_statistics _ _ _ fetchStatsFn HG') by congruence.
      rewrite <- Hsp. apply serve_relocated.
  - assert (¬ routed req') as Hn' by (intros [??]; apply Hn; split; congruence).
    rewrite !createHandler_notFound by assumption.
    split_and!; try reflexivity. by exists None.
Qed.

Lemma same_segments_same_answer_witness :
  let w := createHandler participants_pool 1704894284289
             {| method := "GET"; url_pathname := "/participants/daily";
                url_searchParams := [("to", "2024-01-12")] |} in
  let w' := createHandler participants_pool 1704894284289
              {| method := "GET"; url_pathname := "//participants/daily/";
                 url_searchParams := [("to", "2024-01-12")] |} in
  statusCode (res w) = statusCode (res w')
  ∧ header w "location" = Some "/participants/daily?from=2024-01-12&to=2024-01-12"
  ∧ header w' "location" = Some "//participants/daily/?from=2024-01-12&to=2024-01-12".
Proof.
  destruct (same_segments_same_answer participants_pool 1704894284289
              {| method := "GET"; url_pathname := "/participants/daily";
                 url_searchParams := [("to", "2024-01-12")] |}
              {| method := "GET"; url_pathname := "//participants/daily/";
                 url_searchParams := [("to", "2024-01-12")] |}
              eq_refl eq_refl eq_refl) as (H1 & _).
  split; [exact H1|]. split; reflexivity.
Defined.

(** X11: Each statistics route answers a canonical range with the rows of its own
    query for that range: success rates by day, participants by day,
    participants by month. *)
Theorem routes_serve_their_statistics (pgPool : Pool) (clock : Z)
    (req : IncomingMessage) (f t : string) :
  method req = "GET" →
  get (url_searchParams req) "from" = Some f →
  get (url_searchParams req) "to" = Some t →
  is_date f = true → is_date t = true →
  let w := createHandler pgPool clock req in
  let range := {| from := f; to := t |} in
  (segments (url_pathname req) = ["retrieval-success-rate"] →
   ∀ rows, fetchRetrievalSuccessRate (stats_pool pgPool) range = Return rows →
     statusCode (res w) = 200 ∧ ended (res w) = Some (Json (RetrievalSuccessRate rows)))
  ∧ (segments (url_pathname req) = ["participants"; "daily"] →
     ∀ rows, fetchDailyParticipants pgPool range = Return rows →
       statusCode (res w) = 200 ∧ ended (res w) = Some (Json (DailyParticipants rows)))
  ∧ (segments (url_pathname req) = ["participants"; "monthly"] →
     ∀ rows, fetchMonthlyParticipants pgPool range = Return rows →
       statusCode (res w) = 200 ∧ ended (res w) = Some (Json (MonthlyParticipants rows))).
Proof.
  intros Hm Hf Ht Hdf Hdt. cbv zeta.
  split_and!; intros Hs rows Hrows;
    (rewrite (createHandler_statistics _ _ _ _ Hm ltac:(by rewrite Hs));
     erewrite serve_canonical; [by split|done..|]; cbn; by rewrite Hrows).
Qed.

Lemma routes_serve_their_statistics_witness :
  ended (res (createHandler participants_pool 1704894284289
                {| method := "GET"; url_pathname := "/participants/monthly";
                   url_searchParams := [("from", "2024-01-12"); ("to", "2024-02-12")] |}))
  = Some (Json (MonthlyParticipants
                  [ {| MonthRow.month := "2024-01-01"; MonthRow.participants := 5 |};
                    {| MonthRow.month := "2024-02-01"; MonthRow.participants := 2 |} ])).
Proof.
  destruct (routes_serve_their_statistics participants_pool 1704894284289
              {| method := "GET"; url_pathname := "/participants/monthly";
                 url_searchParams := [("from", "2024-01-12"); ("to", "2024-02-12")] |}
              "2024-01-12" "2024-02-12" eq_refl eq_refl eq_refl eq_refl eq_refl)
    as (_ & _ & H).
  apply (H eq_refl). vm_compute. reflexivity.
Defined.

(** * The queries

    ** The months of the calendar *)

Lemma civil_of_first y m :
  1 ≤ m ≤ 12 →
  civil_from_days (days_from_civil y m 1) = {| cd_year := y; cd_month := m; cd_day := 1 |}.
Proof.
  intros Hm. unfold days_from_civil.
  set (y' := if m <=? 2 then y - 1 else y).
  set (mp0 := if 2 <? m then m - 3 else m + 9).
  assert (Hmp0 : 0 ≤ mp0 ≤ 11) by (subst mp0; destruct (Z.ltb_spec 2 m); lia).
  set (era0 := y' / 400). set (yoe0 := y' - era0 * 400).
  assert (Hyoe0 : 0 ≤ yoe0 < 400) by (subst yoe0 era0; Z.div_mod_to_equations; lia).
  set (doy0 := (153 * mp0 + 2) / 5 + 1 - 1).
  assert (Hdoy0 : 0 ≤ doy0 ≤ 337) by (subst doy0; Z.div_mod_to_equations; lia).
  set (doe0 := yoe0 * 365 + yoe0 / 4 - yoe0 / 100 + doy0).
  unfold civil_from_days.
  replace (era0 * 146097 + doe0 - 719468 + 719468) with (era0 * 146097 + doe0) by lia.
  assert (Hdoe0 : 0 ≤ doe0 < 146097) by (subst doe0; Z.div_mod_to_equations; lia).
  replace ((era0 * 146097 + doe0) / 146097) with era0
    by (Z.div_mod_to_equations; lia).
  replace (era0 * 146097 + doe0 - era0 * 146097) with doe0 by lia.
  assert (Hy : (doe0 - doe0 / 1460 + doe0 / 36524 - doe0 / 146096) / 365 = yoe0)
    by (subst doe0; Z.div_mod_to_equations; lia).
  rewrite Hy.
  replace (doe0 - (365 * yoe0 + yoe0 / 4 - yoe0 / 100)) with doy0 by (subst doe0; lia).
  assert (Hmp : (5 * doy0 + 2) / 153 = mp0) by (subst doy0; Z.div_mod_to_equations; lia).
  rewrite Hmp.
  assert (Hd : doy0 - (153 * mp0 + 2) / 5 + 1 = 1) by (subst doy0; lia).
  rewrite Hd.
  assert (Hm' : (if mp0 <? 10 then mp0 + 3 else mp0 - 9) = m).
  { subst mp0. destruct (Z.ltb_spec 2 m).
    - destruct (Z.ltb_spec (m - 3) 10); lia.
    - destruct (Z.ltb_spec (m + 9) 10); lia. }
  rewrite Hm'. f_equal.
  subst yoe0 y'. destruct (Z.leb_spec m 2); lia.
Qed.

Lemma civil_from_days_inj n n' : civil_from_days n = civil_from_days n' → n = n'.
Proof.
  intros H. rewrite <- (days_from_civil_from_days n), <- (days_from_civil_from_days n').
  cbv zeta. by rewrite H.
Qed.

Lemma month_index_mono n n' : n ≤ n' → month_index n ≤ month_index n'.
Proof.
  intros H%civil_from_days_mono. unfold month_index, civil_le in *.
  destruct (civil_month_day_range n) as [? _].
  destruct (civil_month_day_range n') as [? _]. lia.
Qed.

Lemma month_index_eq n n' :
  month_index n = month_index n' →
  cd_year (civil_from_days n) = cd_year (civil_from_days n')
  ∧ cd_month (civil_from_days n) = cd_month (civil_from_days n').
Proof.
  unfold month_index.
  destruct (civil_month_day_range n) as [? _].
  destruct (civil_month_day_range n') as [? _]. lia.
Qed.

Lemma civil_month_start n :
  civil_from_days (month_start n)
  = {| cd_year := cd_year (civil_from_days n);
       cd_month := cd_month (civil_from_days n); cd_day := 1 |}.
Proof.
  unfold month_start. apply civil_of_first. apply civil_month_day_range.
Qed.

Lemma month_index_month_start n : month_index (month_start n) = month_index n.
Proof. unfold month_index. by rewrite civil_month_start. Qed.

Lemma civil_next_month_start n :
  month_index (next_month_start n) = month_index n + 1
  ∧ cd_day (civil_from_days (next_month_start n)) = 1.
Proof.
  unfold month_index, next_month_start.
  destruct (civil_month_day_range n) as [Hm _].
  destruct (Z.eqb_spec (cd_month (civil_from_days n)) 12) as [E|E].
  - rewrite civil_of_first by lia. cbn [cd_year cd_month cd_day]. lia.
  - rewrite civil_of_first by lia. cbn [cd_year cd_month cd_day]. lia.
Qed.

Lemma month_start_le n : month_start n ≤ n.
Proof.
  pose proof (days_from_civil_from_days n) as H. cbv zeta in H.
  destruct (civil_month_day_range n) as [_ Hd].
  unfold month_start. unfold days_from_civil in *. lia.
Qed.

Lemma lt_next_month_start n : n < next_month_start n.
Proof.
  destruct (Z.lt_ge_cases n (next_month_start n)) as [|H]; [assumption|].
  apply month_index_mono in H. destruct (civil_next_month_start n). lia.
Qed.

(** Two first days of the same month are the same day. *)
Lemma first_days_equal n n' :
  cd_day (civil_from_days n) = 1 → cd_day (civil_from_days n') = 1 →
  month_index n = month_index n' → n = n'.
Proof.
  intros H1 H1' [Hy Hm]%month_index_eq. apply civil_from_days_inj.
  destruct (civil_from_days n), (civil_from_days n'). cbn in *. congruence.
Qed.

Lemma month_start_eq n n' :
  month_index n = month_index n' ↔ month_start n = month_start n'.
Proof.
  split.
  - intros [Hy Hm]%month_index_eq. unfold month_start. by rewrite Hy, Hm.
  - intros H. by rewrite <- (month_index_month_start n), H, month_index_month_start.
Qed.

(** The days from the first of the month of [lo] up to the last of the month
    of [hi] are the days whose month lies between the two months. *)
Lemma whole_months lo hi d :
  (month_start lo <=? d) && (d <? next_month_start hi) = true
  ↔ month_index lo ≤ month_index d ≤ month_index hi.
Proof.
  rewrite andb_true_iff, Z.leb_le, Z.ltb_lt.
  destruct (civil_next_month_start hi) as [Hni Hnd].
  split.
  - intros [H1 H2]. split.
    + apply month_index_mono in H1. by rewrite month_index_month_start in H1.
    + destruct (Z.le_gt_cases (month_index d) (month_index hi)) as [|Hgt]; [assumption|].
      exfalso.
      assert (next_month_start hi ≤ month_start d); [|pose proof (month_start_le d); lia].
      destruct (Z.le_gt_cases (next_month_start hi) (month_start d)) as [|Hlt]; [assumption|].
      assert (month_start d ≤ next_month_start hi) as Hle by lia.
      apply month_index_mono in Hle. rewrite month_index_month_start in Hle.
      assert (month_index (month_start d) = month_index (next_month_start hi)) as E
        by (rewrite month_index_month_start; lia).
      apply first_days_equal in E; [lia| |assumption].
      by rewrite civil_month_start.
  - intros [H1 H2]. split.
    + destruct (Z.le_gt_cases (month_start lo) d) as [|Hgt]; [assumption|].
      exfalso.
      assert (d ≤ month_start lo) as Hle by lia.
      apply month_index_mono in Hle. rewrite month_index_month_start in Hle.
      assert (month_index (month_start d) = month_index (month_start lo)) as E
        by (rewrite !month_index_month_start; lia).
      apply first_days_equal in E; rewrite ?civil_month_start; try reflexivity.
      pose proof (month_start_le d). lia.
    + destruct (Z.lt_ge_cases d (next_month_start hi)) as [|Hge]; [assumption|].
      apply month_index_mono in Hge. lia.
Qed.

(** ** The dates of the database and the dates of JavaScript *)

Lemma Day_of_days n : Day (n * msPerDay) = n.
Proof. unfold Day, msPerDay. Z.div_mod_to_equations. lia. Qed.

Lemma four_digit_days n :
  1 ≤ cd_year (civil_from_days n) ≤ 9999 → four_digit_year (n * msPerDay).
Proof.
  intros Hy. pose proof (civil_year_spec n) as Hn. cbv zeta in Hn.
  pose proof (DayFromYear_mono 0 (cd_year (civil_from_days n)) ltac:(lia)) as H0.
  pose proof (DayFromYear_mono (cd_year (civil_from_days n) + 1) 10000 ltac:(lia)) as H1.
  change (DayFromYear 0) with (-719528) in H0.
  change (DayFromYear 10000) with 2932897 in H1.
  unfold four_digit_year, msPerDay. lia.
Qed.

(** [day::text] prints a day of the years 1 to 9999 as JavaScript prints the
    day of a time value of that day. *)
Lemma pg_date_out_getDay n :
  1 ≤ cd_year (civil_from_days n) ≤ 9999 →
  pg_date_out n = getDayAsISOString (n * msPerDay).
Proof.
  intros Hy. rewrite getDayAsISOString_digits by by apply four_digit_days.
  cbv zeta. unfold YearFromTime, MonthFromTime1, DateFromTime.
  rewrite Day_of_days. unfold pg_date_out.
  cbv [pad_digits String.append]. reflexivity.
Qed.

Lemma pg_date_out_is_date n :
  1 ≤ cd_year (civil_from_days n) ≤ 9999 → is_date (pg_date_out n) = true.
Proof.
  intros Hy. rewrite pg_date_out_getDay by assumption.
  by apply today_is_date, four_digit_days.
Qed.

Lemma date_fields_pg_date_out n :
  1 ≤ cd_year (civil_from_days n) ≤ 9999 →
  date_fields (pg_date_out n)
  = (cd_year (civil_from_days n), cd_month (civil_from_days n),
     cd_day (civil_from_days n)).
Proof.
  intros Hy. rewrite pg_date_out_getDay by assumption.
  rewrite date_fields_today by by apply four_digit_days.
  unfold civil_of_time, YearFromTime, MonthFromTime1, DateFromTime.
  by rewrite Day_of_days.
Qed.

(** The text of a day reads back as that day. *)
Lemma pg_date_in_out n :
  1 ≤ cd_year (civil_from_days n) ≤ 9999 → pg_date_in (pg_date_out n) = Some n.
Proof.
  intros Hy. unfold pg_date_in.
  rewrite pg_date_out_is_date, date_fields_pg_date_out by assumption.
  pose proof (days_from_civil_from_days n) as Hn. cbv zeta in Hn.
  cbv zeta. rewrite Hn.
  rewrite !Z.eqb_refl. by destruct (Z.leb_spec 1 (cd_year (civil_from_days n))); [|lia].
Qed.

(** The days that the database reads are of the years 1 to 9999. *)
Lemma pg_date_in_year s n :
  pg_date_in s = Some n → 1 ≤ cd_year (civil_from_days n) ≤ 9999.
Proof.
  unfold pg_date_in. destruct (is_date s) eqn:Hs; [|discriminate].
  destruct (date_fields s) as [[y m] d] eqn:Hfields.
  destruct ((1 <=? y) && _ && _ && _) eqn:Hvalid; [|discriminate].
  intros [= <-].
  apply andb_prop in Hvalid as [Hvalid _].
  apply andb_prop in Hvalid as [Hvalid _].
  apply andb_prop in Hvalid as [H1%Z.leb_le Hy%Z.eqb_eq].
  rewrite Hy. split; [assumption|].
  destruct (is_date_inv s Hs) as (a1&a2&a3&a4&a5&a6&a7&a8&Hds&->).
  unfold digits in Hds.
  repeat (apply Forall_cons_1 in Hds as [? Hds]).
  unfold date_fields, Z_of_digits in Hfields.
  cbn [String.substring list_ascii_of_string fold_left] in Hfields.
  injection Hfields as <- _ _.
  repeat match goal with
    | Hx : is_digit _ = true |- _ => apply is_digit_bounds in Hx
    end.
  lia.
Qed.

Lemma between_years lo hi d :
  1 ≤ cd_year (civil_from_days lo) → cd_year (civil_from_days hi) ≤ 9999 →
  lo ≤ d ≤ hi → 1 ≤ cd_year (civil_from_days d) ≤ 9999.
Proof.
  intros Hlo Hhi [H1%civil_year_mono H2%civil_year_mono]. lia.
Qed.

(** The texts of the days are in the order of the days. *)
Lemma pg_date_out_mono n n' :
  1 ≤ cd_year (civil_from_days n) → cd_year (civil_from_days n') ≤ 9999 →
  n ≤ n' → string_ge (pg_date_out n') (pg_date_out n) = true.
Proof.
  intros Hn Hn' Hle.
  pose proof (civil_year_mono _ _ Hle).
  rewrite !pg_date_out_getDay by lia.
  apply day_string_mono; try (apply four_digit_days; lia).
  unfold msPerDay. lia.
Qed.

(** ** The groups of the participants *)

(** The rows of a key are the rows that the filter leaves. *)
Lemma filter_nonempty_iff {A} `{EqDecision K} (key : A → K) (rows : list A) (k : K) :
  List.filter (λ r, bool_decide (key r = k)) rows ≠ [] ↔ ∃ r, r ∈ rows ∧ key r = k.
Proof.
  split.
  - destruct (List.filter _ rows) as [|r g] eqn:E; [done|]. intros _.
    assert (In r (List.filter (λ r, bool_decide (key r = k)) rows)) as Hin
      by (rewrite E; by left).
    apply filter_In in Hin as [Hin Hk%bool_decide_eq_true].
    exists r. split; [by apply list_elem_of_In|assumption].
  - intros (r & Hr%list_elem_of_In & Hk) E.
    assert (In r (List.filter (λ r, bool_decide (key r = k)) rows)) as Hin
      by (apply filter_In; split; [assumption|by apply bool_decide_eq_true]).
    by rewrite E in Hin.
Qed.

Section Participants.
Context `{Countable K}.
Variable key : Participation → K.

Lemma group_participants_lookup (rows : list Participation) (k : K) :
  group_participants key rows !! k =
    match List.filter (λ r, bool_decide (key r = k)) rows with
    | [] => None
    | _ => Some (participants_of key k rows)
    end.
Proof.
  induction rows as [|r rows IH]; [reflexivity|].
  unfold participants_of in *. cbn [group_participants foldr List.filter].
  fold (group_participants key rows). unfold add_participant.
  destruct (decide (key r = k)) as [->|Hne].
  - rewrite bool_decide_eq_true_2 by reflexivity.
    rewrite lookup_insert_eq, IH.
    by destruct (List.filter _ rows).
  - rewrite bool_decide_eq_false_2 by assumption.
    by rewrite lookup_insert_ne.
Qed.

Lemma group_participants_elem (rows : list Participation) (k : K) (ids : gset Z) :
  (k, ids) ∈ map_to_list (group_participants key rows)
  ↔ (∃ r, r ∈ rows ∧ key r = k) ∧ ids = participants_of key k rows.
Proof.
  rewrite elem_of_map_to_list, group_participants_lookup, <- filter_nonempty_iff.
  destruct (List.filter _ rows); split.
  - done.
  - by intros [? _].
  - intros [= <-]. done.
  - by intros [_ ->].
Qed.

Lemma elem_of_participants_of (rows : list Participation) (k : K) (p : Z) :
  p ∈ participants_of key k rows
  ↔ ∃ r, r ∈ rows ∧ key r = k ∧ participant_id r = p.
Proof.
  unfold participants_of. rewrite elem_of_list_to_set, list_elem_of_fmap.
  split.
  - intros (r & -> & Hr%list_elem_of_In%filter_In).
    destruct Hr as [Hr Hk%bool_decide_eq_true].
    exists r. by rewrite list_elem_of_In.
  - intros (r & Hr%list_elem_of_In & Hk & <-). exists r. split; [done|].
    apply list_elem_of_In, filter_In. split; [done|by apply bool_decide_eq_true].
Qed.

End Participants.

Section Kept.
Context `{Countable K}.
Variable key : Participation → K.
Variable keep : Participation → bool.

Lemma elem_of_kept (table : list Participation) (r : Participation) :
  r ∈ List.filter keep table ↔ r ∈ table ∧ keep r = true.
Proof. by rewrite !list_elem_of_In, filter_In. Qed.

(** A condition that holds for all rows of a key or for none does not cut
    the group of a key. *)
Lemma participants_of_kept (table : list Participation) (k : K) :
  (∀ r r', key r = key r' → keep r = keep r') →
  (∃ r, r ∈ table ∧ keep r = true ∧ key r = k) →
  participants_of key k (List.filter keep table) = participants_of key k table.
Proof.
  intros Hkeep (r & Hr & Hkept & Hk). apply set_eq. intros p.
  rewrite !elem_of_participants_of. split.
  - intros (r' & [Hr' _]%elem_of_kept & Hk' & Hp). by exists r'.
  - intros (r' & Hr' & Hk' & Hp). exists r'. split; [|done].
    apply elem_of_kept. split; [done|].
    rewrite (Hkeep r' r) by congruence. done.
Qed.

(** The participants of a group under another key with the same groups. *)
Lemma participants_of_key `{EqDecision K'} (key' : Participation → K')
    (table : list Participation) (r : Participation) :
  (∀ r', key r' = key r ↔ key' r' = key' r) →
  participants_of key (key r) table = participants_of key' (key' r) table.
Proof.
  intros Hkeys. apply set_eq. intros p. rewrite !elem_of_participants_of.
  split; intros (r' & Hr' & Hk' & Hp); exists r'; by rewrite Hkeys in *.
Qed.

Lemma participants_of_nonempty (table : list Participation) (r : Participation) :
  r ∈ table → 1 ≤ Z.of_nat (size (participants_of key (key r) table)).
Proof.
  intros Hr.
  assert (participant_id r ∈ participants_of key (key r) table) as Hin
    by (apply elem_of_participants_of; by exists r).
  assert (size (participants_of key (key r) table) ≠ 0%nat); [|lia].
  intros Hsize%size_empty_inv. by apply Hsize in Hin.
Qed.

End Kept.

Lemma in_days_iff lo hi d : (lo <=? d) && (d <=? hi) = true ↔ lo ≤ d ≤ hi.
Proof. rewrite andb_true_iff, Z.leb_le, Z.leb_le. done. Qed.

(** X12: when [fetchDailyParticipants] returns, no day occurs twice in the
    result, and the rows are those of the days within the range that have a
    table row: the day printed as text, with the number of distinct
    participants of that day, which is at least 1. *)
Theorem daily_participants_rows (pgPool : Pool) (filter : Filter)
    (rows : list ParticipantsRow.t) :
  fetchDailyParticipants pgPool filter = Return rows →
  ∃ lo hi,
    pg_date_in (from filter) = Some lo ∧ pg_date_in (to filter) = Some hi
    ∧ NoDup (ParticipantsRow.day <$> rows)
    ∧ ∀ text n,
        {| ParticipantsRow.day := text; ParticipantsRow.participants := n |} ∈ rows
        ↔ ∃ d, lo ≤ d ≤ hi
               ∧ (∃ r, r ∈ daily_participants pgPool ∧ on_day r = d)
               ∧ text = pg_date_out d
               ∧ n = Z.of_nat (size (participants_of on_day d (daily_participants pgPool)))
               ∧ 1 ≤ n.
Proof.
  unfold fetchDailyParticipants.
  destruct (pg_date_in (from filter)) as [lo|] eqn:Hlo; [|discriminate].
  destruct (pg_date_in (to filter)) as [hi|] eqn:Hhi; [|discriminate].
  cbv zeta. intros [= <-]. exists lo, hi. split; [done|]. split; [done|].
  set (keep := λ r, (lo <=? on_day r) && (on_day r <=? hi)).
  set (table := daily_participants pgPool).
  assert (∀ d ids, (d, ids) ∈ map_to_list (group_participants on_day (List.filter keep table))
            ↔ lo ≤ d ≤ hi ∧ (∃ r, r ∈ table ∧ on_day r = d)
              ∧ ids = participants_of on_day d table) as Hgroups.
  { intros d ids. rewrite group_participants_elem. split.
    - intros [(r & [Hr Hkept]%elem_of_kept & <-) ->].
      apply in_days_iff in Hkept as Hd. split; [done|]. split; [by exists r|].
      apply participants_of_kept; [by intros ?? Heq; unfold keep; rewrite Heq|].
      by exists r.
    - intros (Hd & (r & Hr & <-) & ->). split.
      + exists r. split; [|done]. apply elem_of_kept. split; [done|].
        by apply in_days_iff.
      + symmetry. apply participants_of_kept;
          [by intros ?? Heq; unfold keep; rewrite Heq|].
        exists r. split; [done|]. split; [by apply in_days_iff|done]. }
  pose proof (pg_date_in_year _ _ Hlo) as Hylo.
  pose proof (pg_date_in_year _ _ Hhi) as Hyhi.
  split.
  - rewrite <- list_fmap_compose.
    change (ParticipantsRow.day ∘ _) with (pg_date_out ∘ (fst : Z * gset Z → Z)).
    rewrite list_fmap_compose.
    apply NoDup_fmap_2_strong; [|apply NoDup_fst_map_to_list].
    assert (∀ d, d ∈ (map_to_list (group_participants on_day (List.filter keep table))).*1
              → pg_date_in (pg_date_out d) = Some d) as Hback.
    { intros d ([d' ids] & -> & Hin%Hgroups)%list_elem_of_fmap.
      apply pg_date_in_out, (between_years lo hi); [lia|lia|tauto]. }
    intros d d' Hd%Hback Hd'%Hback Heq. congruence.
  - intros text n. rewrite list_elem_of_fmap. split.
    + intros ([d ids] & [= -> ->] & (Hd & (r & Hr & <-) & ->)%Hgroups).
      exists (on_day r). split; [done|]. split; [by exists r|].
      split; [done|]. split; [done|]. by apply participants_of_nonempty.
    + intros (d & Hd & Hr & -> & -> & _).
      exists (d, participants_of on_day d table). split; [done|].
      by apply Hgroups.
Qed.

Lemma daily_participants_rows_witness :
  let filter := {| from := "2024-01-10"; to := "2024-01-11" |} in
  let rows := [ {| ParticipantsRow.day := "2024-01-11"; ParticipantsRow.participants := 3 |};
                {| ParticipantsRow.day := "2024-01-10"; ParticipantsRow.participants := 2 |} ] in
  fetchDailyParticipants participants_pool filter = Return rows
  ∧ NoDup (ParticipantsRow.day <$> rows).
Proof.
  cbv zeta.
  assert (fetchDailyParticipants participants_pool {| from := "2024-01-10"; to := "2024-01-11" |}
          = Return [ {| ParticipantsRow.day := "2024-01-11"; ParticipantsRow.participants := 3 |};
                     {| ParticipantsRow.day := "2024-01-10"; ParticipantsRow.participants := 2 |} ])
    as Hfetch by (vm_compute; reflexivity).
  split; [exact Hfetch|].
  destruct (daily_participants_rows _ _ _ Hfetch) as (lo & hi & _ & _ & Hrows & _).
  exact Hrows.
Defined.

(** ** Whole months *)

Lemma month_index_years n n' :
  month_index n ≤ month_index n' →
  cd_year (civil_from_days n) ≤ cd_year (civil_from_days n').
Proof.
  unfold month_index.
  destruct (civil_month_day_range n) as [? _].
  destruct (civil_month_day_range n') as [? _]. lia.
Qed.

(** X13: when [fetchMonthlyParticipants] returns, no month occurs twice in
    the result, and the rows are those of the months from the month of [from]
    to the month of [to] that have a table row: the first day of the month
    printed as text, with the number of distinct participants over all table
    rows of that month, at least 1, whatever the days of the month of [from]
    and [to]. *)
Theorem monthly_participants_rows (pgPool : Pool) (filter : Filter)
    (rows : list MonthRow.t) :
  fetchMonthlyParticipants pgPool filter = Return rows →
  ∃ lo hi,
    pg_date_in (from filter) = Some lo ∧ pg_date_in (to filter) = Some hi
    ∧ NoDup (MonthRow.month <$> rows)
    ∧ ∀ text n,
        {| MonthRow.month := text; MonthRow.participants := n |} ∈ rows
        ↔ ∃ d, month_index lo ≤ month_index d ≤ month_index hi
               ∧ (∃ r, r ∈ daily_participants pgPool ∧ on_day r = d)
               ∧ text = pg_date_out (month_start d)
               ∧ date_fields text
                 = (cd_year (civil_from_days d), cd_month (civil_from_days d), 1)
               ∧ n = Z.of_nat (size (participants_of (λ r, month_index (on_day r))
                                       (month_index d) (daily_participants pgPool)))
               ∧ 1 ≤ n.
Proof.
  unfold fetchMonthlyParticipants.
  destruct (pg_date_in (from filter)) as [lo|] eqn:Hlo; [|discriminate].
  destruct (pg_date_in (to filter)) as [hi|] eqn:Hhi; [|discriminate].
  cbv zeta. intros [= <-]. exists lo, hi. split; [done|]. split; [done|].
  set (keep := λ r, (month_start lo <=? on_day r) && (on_day r <? next_month_start hi)).
  set (key := λ r, month_start (on_day r)).
  set (index := λ r, month_index (on_day r)).
  set (table := daily_participants pgPool).
  assert (∀ r r', key r = key r' → keep r = keep r') as Hkeep.
  { intros r r' Heq%month_start_eq. apply eq_true_iff_eq. unfold keep.
    by rewrite !whole_months, Heq. }
  assert (∀ r, participants_of key (key r) table
               = participants_of index (index r) table) as Hkeys.
  { intros r. apply participants_of_key. intros r'. unfold key, index.
    by rewrite month_start_eq. }
  assert (∀ m ids, (m, ids) ∈ map_to_list (group_participants key (List.filter keep table))
            ↔ ∃ r, r ∈ table
                   ∧ month_index lo ≤ month_index (on_day r) ≤ month_index hi
                   ∧ m = month_start (on_day r)
                   ∧ ids = participants_of index (index r) table) as Hgroups.
  { intros m ids. rewrite group_participants_elem. split.
    - intros [(r & [Hr Hkept]%elem_of_kept & <-) ->].
      exists r. split; [done|]. split; [by apply whole_months|]. split; [done|].
      rewrite <- Hkeys. apply participants_of_kept; [done|]. by exists r.
    - intros (r & Hr & Hm%whole_months & -> & ->).
      assert (∃ r', r' ∈ table ∧ keep r' = true ∧ key r' = key r) as Hkept
        by by exists r.
      split.
      + exists r. split; [|done]. by apply elem_of_kept.
      + rewrite <- Hkeys. symmetry. by apply participants_of_kept. }
  pose proof (pg_date_in_year _ _ Hlo) as Hylo.
  pose proof (pg_date_in_year _ _ Hhi) as Hyhi.
  assert (∀ d, month_index lo ≤ month_index d ≤ month_index hi →
            1 ≤ cd_year (civil_from_days (month_start d)) ≤ 9999) as Hyears.
  { intros d [H1%month_index_years H2%month_index_years].
    rewrite civil_month_start. cbn [cd_year]. lia. }
  split.
  - rewrite <- list_fmap_compose.
    change (MonthRow.month ∘ _) with (pg_date_out ∘ (fst : Z * gset Z → Z)).
    rewrite list_fmap_compose.
    apply NoDup_fmap_2_strong; [|apply NoDup_fst_map_to_list].
    assert (∀ m, m ∈ (map_to_list (group_participants key (List.filter keep table))).*1
              → pg_date_in (pg_date_out m) = Some m) as Hback.
    { intros m ([m' ids] & -> & Hin%Hgroups)%list_elem_of_fmap.
      destruct Hin as (r & _ & Hm & -> & _). by apply pg_date_in_out, Hyears. }
    intros m m' Hm%Hback Hm'%Hback Heq. congruence.
  - intros text n. rewrite list_elem_of_fmap. split.
    + intros ([m ids] & [= -> ->] & (r & Hr & Hm & -> & ->)%Hgroups).
      exists (on_day r). split; [done|]. split; [by exists r|].
      split; [done|]. split.
      { rewrite date_fields_pg_date_out by by apply Hyears.
        by rewrite civil_month_start. }
      split; [done|]. by apply (participants_of_nonempty index).
    + intros (d & Hd & (r & Hr & <-) & -> & _ & -> & _).
      exists (month_start (on_day r), participants_of index (index r) table).
      split; [done|]. apply Hgroups. by exists r.
Qed.

Lemma monthly_participants_rows_witness :
  let filter := {| from := "2024-01-12"; to := "2024-02-12" |} in
  let rows := [ {| MonthRow.month := "2024-01-01"; MonthRow.participants := 5 |};
                {| MonthRow.month := "2024-02-01"; MonthRow.participants := 2 |} ] in
  fetchMonthlyParticipants participants_pool filter = Return rows
  ∧ NoDup (MonthRow.month <$> rows).
Proof.
  cbv zeta.
  assert (fetchMonthlyParticipants participants_pool {| from := "2024-01-12"; to := "2024-02-12" |}
          = Return [ {| MonthRow.month := "2024-01-01"; MonthRow.participants := 5 |};
                     {| MonthRow.month := "2024-02-01"; MonthRow.participants := 2 |} ])
    as Hfetch by (vm_compute; reflexivity).
  split; [exact Hfetch|].
  destruct (monthly_participants_rows _ _ _ Hfetch) as (lo & hi & _ & _ & Hrows & _).
  exact Hrows.
Defined.

Lemma pg_date_in_fields s n :
  pg_date_in s = Some n →
  is_date s = true
  ∧ date_fields s
    = (cd_year (civil_from_days n), cd_month (civil_from_days n),
       cd_day (civil_from_days n)).
Proof.
  unfold pg_date_in. destruct (is_date s) eqn:Hs; [|discriminate].
  destruct (date_fields s) as [[y m] d] eqn:Hfields.
  destruct ((1 <=? y) && _ && _ && _) eqn:Hvalid; [|discriminate].
  intros [= <-].
  apply andb_prop in Hvalid as [Hvalid Hd%Z.eqb_eq].
  apply andb_prop in Hvalid as [Hvalid Hm%Z.eqb_eq].
  apply andb_prop in Hvalid as [_ Hy%Z.eqb_eq].
  by rewrite Hy, Hm, Hd.
Qed.

(** The first seven characters of a date are its year and its month. *)
Lemma year_month_prefix s s' :
  is_date s = true → is_date s' = true →
  String.substring 0 7 s = String.substring 0 7 s' →
  (date_fields s).1 = (date_fields s').1.
Proof.
  intros (a1&a2&a3&a4&a5&a6&a7&a8&_&->)%is_date_inv.
  intros (b1&b2&b3&b4&b5&b6&b7&b8&_&->)%is_date_inv.
  cbn [String.substring]. intros [= -> -> -> -> -> ->]. reflexivity.
Qed.

Lemma same_month_index s s' n n' :
  pg_date_in s = Some n → pg_date_in s' = Some n' →
  String.substring 0 7 s = String.substring 0 7 s' →
  month_index n = month_index n'.
Proof.
  intros [Hs Hf]%pg_date_in_fields [Hs' Hf']%pg_date_in_fields Hprefix.
  pose proof (year_month_prefix s s' Hs Hs' Hprefix) as Heq.
  unfold month_index. cbv zeta.
  generalize dependent (civil_from_days n'). generalize dependent (civil_from_days n).
  intros c Hf c' Hf'. rewrite Hf, Hf' in Heq. cbn [fst] in Heq.
  injection Heq as Hy Hm. by rewrite Hy, Hm.
Qed.

Lemma next_month_start_eq n n' :
  month_index n = month_index n' → next_month_start n = next_month_start n'.
Proof.
  intros [Hy Hm]%month_index_eq. unfold next_month_start. by rewrite Hy, Hm.
Qed.

(** X14: two ranges of existing dates that agree on the year and the month
    of [from] and of [to] (the first seven characters) give the same monthly
    participants. *)
Theorem monthly_participants_ignore_the_day (pgPool : Pool) (filter filter' : Filter)
    (lo hi lo' hi' : Z) :
  pg_date_in (from filter) = Some lo → pg_date_in (to filter) = Some hi →
  pg_date_in (from filter') = Some lo' → pg_date_in (to filter') = Some hi' →
  String.substring 0 7 (from filter) = String.substring 0 7 (from filter') →
  String.substring 0 7 (to filter) = String.substring 0 7 (to filter') →
  fetchMonthlyParticipants pgPool filter = fetchMonthlyParticipants pgPool filter'.
Proof.
  intros Hlo Hhi Hlo' Hhi' Hfrom Hto.
  pose proof (same_month_index _ _ _ _ Hlo Hlo' Hfrom) as Hmlo.
  pose proof (same_month_index _ _ _ _ Hhi Hhi' Hto) as Hmhi.
  unfold fetchMonthlyParticipants. rewrite Hlo, Hhi, Hlo', Hhi'. cbv zeta.
  apply month_start_eq in Hmlo. apply next_month_start_eq in Hmhi.
  by rewrite Hmlo, Hmhi.
Qed.

Lemma monthly_participants_ignore_the_day_witness :
  fetchMonthlyParticipants participants_pool {| from := "2024-01-12"; to := "2024-02-12" |}
  = fetchMonthlyParticipants participants_pool {| from := "2024-01-01"; to := "2024-02-29" |}.
Proof.
  apply (monthly_participants_ignore_the_day participants_pool
           {| from := "2024-01-12"; to := "2024-02-12" |}
           {| from := "2024-01-01"; to := "2024-02-29" |} 19734 19765 19723 19782);
    vm_compute; reflexivity.
Defined.

(** ** The groups of the success rates *)

Lemma group_sums_keys `{Countable K} (key : RetrievalStat → K)
    (rows : list RetrievalStat) (k : K) :
  k ∈ (map_to_list (group_sums key rows)).*1 ↔ ∃ r, r ∈ rows ∧ key r = k.
Proof.
  rewrite <- filter_nonempty_iff, list_elem_of_fmap. split.
  - intros ([k' ts] & -> & Hin%elem_of_map_to_list).
    rewrite group_sums_lookup in Hin. unfold rows_of_key in Hin. cbn [fst].
    by destruct (List.filter _ rows).
  - intros Hg.
    destruct (group_sums key rows !! k) as [ts|] eqn:Hlookup.
    + exists (k, ts). split; [done|]. by apply elem_of_map_to_list.
    + rewrite group_sums_lookup in Hlookup. unfold rows_of_key in Hlookup.
      by destruct (List.filter _ rows).
Qed.

Lemma elem_of_in_range lo hi (table : list RetrievalStat) (r : RetrievalStat) :
  r ∈ List.filter (in_range lo hi) table ↔ r ∈ table ∧ lo ≤ day r ≤ hi.
Proof.
  rewrite !list_elem_of_In, filter_In. unfold in_range. by rewrite in_days_iff.
Qed.

(** X15: when [fetchRetrievalSuccessRate] returns, no day occurs twice in the
    result; the days of the result are the days of the table rows within the
    range, printed as text; and each of them is in the form [YYYY-MM-DD] and
    lies between [from] and [to] in the order of strings. *)
Theorem success_rate_days (pgPool : PgPool) (filter : Filter)
    (stats : list DailyStat.t) :
  fetchRetrievalSuccessRate pgPool filter = Return stats →
  ∃ lo hi,
    pg_date_in (from filter) = Some lo ∧ pg_date_in (to filter) = Some hi
    ∧ NoDup (DailyStat.day <$> stats)
    ∧ (∀ text, text ∈ DailyStat.day <$> stats
        ↔ ∃ r, r ∈ retrieval_stats pgPool ∧ lo ≤ day r ≤ hi
               ∧ text = pg_date_out (day r))
    ∧ (∀ text, text ∈ DailyStat.day <$> stats →
         is_date text = true
         ∧ string_ge text (from filter) = true
         ∧ string_ge (to filter) text = true).
Proof.
  unfold fetchRetrievalSuccessRate, query_by_day, query_grouped. cbn [fst snd].
  destruct (pg_date_in (from filter)) as [lo|] eqn:Hlo; [|discriminate].
  destruct (pg_date_in (to filter)) as [hi|] eqn:Hhi; [|discriminate].
  intros [= <-]. exists lo, hi. split; [done|]. split; [done|].
  rewrite <- !list_fmap_compose.
  set (groups := map_to_list _).
  change (_ ∘ _ ∘ _) with (pg_date_out ∘ (fst : Z * (Z * Z) → Z)).
  rewrite list_fmap_compose.
  pose proof (pg_date_in_year _ _ Hlo) as Hylo.
  pose proof (pg_date_in_year _ _ Hhi) as Hyhi.
  assert (∀ d, d ∈ groups.*1
            ↔ ∃ r, r ∈ retrieval_stats pgPool ∧ lo ≤ day r ≤ hi ∧ day r = d) as Hdays.
  { intros d. unfold groups. rewrite group_sums_keys.
    split; intros (r & Hr & Hd); exists r.
    - apply elem_of_in_range in Hr. tauto.
    - split; [|tauto]. apply elem_of_in_range. tauto. }
  assert (∀ d, d ∈ groups.*1 → 1 ≤ cd_year (civil_from_days d) ≤ 9999) as Hyears.
  { intros d (r & _ & Hd & <-)%Hdays. apply (between_years lo hi); [lia|lia|done]. }
  split; [|split].
  - apply NoDup_fmap_2_strong; [|apply NoDup_fst_map_to_list].
    intros d d' Hd%Hyears%pg_date_in_out Hd'%Hyears%pg_date_in_out Heq. congruence.
  - intros text. rewrite list_elem_of_fmap. split.
    + intros (d & -> & (r & Hr & Hd & <-)%Hdays). by exists r.
    + intros (r & Hr & Hd & ->). exists (day r). split; [done|].
      apply Hdays. by exists r.
  - intros text (d & -> & Hd)%list_elem_of_fmap.
    pose proof (Hyears d Hd) as Hy. apply Hdays in Hd as (r & _ & Hrange & <-).
    split; [by apply pg_date_out_is_date|].
    rewrite <- (pg_date_out_in _ _ Hlo), <- (pg_date_out_in _ _ Hhi).
    split; apply pg_date_out_mono; lia.
Qed.

Lemma success_rate_days_witness :
  let filter := {| from := "2024-01-10"; to := "2024-01-11" |} in
  let stats := [ {| DailyStat.day := "2024-01-11"; DailyStat.success_rate := Some (Num (61 # 220)) |};
                 {| DailyStat.day := "2024-01-10"; DailyStat.success_rate := Some (Num (51 # 110)) |} ] in
  fetchRetrievalSuccessRate seeded filter = Return stats
  ∧ NoDup (DailyStat.day <$> stats).
Proof.
  cbv zeta.
  assert (fetchRetrievalSuccessRate seeded {| from := "2024-01-10"; to := "2024-01-11" |}
          = Return [ {| DailyStat.day := "2024-01-11"; DailyStat.success_rate := Some (Num (61 # 220)) |};
                     {| DailyStat.day := "2024-01-10"; DailyStat.success_rate := Some (Num (51 # 110)) |} ])
    as Hfetch by (vm_compute; reflexivity).
  split; [exact Hfetch|].
  destruct (success_rate_days _ _ _ Hfetch) as (lo & hi & _ & _ & Hdays & _).
  exact Hdays.
Defined.

(** X16: when [fetchMinersRSRSummary] returns, no miner occurs twice in the
    result, and the miners of the result are the miners that have a table row
    within the range. *)
Theorem miners_summary_miners (pgPool : PgPool) (filter : Filter)
    (stats : list MinerStat.t) :
  fetchMinersRSRSummary pgPool filter = Return stats →
  ∃ lo hi,
    pg_date_in (from filter) = Some lo ∧ pg_date_in (to filter) = Some hi
    ∧ NoDup (MinerStat.miner_id <$> stats)
    ∧ ∀ miner, miner ∈ MinerStat.miner_id <$> stats
        ↔ ∃ r, r ∈ retrieval_stats pgPool ∧ lo ≤ day r ≤ hi ∧ miner_id r = miner.
Proof.
  unfold fetchMinersRSRSummary, query_by_miner, query_grouped. cbn [fst snd].
  destruct (pg_date_in (from filter)) as [lo|] eqn:Hlo; [|discriminate].
  destruct (pg_date_in (to filter)) as [hi|] eqn:Hhi; [|discriminate].
  intros [= <-]. exists lo, hi. split; [done|]. split; [done|].
  rewrite <- !list_fmap_compose.
  change (_ ∘ _ ∘ _) with (fst : string * (Z * Z) → string).
  split; [apply NoDup_fst_map_to_list|].
  intros miner. rewrite group_sums_keys.
  split; intros (r & Hr & Hm); exists r.
  - apply elem_of_in_range in Hr. tauto.
  - split; [|tauto]. apply elem_of_in_range. tauto.
Qed.

Lemma miners_summary_miners_witness :
  let filter := {| from := "2024-01-10"; to := "2024-01-11" |} in
  let stats := [ {| MinerStat.miner_id := "f1one"; MinerStat.success_rate := Some (Num (2 # 30)) |};
                 {| MinerStat.miner_id := "f1two"; MinerStat.success_rate := Some (Num (110 # 300)) |} ] in
  fetchMinersRSRSummary seeded filter = Return stats
  ∧ NoDup (MinerStat.miner_id <$> stats).
Proof.
  cbv zeta.
  assert (fetchMinersRSRSummary seeded {| from := "2024-01-10"; to := "2024-01-11" |}
          = Return [ {| MinerStat.miner_id := "f1one"; MinerStat.success_rate := Some (Num (2 # 30)) |};
                     {| MinerStat.miner_id := "f1two"; MinerStat.success_rate := Some (Num (110 # 300)) |} ])
    as Hfetch by (vm_compute; reflexivity).
  split; [exact Hfetch|].
  destruct (miners_summary_miners _ _ _ Hfetch) as (lo & hi & _ & _ & Hminers & _).
  exact Hminers.
Defined.

(** ** Rates *)

Lemma sum_of_bounds (g : list RetrievalStat) :
  (∀ r, r ∈ g → 0 ≤ successful r ≤ total r) →
  0 ≤ sum_of successful g ≤ sum_of total g.
Proof.
  induction g as [|r g IH]; intros Hg; cbn [sum_of foldr]; [lia|].
  fold (sum_of successful g) (sum_of total g).
  pose proof (Hg r ltac:(left)).
  assert (0 ≤ sum_of successful g ≤ sum_of total g); [|lia].
  apply IH. intros r' Hr'. apply Hg. by right.
Qed.

Lemma guarded_rate_fraction t s :
  0 ≤ s ≤ t → rate_is_fraction (if 0 <? t then Some (js_div s t) else None).
Proof.
  intros Hst. rewrite guarded_rate. destruct (Z.ltb_spec 0 t) as [Ht|]; [|done].
  cbn [rate_is_fraction]. destruct t as [|t|t]; try lia.
  unfold Qle, Qdiv, Qmult, Qinv, inject_Z. cbn. lia.
Qed.

Lemma group_of_consistent `{EqDecision K} (pgPool : PgPool) (key : RetrievalStat → K)
    (k : K) lo hi :
  consistent pgPool →
  let g := rows_of_key key k (List.filter (in_range lo hi) (retrieval_stats pgPool)) in
  0 ≤ sum_of successful g ≤ sum_of total g.
Proof.
  intros Hok. apply sum_of_bounds. intros r Hr. apply Hok.
  unfold rows_of_key in Hr.
  apply list_elem_of_In, filter_In in Hr as [Hr _].
  apply filter_In in Hr as [Hr _]. by apply list_elem_of_In.
Qed.

(** X17: if no row of the table counts more successful retrievals than
    retrievals, nor a negative number of them, then every success rate that
    [fetchRetrievalSuccessRate] or [fetchMinersRSRSummary] returns is null or
    a number from 0 to 1. *)
Theorem success_rates_are_fractions (pgPool : PgPool) (filter : Filter) :
  consistent pgPool →
  (∀ stats row,
     fetchRetrievalSuccessRate pgPool filter = Return stats → row ∈ stats →
     rate_is_fraction (DailyStat.success_rate row))
  ∧ (∀ stats row,
       fetchMinersRSRSummary pgPool filter = Return stats → row ∈ stats →
       rate_is_fraction (MinerStat.success_rate row)).
Proof.
  intros Hok. split.
  - intros stats row Hfetch Hrow.
    unfold fetchRetrievalSuccessRate, query_by_day in Hfetch.
    destruct (query_grouped pgPool day (from filter, to filter)) as [rows|e] eqn:Hq;
      [|discriminate Hfetch].
    injection Hfetch as <-.
    apply list_elem_of_fmap in Hrow as (r & -> & Hr).
    apply list_elem_of_fmap in Hr as ([d [t s]] & -> & Hin).
    destruct (query_grouped_rows _ _ _ _ Hq) as (lo & hi & _ & _ & Hrows).
    destruct (Hrows d t s Hin) as (_ & -> & ->).
    cbn [DailyStat.success_rate DailyRow.total DailyRow.successful fst snd].
    by apply guarded_rate_fraction, group_of_consistent.
  - intros stats row Hfetch Hrow.
    unfold fetchMinersRSRSummary, query_by_miner in Hfetch.
    destruct (query_grouped pgPool miner_id (from filter, to filter)) as [rows|e] eqn:Hq;
      [|discriminate Hfetch].
    injection Hfetch as <-.
    apply list_elem_of_fmap in Hrow as (r & -> & Hr).
    apply list_elem_of_fmap in Hr as ([m [t s]] & -> & Hin).
    destruct (query_grouped_rows _ _ _ _ Hq) as (lo & hi & _ & _ & Hrows).
    destruct (Hrows m t s Hin) as (_ & -> & ->).
    cbn [MinerStat.success_rate MinerRow.total MinerRow.successful fst snd].
    by apply guarded_rate_fraction, group_of_consistent.
Qed.

Lemma success_rates_are_fractions_witness :
  let filter := {| from := "2024-01-10"; to := "2024-01-11" |} in
  let row := {| MinerStat.miner_id := "f1two"; MinerStat.success_rate := Some (Num (110 # 300)) |} in
  consistent seeded
  ∧ ∃ stats, fetchMinersRSRSummary seeded filter = Return stats ∧ row ∈ stats
             ∧ rate_is_fraction (MinerStat.success_rate row).
Proof.
  cbv zeta.
  assert (consistent seeded) as Hok.
  { intros r Hr. cbn [seeded retrieval_stats] in Hr.
    repeat (apply elem_of_cons in Hr as [->|Hr]; [cbn; lia|]).
    by apply elem_of_nil in Hr. }
  split; [exact Hok|].
  assert (fetchMinersRSRSummary seeded {| from := "2024-01-10"; to := "2024-01-11" |}
          = Return [ {| MinerStat.miner_id := "f1one"; MinerStat.success_rate := Some (Num (2 # 30)) |};
                     {| MinerStat.miner_id := "f1two"; MinerStat.success_rate := Some (Num (110 # 300)) |} ])
    as Hfetch by (vm_compute; reflexivity).
  eexists. split; [exact Hfetch|].
  assert ({| MinerStat.miner_id := "f1two"; MinerStat.success_rate := Some (Num (110 # 300)) |}
          ∈ [ {| MinerStat.miner_id := "f1one"; MinerStat.success_rate := Some (Num (2 # 30)) |};
              {| MinerStat.miner_id := "f1two"; MinerStat.success_rate := Some (Num (110 # 300)) |} ])
    as Hrow by (apply list_elem_of_further, list_elem_of_here).
  split; [exact Hrow|].
  destruct (success_rates_are_fractions seeded {| from := "2024-01-10"; to := "2024-01-11" |} Hok)
    as [_ Hminers].
  exact (Hminers _ _ Hfetch Hrow).
Defined.

(** ** The dates of the calendar *)

Lemma is_leap_spec y :
  is_leap y = true ↔ y mod 4 = 0 ∧ (y mod 100 ≠ 0 ∨ y mod 400 = 0).
Proof.
  unfold is_leap.
  rewrite andb_true_iff, orb_true_iff, negb_true_iff, !Z.eqb_eq, Z.eqb_neq. done.
Qed.

Lemma days_in_month_cases y m :
  1 ≤ m ≤ 12 →
  (m = 2 ∧ is_leap y = true ∧ days_in_month y m = 29)
  ∨ (m = 2 ∧ is_leap y = false ∧ days_in_month y m = 28)
  ∨ ((m = 4 ∨ m = 6 ∨ m = 9 ∨ m = 11) ∧ days_in_month y m = 30)
  ∨ ((m = 1 ∨ m = 3 ∨ m = 5 ∨ m = 7 ∨ m = 8 ∨ m = 10 ∨ m = 12)
     ∧ days_in_month y m = 31).
Proof.
  intros Hm. unfold days_in_month.
  assert (m = 1 ∨ m = 2 ∨ m = 3 ∨ m = 4 ∨ m = 5 ∨ m = 6 ∨ m = 7 ∨ m = 8 ∨ m = 9
          ∨ m = 10 ∨ m = 11 ∨ m = 12) as Hcases by lia.
  destruct (is_leap y);
    repeat (destruct Hcases as [->|Hcases]; [cbn; lia|]); subst; cbn; lia.
Qed.

(** Every date of the calendar has its day number. *)
Lemma civil_of_days_from_civil y m d :
  1 ≤ m ≤ 12 → 1 ≤ d ≤ days_in_month y m →
  civil_from_days (days_from_civil y m d)
  = {| cd_year := y; cd_month := m; cd_day := d |}.
Proof.
  intros Hm Hd. unfold days_from_civil.
  set (y' := if m <=? 2 then y - 1 else y).
  set (mp0 := if 2 <? m then m - 3 else m + 9).
  assert (Hmp0 : 0 ≤ mp0 ≤ 11) by (subst mp0; destruct (Z.ltb_spec 2 m); lia).
  set (era0 := y' / 400). set (yoe0 := y' - era0 * 400).
  assert (Hyoe0 : 0 ≤ yoe0 < 400) by (subst yoe0 era0; Z.div_mod_to_equations; lia).
  assert (Hy' : y' = era0 * 400 + yoe0) by (subst yoe0; lia).
  set (first := (153 * mp0 + 2) / 5).
  set (doy0 := first + d - 1).
  (* the length of the month, in terms of the year that starts in March *)
  assert (Hlen : (first + d - 1 < (153 * (mp0 + 1) + 2) / 5 ∧ first + d - 1 ≤ 364)
                 ∨ (mp0 = 11 ∧ first + d - 1 = 365
                    ∧ (yoe0 + 1) mod 4 = 0
                    ∧ ((yoe0 + 1) mod 100 ≠ 0 ∨ yoe0 = 399))).
  { destruct (days_in_month_cases y m Hm) as
      [(-> & Hleap & Hdim)|[(-> & Hleap & Hdim)|[(Hmm & Hdim)|(Hmm & Hdim)]]];
      rewrite Hdim in Hd; clear Hdim.
    - apply is_leap_spec in Hleap.
      change mp0 with 11. change first with 337.
      change ((153 * (11 + 1) + 2) / 5) with 367.
      destruct (Z.eq_dec d 29) as [->|]; [right|left; lia].
      split; [reflexivity|]. split; [reflexivity|].
      change y' with (y - 1) in Hy'.
      clearbody yoe0 era0. Z.div_mod_to_equations. lia.
    - left. change mp0 with 11. change first with 337.
      change ((153 * (11 + 1) + 2) / 5) with 367. lia.
    - left. destruct Hmm as [-> | [-> | [-> | ->]]];
        vm_compute in mp0; subst mp0; vm_compute in first; subst first;
        (split; [|lia]);
        match goal with
        | |- _ < ?r => let v := eval vm_compute in r in change r with v
        end; lia.
    - left. destruct Hmm as [-> | [-> | [-> | [-> | [-> | [-> | ->]]]]]];
        vm_compute in mp0; subst mp0; vm_compute in first; subst first;
        (split; [|lia]);
        match goal with
        | |- _ < ?r => let v := eval vm_compute in r in change r with v
        end; lia. }
  assert (Hfirst : 0 ≤ first ≤ 337) by (subst first; Z.div_mod_to_equations; lia).
  assert (Hdoy0 : 0 ≤ doy0 ≤ 365) by (subst doy0; lia).
  set (doe0 := yoe0 * 365 + yoe0 / 4 - yoe0 / 100 + doy0).
  unfold civil_from_days.
  replace (era0 * 146097 + doe0 - 719468 + 719468) with (era0 * 146097 + doe0) by lia.
  assert (Hyear : doy0 ≤ 364 ∨ (doy0 = 365 ∧ (yoe0 + 1) mod 4 = 0
                                 ∧ ((yoe0 + 1) mod 100 ≠ 0 ∨ yoe0 = 399)))
    by (subst doy0; destruct Hlen as [Hlen|Hlen]; [left; lia|right; tauto]).
  assert (Hdoe0 : 0 ≤ doe0 < 146097)
    by (subst doe0; clearbody doy0 yoe0; Z.div_mod_to_equations; lia).
  replace ((era0 * 146097 + doe0) / 146097) with era0
    by (Z.div_mod_to_equations; lia).
  replace (era0 * 146097 + doe0 - era0 * 146097) with doe0 by lia.
  assert (Hy : (doe0 - doe0 / 1460 + doe0 / 36524 - doe0 / 146096) / 365 = yoe0)
    by (subst doe0; clearbody doy0 yoe0; Z.div_mod_to_equations; lia).
  rewrite Hy.
  replace (doe0 - (365 * yoe0 + yoe0 / 4 - yoe0 / 100)) with doy0 by (subst doe0; lia).
  assert (Hmp : (5 * doy0 + 2) / 153 = mp0).
  { subst doy0 first. clearbody mp0.
    destruct Hlen as [[Hlen _]|(-> & Hlen & _)].
    - Z.div_mod_to_equations. lia.
    - rewrite Hlen. reflexivity. }
  rewrite Hmp.
  assert (Hday : doy0 - (153 * mp0 + 2) / 5 + 1 = d) by (subst doy0 first; lia).
  rewrite Hday.
  assert (Hm' : (if mp0 <? 10 then mp0 + 3 else mp0 - 9) = m).
  { subst mp0. destruct (Z.ltb_spec 2 m).
    - destruct (Z.ltb_spec (m - 3) 10); lia.
    - destruct (Z.ltb_spec (m + 9) 10); lia. }
  rewrite Hm'. f_equal.
  subst yoe0 y'. destruct (Z.leb_spec m 2); lia.
Qed.

(** The day after the last day of a month is the first day of the next
    month. *)
Lemma days_from_civil_next_month y m :
  1 ≤ m ≤ 12 →
  (if m =? 12 then days_from_civil (y + 1) 1 1 else days_from_civil y (m + 1) 1)
  = days_from_civil y m (days_in_month y m) + 1.
Proof.
  intros Hm.
  assert (m = 1 ∨ m = 2 ∨ m = 3 ∨ m = 4 ∨ m = 5 ∨ m = 6 ∨ m = 7 ∨ m = 8 ∨ m = 9
          ∨ m = 10 ∨ m = 11 ∨ m = 12) as Hcases by lia.
  pose proof (is_leap_spec y) as Hleap.
  unfold days_in_month.
  destruct (is_leap y);
    [assert (y mod 4 = 0 ∧ (y mod 100 ≠ 0 ∨ y mod 400 = 0)) as Hy by by apply Hleap
    |assert (¬ (y mod 4 = 0 ∧ (y mod 100 ≠ 0 ∨ y mod 400 = 0))) as Hy
       by (intros Hy; by apply Hleap in Hy)];
    clear Hleap;
    destruct Hcases as [-> | [-> | [-> | [-> | [-> | [-> | [-> | [-> | [-> | [-> | [-> | ->]]]]]]]]]]];
    unfold days_from_civil;
    repeat match goal with
      | |- context [if ?b then _ else _] =>
          let v := eval vm_compute in b in change b with v; cbv iota
      end;
    Z.div_mod_to_equations; lia.
Qed.

(** The date of a day number is a date of the calendar. *)
Lemma civil_day_in_month n :
  let c := civil_from_days n in
  cd_day c ≤ days_in_month (cd_year c) (cd_month c).
Proof.
  cbv zeta.
  destruct (Z.le_gt_cases (cd_day (civil_from_days n))
              (days_in_month (cd_year (civil_from_days n)) (cd_month (civil_from_days n))))
    as [|Hgt]; [assumption|exfalso].
  pose proof (lt_next_month_start n) as Hnext. unfold next_month_start in Hnext.
  cbv zeta in Hnext.
  rewrite days_from_civil_next_month in Hnext by apply civil_month_day_range.
  pose proof (days_from_civil_from_days n) as Hn. cbv zeta in Hn.
  unfold days_from_civil in *. lia.
Qed.

(** The database reads exactly the dates of the calendar. *)
Lemma pg_date_in_existing s :
  is_date s = true →
  if existing_date s then ∃ n, pg_date_in s = Some n else pg_date_in s = None.
Proof.
  intros Hs. unfold existing_date.
  destruct (date_fields s) as [[y m] d] eqn:Hfields.
  destruct ((1 <=? y) && _ && _ && _ && _) eqn:Hvalid.
  - apply andb_prop in Hvalid as [Hvalid Hd2%Z.leb_le].
    apply andb_prop in Hvalid as [Hvalid Hd1%Z.leb_le].
    apply andb_prop in Hvalid as [Hvalid Hm2%Z.leb_le].
    apply andb_prop in Hvalid as [Hy%Z.leb_le Hm1%Z.leb_le].
    exists (days_from_civil y m d). unfold pg_date_in.
    rewrite Hs, Hfields. cbv zeta.
    rewrite civil_of_days_from_civil by lia. cbn [cd_year cd_month cd_day].
    rewrite !Z.eqb_refl. by destruct (Z.leb_spec 1 y); [|lia].
  - destruct (pg_date_in s) as [n|] eqn:Hn; [exfalso|reflexivity].
    pose proof (pg_date_in_year _ _ Hn) as Hy.
    pose proof (civil_month_day_range n) as [Hm Hd].
    pose proof (civil_day_in_month n) as Hd'. cbv zeta in Hd'.
    apply pg_date_in_fields in Hn as [_ Hn]. rewrite Hfields in Hn.
    destruct (civil_from_days n) as [y' m' d'].
    cbn [cd_year cd_month cd_day] in *. injection Hn as -> -> ->.
    apply not_true_iff_false in Hvalid. apply Hvalid.
    rewrite !andb_true_iff, !Z.leb_le. lia.
Qed.

(** ** Dates that do not exist *)

Lemma serve_thrown {J P} (clock : Z) (pathname : string)
    (searchParams : URLSearchParams) (pgPool : P)
    (fetchStatsFn : P → Filter → Outcome J) (f t : string) (err : JsError) :
  get searchParams "from" = Some f → get searchParams "to" = Some t →
  is_date f = true → is_date t = true →
  fetchStatsFn pgPool {| from := f; to := t |} = Throw err →
  serve clock pathname searchParams pgPool fetchStatsFn
  = error_world err (with_query (initial_world clock) {| from := f; to := t |}).
Proof.
  intros Hf Ht Hdf Hdt Hfetch. unfold serve, catch.
  rewrite serve_path; rewrite ?Hf, ?Ht, ?the_Some;
    auto using falsy_Some, well_formed_nonempty, is_date_well_formed.
  cbv zeta. by rewrite Hfetch, errorHandler_spec.
Qed.

(** The queries of the routes return when the database accepts both dates,
    and throw the error of the database otherwise. *)
Lemma route_fetcher_outcome segs fetchStatsFn (pgPool : Pool) (filter : Filter) :
  route_fetcher segs = Some fetchStatsFn →
  match pg_date_in (from filter), pg_date_in (to filter) with
  | Some _, Some _ => ∃ stats, fetchStatsFn pgPool filter = Return stats
  | _, _ => fetchStatsFn pgPool filter
            = Throw (OtherError "invalid input syntax for type date")
  end.
Proof.
  unfold route_fetcher. intros Hr.
  repeat case_decide; simplify_eq; cbn;
    unfold fetchRetrievalSuccessRate, query_by_day, query_grouped,
      fetchDailyParticipants, fetchMonthlyParticipants; cbn;
    destruct (pg_date_in (from filter)), (pg_date_in (to filter));
    cbn; by eauto.
Qed.

(** X18: a range in the form [YYYY-MM-DD] on a statistics route is answered
    200 with JSON when both dates are dates of the calendar (year 0001 or
    later, month 1 to 12, day within the month), and otherwise 500 with the
    fixed text, without [cache-control] and with the error of the database
    reported: a date like 2024-02-30 is never answered 400. *)
Theorem well_formed_range_is_200_or_500 (pgPool : Pool) (clock : Z)
    (req : IncomingMessage) (f t : string) :
  method req = "GET" →
  segments (url_pathname req)
    ∈ [ ["retrieval-success-rate"]; ["participants"; "daily"];
        ["participants"; "monthly"] ] →
  get (url_searchParams req) "from" = Some f →
  get (url_searchParams req) "to" = Some t →
  is_date f = true → is_date t = true →
  let w := createHandler pgPool clock req in
  if existing_date f && existing_date t then
    statusCode (res w) = 200 ∧ ∃ stats, ended (res w) = Some (Json stats)
  else
    statusCode (res w) = 500
    ∧ ended (res w) = Some (Text "Internal Server Error")
    ∧ header w "cache-control" = None
    ∧ captured w = [OtherError "invalid input syntax for type date"].
Proof.
  intros Hm Hs Hf Ht Hdf Hdt. cbv zeta.
  assert (∃ fetchStatsFn, route_fetcher (segments (url_pathname req)) = Some fetchStatsFn)
    as [fetchStatsFn Hr].
  { rewrite !elem_of_cons, elem_of_nil in Hs.
    destruct Hs as [->|[->|[->|[]]]]; by eexists. }
  rewrite (createHandler_statistics _ _ _ _ Hm Hr).
  pose proof (route_fetcher_outcome _ _ pgPool {| from := f; to := t |} Hr) as Hout.
  cbn [from to] in Hout.
  pose proof (pg_date_in_existing f Hdf) as Hef.
  pose proof (pg_date_in_existing t Hdt) as Het.
  destruct (existing_date f), (existing_date t); cbn [andb].
  - destruct Hef as [lo Hlo], Het as [hi Hhi]. rewrite Hlo, Hhi in Hout.
    destruct Hout as [stats Hfetch].
    rewrite (serve_canonical _ _ _ _ clock f t stats) by assumption.
    split; [reflexivity|]. by exists stats.
  - destruct Hef as [lo Hlo]. rewrite Hlo, Het in Hout.
    rewrite (serve_thrown clock _ _ _ _ f t _ Hf Ht Hdf Hdt Hout). by repeat split.
  - rewrite Hef in Hout.
    rewrite (serve_thrown clock _ _ _ _ f t _ Hf Ht Hdf Hdt Hout). by repeat split.
  - rewrite Hef in Hout.
    rewrite (serve_thrown clock _ _ _ _ f t _ Hf Ht Hdf Hdt Hout). by repeat split.
Qed.

Lemma well_formed_range_is_200_or_500_witness :
  let w := createHandler participants_pool 1704894284289
             {| method := "GET"; url_pathname := "/participants/daily";
                url_searchParams := [("from", "2024-02-30"); ("to", "2024-03-01")] |} in
  statusCode (res w) = 500
  ∧ ended (res w) = Some (Text "Internal Server Error")
  ∧ header w "cache-control" = None
  ∧ captured w = [OtherError "invalid input syntax for type date"].
Proof.
  apply (well_formed_range_is_200_or_500 participants_pool 1704894284289
           {| method := "GET"; url_pathname := "/participants/daily";
              url_searchParams := [("from", "2024-02-30"); ("to", "2024-03-01")] |}
           "2024-02-30" "2024-03-01");
    first [reflexivity | by apply list_elem_of_further, list_elem_of_here].
Defined.
